(** * image-ocr-system: the request-execution pipeline

    A shallow embedding of the Python package [app] (settings, validation,
    file reader, prompt cache, Gemini client with its retry policy, and the
    pipeline orchestrator), followed by the properties of its specification.

    Python code runs in a monad of process state and exceptions.  The
    process state holds the module-level and class-level variables of the
    package, the heap of client objects, and the history of calls made to
    the outside (environment, file system, image decoder, remote service,
    clock).  The outside is a [World]: for every external call it says what
    the call answers after a given history, so that an answer can change
    from one call to the next (a file that appears, a service that recovers
    between two attempts). *)

From Stdlib Require Import ZArith QArith Ascii String List Bool Lia.
From Stdlib Require Import DecimalString.
From stdpp Require Import base option gmap strings list.

Local Open Scope string_scope.

(** ** app/exceptions.py, with the built-in exception classes the package
       catches or lets through *)

Inductive exn_class : Type :=
  (* builtins *)
  | BaseException
  | KeyboardInterrupt
  | Exception
  | OSError                 (* IOError is an alias of OSError *)
  | UnidentifiedImageError  (* PIL: a subclass of OSError *)
  | ValueError
  | UnicodeDecodeError      (* a subclass of ValueError *)
  | JSONDecodeError         (* json: a subclass of ValueError *)
  | TypeError
  (* app/exceptions.py *)
  | OCRException
  | ImageLoadError
  | APIError
  | ValidationError
  | ConfigurationError
  | JSONParseError.

Global Instance exn_class_eq_dec : EqDecision exn_class.
Proof. solve_decision. Defined.

(** The direct base class, as the [class X(Y)] headers give it. *)
Definition base_class (c : exn_class) : option exn_class :=
  match c with
  | BaseException => None
  | KeyboardInterrupt => Some BaseException
  | Exception => Some BaseException
  | OSError => Some Exception
  | UnidentifiedImageError => Some OSError
  | ValueError => Some Exception
  | UnicodeDecodeError => Some ValueError
  | JSONDecodeError => Some ValueError
  | TypeError => Some Exception
  | OCRException => Some Exception
  | ImageLoadError => Some OCRException
  | APIError => Some OCRException
  | ValidationError => Some OCRException
  | ConfigurationError => Some OCRException
  | JSONParseError => Some OCRException
  end.

(** [issubclass c d], following [base_class] upwards; the hierarchy has
    depth four. *)
Fixpoint issubclass_upto (n : nat) (c d : exn_class) : bool :=
  bool_decide (c = d) ||
  match n with
  | O => false
  | S n' =>
      match base_class c with
      | Some b => issubclass_upto n' b d
      | None => false
      end
  end.

Definition issubclass : exn_class -> exn_class -> bool := issubclass_upto 4.

(** An exception object: its class and [str(e)]. *)
Record exn : Type := Exn { exn_class_of : exn_class; exn_str : string }.

Global Instance exn_eq_dec : EqDecision exn.
Proof. solve_decision. Defined.

Definition isinstance (e : exn) (c : exn_class) : bool :=
  issubclass (exn_class_of e) c.

(** [except (c1, c2, ...)]: does the clause catch [e]? *)
Definition caught_by (cs : list exn_class) (e : exn) : bool :=
  existsb (isinstance e) cs.

(** ** Results of a call *)

Inductive outcome (A : Type) : Type :=
  | Return (a : A)
  | Raise (e : exn).
Arguments Return {A} a.
Arguments Raise {A} e.

(** ** Values exchanged with the outside *)

(** A Python float, by the exact value of the decimal text it was read
    from; rounding to binary64 is not represented. *)
Inductive pyfloat : Type :=
  | Finite (q : Q)
  | Infinite (negative : bool)
  | NaN.

(** A decoded PIL image: [image.format] and [image.size]. *)
Record Image : Type := mkImage {
  format : option string;
  size : Z * Z
}.

(** The handle [genai.Client(api_key=...)] returns. *)
Record Client : Type := mkClient { client_id : nat }.

(** [types.GenerateContentConfig(...)] as [extract] fills it. *)
Record GenerateContentConfig : Type := mkConfig {
  temperature : pyfloat;
  top_p : pyfloat;
  response_mime_type : string;
  system_instruction : string
}.

(** The arguments of [client.models.generate_content]. *)
Record GenerateRequest : Type := mkRequest {
  model : string;
  contents : Image * string;
  config : GenerateContentConfig
}.

Record PromptFeedback : Type := mkFeedback {
  block_reason : option string
}.

Record UsageMetadata : Type := mkUsage {
  prompt_token_count : option Z;
  candidates_token_count : option Z
}.

(** The response object of the remote service. *)
Record Response : Type := mkResponse {
  text : option string;
  prompt_feedback : option PromptFeedback;
  usage_metadata : option UsageMetadata
}.

(** ** Calls to the outside *)

Inductive event : Type :=
  | EvLoadDotenv
  | EvGetenv (name : string)
  | EvExists (path : string)
  | EvIsFile (path : string)
  | EvAccess (path : string)
  | EvReadText (path : string)
  | EvImageOpen (path : string)
  | EvImageLoad (path : string)
  | EvGenaiClient (api_key : string)
  | EvGenerateContent (self : Client) (req : GenerateRequest)
  | EvSleep (seconds : Z).

Definition history : Type := list event.

(** What each external call answers after a given history. [os_getenv] is
    the environment as seen once [load_dotenv] has run; every reader of the
    environment in the package calls [_ensure_env_loaded] first. *)
Record World : Type := mkWorld {
  os_getenv : history -> string -> option string;
  path_exists : history -> string -> outcome bool;
  path_is_file : history -> string -> outcome bool;
  os_access_R_OK : history -> string -> bool;
  path_str : string -> string;  (* str(Path(p)) *)
  open_read_utf8 : history -> string -> outcome string;
  Image_open : history -> string -> outcome Image;
  Image_load : history -> string -> outcome unit;
  genai_Client : history -> string -> outcome Client;
  generate_content :
    history -> Client -> GenerateRequest -> outcome (option Response)
}.

(** ** Process state *)

(** Class attributes of [Settings] (app/config/settings.py). *)
Record SettingsCls : Type := mkSettings {
  _api_key : option string;
  _model_id : option string;
  _temperature : option pyfloat;
  _top_p : option pyfloat
}.

(** An instance of [GeminiOCRClient]. The class attribute [_client] is
    [None] and is never assigned on the class, so [self._client] is the
    instance attribute when [__init__] has set it and [None] otherwise. *)
Record GeminiOCRClientObj : Type := mkObj {
  obj_client : option Client
}.

(** A reference to an object of the heap. *)
Definition ref : Type := nat.

Record State : Type := mkState {
  _load_dotenv_called : bool;
  Settings : SettingsCls;
  heap : list GeminiOCRClientObj;
  _instance : option ref;               (* GeminiOCRClient._instance *)
  _PROMPT_CACHE : gmap string string;   (* app/pipeline.py *)
  trace : history
}.

(** The state of a process that has imported the package and called
    nothing yet. *)
Definition init_state : State :=
  {| _load_dotenv_called := false;
     Settings := mkSettings None None None None;
     heap := [];
     _instance := None;
     _PROMPT_CACHE := ∅;
     trace := [] |}.

(** ** The monad of Python computations *)

Definition Py (A : Type) : Type := State -> outcome A * State.

Definition ret {A} (a : A) : Py A := fun s => (Return a, s).

Definition raise {A} (e : exn) : Py A := fun s => (Raise e, s).

Definition bind {A B} (m : Py A) (k : A -> Py B) : Py B :=
  fun s =>
    match m s with
    | (Return a, s') => k a s'
    | (Raise e, s') => (Raise e, s')
    end.

Notation "'let*' x ':=' m 'in' k" := (bind m (fun x => k))
  (at level 10, x name, m at level 100, k at level 200).
Notation "m '>>' k" := (bind m (fun _ => k))
  (at level 90, right associativity).

(** [try: m  except cs1 as e: h1 e  except cs2 as e: h2 e ...]: the first
    clause that catches the exception handles it, in the state the body
    left; an exception no clause catches goes on. *)
Fixpoint handler_for {A}
    (clauses : list (list exn_class * (exn -> Py A))) (e : exn)
    : option (Py A) :=
  match clauses with
  | [] => None
  | (cs, h) :: rest =>
      if caught_by cs e then Some (h e) else handler_for rest e
  end.

Definition try_except {A}
    (m : Py A) (clauses : list (list exn_class * (exn -> Py A))) : Py A :=
  fun s =>
    match m s with
    | (Return a, s') => (Return a, s')
    | (Raise e, s') =>
        match handler_for clauses e with
        | Some h => h s'
        | None => (Raise e, s')
        end
    end.

(** A pure computation that may raise. *)
Definition lift {A} (o : outcome A) : Py A := fun s => (o, s).

Definition get_state : Py State := fun s => (Return s, s).

(** The state once the call [ev] is written in the history. *)
Definition logged (ev : event) (s : State) : State :=
  mkState (_load_dotenv_called s) (Settings s) (heap s) (_instance s)
          (_PROMPT_CACHE s) (trace s ++ [ev])%list.

Definition log (ev : event) : Py unit :=
  fun s => (Return tt, logged ev s).

(** An external call whose answer is a value. *)
Definition ask {A} (ev : event) (answer : history -> A) : Py A :=
  fun s => (log ev >> ret (answer (trace s))) s.

(** An external call that can raise. *)
Definition call {A} (ev : event) (answer : history -> outcome A) : Py A :=
  fun s =>
    (log ev >>
     match answer (trace s) with
     | Return a => ret a
     | Raise e => raise e
     end) s.

(** State updates, one per variable. *)
Definition set_load_dotenv_called (b : bool) (s : State) : State :=
  mkState b (Settings s) (heap s) (_instance s) (_PROMPT_CACHE s) (trace s).
Definition set_Settings (c : SettingsCls) (s : State) : State :=
  mkState (_load_dotenv_called s) c (heap s) (_instance s)
          (_PROMPT_CACHE s) (trace s).
Definition set_heap (h : list GeminiOCRClientObj) (s : State) : State :=
  mkState (_load_dotenv_called s) (Settings s) h (_instance s)
          (_PROMPT_CACHE s) (trace s).
Definition set_instance (i : option ref) (s : State) : State :=
  mkState (_load_dotenv_called s) (Settings s) (heap s) i
          (_PROMPT_CACHE s) (trace s).
Definition set_PROMPT_CACHE (c : gmap string string) (s : State) : State :=
  mkState (_load_dotenv_called s) (Settings s) (heap s) (_instance s)
          c (trace s).

Definition modify (f : State -> State) : Py unit :=
  fun s => (Return tt, f s).

(** ** The Python built-ins the package calls: [float] and [json.loads]

    Both are library code.  They are modelled on ASCII text after the
    CPython documentation and the [json] decoder; strings are byte strings
    (UTF-8). *)

Module Builtins.

(** The double quote character, and a text between double quotes. *)
Definition dquote : ascii := ascii_of_nat 34.

Definition quoted (s : string) : string :=
  String dquote (s ++ String dquote EmptyString).

Definition is_digit (c : ascii) : bool :=
  (48 <=? nat_of_ascii c)%nat && (nat_of_ascii c <=? 57)%nat.

Definition digit_val (c : ascii) : Z := Z.of_nat (nat_of_ascii c) - 48.

(** The whitespace [str.strip] removes (ASCII). *)
Definition is_space (c : ascii) : bool :=
  let n := nat_of_ascii c in
  (n =? 32)%nat || ((9 <=? n)%nat && (n <=? 13)%nat).

Fixpoint lstrip (s : string) : string :=
  match s with
  | String c r => if is_space c then lstrip r else s
  | EmptyString => s
  end.

Fixpoint rstrip (s : string) : string :=
  match s with
  | String c r =>
      match rstrip r with
      | EmptyString => if is_space c then EmptyString else String c EmptyString
      | r' => String c r'
      end
  | EmptyString => EmptyString
  end.

Definition strip (s : string) : string := rstrip (lstrip s).

Definition lower (c : ascii) : ascii :=
  let n := nat_of_ascii c in
  if (65 <=? n)%nat && (n <=? 90)%nat then ascii_of_nat (n + 32) else c.

Fixpoint lower_string (s : string) : string :=
  match s with
  | String c r => String (lower c) (lower_string r)
  | EmptyString => EmptyString
  end.

(** The rest of a [digitpart]: digit (["_"] digit)*.  Returns the value,
    the number of digits read and the text left. *)
Fixpoint digits_rest (acc : Z) (n : nat) (s : string) : Z * nat * string :=
  match s with
  | String c r =>
      if is_digit c then digits_rest (10 * acc + digit_val c) (S n) r
      else if Ascii.eqb c "_" then
        match r with
        | String d r' =>
            if is_digit d
            then digits_rest (10 * acc + digit_val d) (S n) r'
            else (acc, n, s)
        | EmptyString => (acc, n, s)
        end
      else (acc, n, s)
  | EmptyString => (acc, n, s)
  end.

Definition digitpart (s : string) : option (Z * nat * string) :=
  match s with
  | String c r =>
      if is_digit c then Some (digits_rest (digit_val c) 1 r) else None
  | EmptyString => None
  end.

(** [m * 10^e] as a reduced fraction. *)
Definition scale10 (m e : Z) : Q :=
  Qred (if (0 <=? e)%Z then inject_Z (m * 10 ^ e)
        else Qmake m (Z.to_pos (10 ^ (- e)))).

(** [("e"|"E") ["+"|"-"] digitpart], when the text starts with one. *)
Definition exponent (s : string) : option (Z * string) :=
  match s with
  | String c r =>
      if Ascii.eqb (lower c) "e" then
        let '(neg, r1) :=
          match r with
          | String sg r' =>
              if Ascii.eqb sg "-" then (true, r')
              else if Ascii.eqb sg "+" then (false, r')
              else (false, r)
          | EmptyString => (false, r)
          end in
        match digitpart r1 with
        | Some (v, _, rest) => Some (if neg then (- v)%Z else v, rest)
        | None => None
        end
      else None
  | EmptyString => None
  end.

(** An unsigned [floatnumber] that must span the whole text:
    [digitpart] "." [digitpart] [exponent], with a digit on at least one
    side of the point. *)
Definition floatnumber (s : string) : option Q :=
  let '(ip, s1) :=
    match digitpart s with
    | Some (v, _, r) => (Some v, r)
    | None => (None, s)
    end in
  let '(fp, s2) :=
    match s1 with
    | String c r =>
        if Ascii.eqb c "." then
          match digitpart r with
          | Some (v, n, r') => (Some (v, n), r')
          | None => (Some (0%Z, O), r)
          end
        else (None, s1)
    | EmptyString => (None, s1)
    end in
  let have_digit :=
    match ip, fp with
    | Some _, _ => true
    | None, Some (_, S _) => true
    | None, _ => false
    end in
  if have_digit then
    let i := default 0%Z ip in
    let '(f, n) := default (0%Z, O) fp in
    let m := (i * 10 ^ Z.of_nat n + f)%Z in
    match exponent s2 with
    | Some (e, EmptyString) => Some (scale10 m (e - Z.of_nat n))
    | Some (_, String _ _) => None
    | None =>
        match s2 with
        | EmptyString => Some (scale10 m (- Z.of_nat n))
        | String _ _ => None
        end
    end
  else None.

(** [float(s)] for a string argument: the parsed value, or the message of
    the [ValueError]. *)
Definition float (s : string) : outcome pyfloat :=
  let t := strip s in
  let '(neg, u) :=
    match t with
    | String c r =>
        if Ascii.eqb c "-" then (true, r)
        else if Ascii.eqb c "+" then (false, r)
        else (false, t)
    | EmptyString => (false, t)
    end in
  let l := lower_string u in
  if String.eqb l "inf" || String.eqb l "infinity" then Return (Infinite neg)
  else if String.eqb l "nan" then Return NaN
  else
    match floatnumber u with
    | Some q => Return (Finite (if neg then Qred (- q) else q))
    | None =>
        Raise (Exn ValueError
                 ("could not convert string to float: '" ++ s ++ "'"))
    end.

End Builtins.

(** *** JSON values and [json.loads] *)

#[local] Set Warnings "-register-all".

Inductive json : Type :=
  | JNull
  | JBool (b : bool)
  | JInt (z : Z)
  | JFloat (f : pyfloat)
  | JStr (s : string)
  | JList (l : list json)
  | JDict (d : list (string * json)).

(** A Python [dict] with string keys: the items in insertion order, each
    key once.  [d[k] = v] replaces the value of a present key in place and
    appends an absent one. *)
Fixpoint dict_setitem {V} (k : string) (v : V) (d : list (string * V))
    : list (string * V) :=
  match d with
  | [] => [(k, v)]
  | (k', v') :: d' =>
      if String.eqb k k' then (k, v) :: d'
      else (k', v') :: dict_setitem k v d'
  end.

Fixpoint dict_get {V} (k : string) (d : list (string * V)) : option V :=
  match d with
  | [] => None
  | (k', v') :: d' => if String.eqb k k' then Some v' else dict_get k d'
  end.

Module Json.

Import Builtins.

(** A decoding step answers a value and the text left, or an error: its
    message and how many characters were left where it was found. *)
Definition step (A : Type) : Type := (A * string) + (string * nat).

Definition fail {A} (msg : string) (remaining : string) : step A :=
  inr (msg, String.length remaining).

(** WHITESPACE of the decoder: space, tab, line feed, carriage return. *)
Definition is_ws (c : ascii) : bool :=
  let n := nat_of_ascii c in
  (n =? 32)%nat || (n =? 9)%nat || (n =? 10)%nat || (n =? 13)%nat.

Fixpoint skip_ws (s : string) : string :=
  match s with
  | String c r => if is_ws c then skip_ws r else s
  | EmptyString => s
  end.

Definition hex_val (c : ascii) : option Z :=
  let n := nat_of_ascii c in
  if is_digit c then Some (Z.of_nat n - 48)%Z
  else if (97 <=? n)%nat && (n <=? 102)%nat then Some (Z.of_nat n - 87)%Z
  else if (65 <=? n)%nat && (n <=? 70)%nat then Some (Z.of_nat n - 55)%Z
  else None.

Definition hex4 (a b c d : ascii) : option Z :=
  match hex_val a, hex_val b, hex_val c, hex_val d with
  | Some x, Some y, Some z, Some w =>
      Some (x * 4096 + y * 256 + z * 16 + w)%Z
  | _, _, _, _ => None
  end.

Definition byte (z : Z) : ascii := ascii_of_nat (Z.to_nat z).

(** [chr(u)] as UTF-8 bytes. *)
Definition utf8 (u : Z) : string :=
  if (u <? 128)%Z then String (byte u) ""
  else if (u <? 2048)%Z then
    String (byte (192 + u / 64)) (String (byte (128 + u mod 64)) "")
  else if (u <? 65536)%Z then
    String (byte (224 + u / 4096))
      (String (byte (128 + (u / 64) mod 64))
         (String (byte (128 + u mod 64)) ""))
  else
    String (byte (240 + u / 262144))
      (String (byte (128 + (u / 4096) mod 64))
         (String (byte (128 + (u / 64) mod 64))
            (String (byte (128 + u mod 64)) ""))).

(** BACKSLASH of the decoder: the one-letter escapes. *)
Definition simple_escape (c : ascii) : option ascii :=
  if Ascii.eqb c dquote then Some dquote
  else if Ascii.eqb c "\" then Some "\"%char
  else if Ascii.eqb c "/" then Some "/"%char
  else if Ascii.eqb c "b" then Some (ascii_of_nat 8)
  else if Ascii.eqb c "f" then Some (ascii_of_nat 12)
  else if Ascii.eqb c "n" then Some (ascii_of_nat 10)
  else if Ascii.eqb c "r" then Some (ascii_of_nat 13)
  else if Ascii.eqb c "t" then Some (ascii_of_nat 9)
  else None.

(** [scanstring], entered after the opening quote; [begin] is what was
    left of the text at that quote.  Errors inside an escape are reported
    at its backslash. *)
Fixpoint scanstring (begin : nat) (acc : string) (s : string)
    : step string :=
  match s with
  | EmptyString => inr ("Unterminated string starting at", begin)
  | String c r =>
      if Ascii.eqb c dquote then inl (acc, r)
      else if Ascii.eqb c "\" then
        match r with
        | EmptyString => inr ("Unterminated string starting at", begin)
        | String e r1 =>
            if Ascii.eqb e "u" then
              match r1 with
              | String h1 (String h2 (String h3 (String h4 r2))) =>
                  match hex4 h1 h2 h3 h4 with
                  | None => fail "Invalid \uXXXX escape" s
                  | Some u =>
                      let single := scanstring begin (acc ++ utf8 u) r2 in
                      if (55296 <=? u)%Z && (u <=? 56319)%Z then
                        (* a high surrogate: join it with a low one *)
                        match r2 with
                        | String b1 (String b2 (String l1 (String l2
                            (String l3 (String l4 r3))))) =>
                            match hex4 l1 l2 l3 l4 with
                            | Some u2 =>
                                if Ascii.eqb b1 "\" && Ascii.eqb b2 "u"
                                   && (56320 <=? u2)%Z && (u2 <=? 57343)%Z
                                then
                                  scanstring begin
                                    (acc ++ utf8 (65536 + (u - 55296) * 1024
                                                  + (u2 - 56320))) r3
                                else single
                            | None => single
                            end
                        | _ => single
                        end
                      else single
                  end
              | _ => fail "Invalid \uXXXX escape" s
              end
            else
              match simple_escape e with
              | Some ch => scanstring begin (acc ++ String ch "") r1
              | None => fail "Invalid \escape" s
              end
        end
      else if (nat_of_ascii c <? 32)%nat then
        fail "Invalid control character at" s
      else scanstring begin (acc ++ String c "") r
  end.

(** Plain decimal digits, as the number pattern of the decoder reads them. *)
Fixpoint digits (acc : Z) (n : nat) (s : string) : Z * nat * string :=
  match s with
  | String c r =>
      if is_digit c then digits (10 * acc + digit_val c) (S n) r
      else (acc, n, s)
  | EmptyString => (acc, n, s)
  end.

(** NUMBER_RE matched at the start of the text: an optional minus sign,
    then a zero or a nonzero digit followed by digits; an optional
    fraction (a point and at least one digit); an optional exponent (e or
    E, an optional sign, at least one digit).  An integer when neither
    fraction nor exponent is present, a float otherwise. *)
Definition match_number (s : string) : option (json * string) :=
  let '(neg, s0) :=
    match s with
    | String c r => if Ascii.eqb c "-" then (true, r) else (false, s)
    | EmptyString => (false, s)
    end in
  match s0 with
  | String c r =>
      if is_digit c then
        let '(iv, _, s1) :=
          if Ascii.eqb c "0" then (0%Z, 1%nat, r)
          else digits (digit_val c) 1 r in
        let '(frac, s2) :=
          match s1 with
          | String p r' =>
              match digits 0 0 r' with
              | (v, S n, rest) =>
                  if Ascii.eqb p "." then (Some (v, S n), rest)
                  else (None, s1)
              | (_, O, _) => (None, s1)
              end
          | EmptyString => (None, s1)
          end in
        let '(exp, s3) :=
          match s2 with
          | String e r' =>
              if Ascii.eqb (lower e) "e" then
                let '(eneg, r1) :=
                  match r' with
                  | String sg r'' =>
                      if Ascii.eqb sg "-" then (true, r'')
                      else if Ascii.eqb sg "+" then (false, r'')
                      else (false, r')
                  | EmptyString => (false, r')
                  end in
                match digits 0 0 r1 with
                | (v, S _, rest) =>
                    (Some (if eneg then (- v)%Z else v), rest)
                | (_, O, _) => (None, s2)
                end
              else (None, s2)
          | EmptyString => (None, s2)
          end in
        let sign (z : Z) := if neg then (- z)%Z else z in
        match frac, exp with
        | None, None => Some (JInt (sign iv), s3)
        | _, _ =>
            let '(fv, n) := default (0%Z, O) frac in
            let e := default 0%Z exp in
            Some (JFloat (Finite (scale10
                                    (sign (iv * 10 ^ Z.of_nat n + fv)%Z)
                                    (e - Z.of_nat n)%Z)), s3)
        end
      else None
  | EmptyString => None
  end.

(** Does [s] start with [p]?  Then the text after it. *)
Fixpoint after_prefix (p s : string) : option string :=
  match p, s with
  | EmptyString, _ => Some s
  | String a p', String b s' =>
      if Ascii.eqb a b then after_prefix p' s' else None
  | String _ _, EmptyString => None
  end.

(** The scanner with its two loops.  Every call uses up one unit of
    [fuel], and of two nested calls at least one is made on a shorter
    text, so two units per character of the document are enough
    ([decode]). *)
Fixpoint scan_once (fuel : nat) (s : string) {struct fuel} : step json :=
  match fuel with
  | O => fail "maximum recursion depth exceeded" s
  | S fuel' =>
      match s with
      | EmptyString => fail "Expecting value" s
      | String c r =>
          if Ascii.eqb c dquote then
            match scanstring (String.length s) "" r with
            | inl (str, rest) => inl (JStr str, rest)
            | inr e => inr e
            end
          else if Ascii.eqb c "{" then
            let r0 := skip_ws r in
            match r0 with
            | String q r1 =>
                if Ascii.eqb q "}" then inl (JDict [], r1)
                else if Ascii.eqb q dquote then
                  match JSONObject fuel' [] r0 with
                  | inl (d, rest) => inl (JDict d, rest)
                  | inr e => inr e
                  end
                else
                  fail "Expecting property name enclosed in double quotes" r0
            | EmptyString =>
                fail "Expecting property name enclosed in double quotes" r0
            end
          else if Ascii.eqb c "[" then
            let r0 := skip_ws r in
            match r0 with
            | String q r1 =>
                if Ascii.eqb q "]" then inl (JList [], r1)
                else
                  match JSONArray fuel' [] r0 with
                  | inl (l, rest) => inl (JList l, rest)
                  | inr e => inr e
                  end
            | EmptyString => fail "Expecting value" r0
            end
          else
            match after_prefix "null" s, after_prefix "true" s,
                  after_prefix "false" s with
            | Some rest, _, _ => inl (JNull, rest)
            | _, Some rest, _ => inl (JBool true, rest)
            | _, _, Some rest => inl (JBool false, rest)
            | None, None, None =>
                match match_number s with
                | Some (v, rest) => inl (v, rest)
                | None =>
                    match after_prefix "NaN" s, after_prefix "Infinity" s,
                          after_prefix "-Infinity" s with
                    | Some rest, _, _ => inl (JFloat NaN, rest)
                    | _, Some rest, _ => inl (JFloat (Infinite false), rest)
                    | _, _, Some rest => inl (JFloat (Infinite true), rest)
                    | None, None, None => fail "Expecting value" s
                    end
                end
            end
      end
  end

(** The loop of [JSONObject]: [s] starts at the opening quote of a key. *)
with JSONObject (fuel : nat) (pairs : list (string * json)) (s : string)
    {struct fuel} : step (list (string * json)) :=
  match fuel with
  | O => fail "maximum recursion depth exceeded" s
  | S fuel' =>
      match s with
      | String _ r =>
          match scanstring (String.length s) "" r with
          | inr e => inr e
          | inl (key, s1) =>
              let s2 := skip_ws s1 in
              match s2 with
              | String colon s3 =>
                  if Ascii.eqb colon ":" then
                    match scan_once fuel' (skip_ws s3) with
                    | inr e => inr e
                    | inl (value, s4) =>
                        let pairs' := dict_setitem key value pairs in
                        let s5 := skip_ws s4 in
                        match s5 with
                        | String nextchar s6 =>
                            if Ascii.eqb nextchar "}" then inl (pairs', s6)
                            else if Ascii.eqb nextchar "," then
                              let s7 := skip_ws s6 in
                              match s7 with
                              | String q _ =>
                                  if Ascii.eqb q dquote
                                  then JSONObject fuel' pairs' s7
                                  else fail
                                    "Expecting property name enclosed in double quotes"
                                    s7
                              | EmptyString => fail
                                  "Expecting property name enclosed in double quotes"
                                  s7
                              end
                            else fail "Expecting ',' delimiter" s5
                        | EmptyString => fail "Expecting ',' delimiter" s5
                        end
                    end
                  else fail "Expecting ':' delimiter" s2
              | EmptyString => fail "Expecting ':' delimiter" s2
              end
          end
      | EmptyString =>
          fail "Expecting property name enclosed in double quotes" s
      end
  end

(** The loop of [JSONArray]: [s] starts at an element. *)
with JSONArray (fuel : nat) (values : list json) (s : string)
    {struct fuel} : step (list json) :=
  match fuel with
  | O => fail "maximum recursion depth exceeded" s
  | S fuel' =>
      match scan_once fuel' s with
      | inr e => inr e
      | inl (value, s1) =>
          let values' := (values ++ [value])%list in
          let s2 := skip_ws s1 in
          match s2 with
          | String nextchar s3 =>
              if Ascii.eqb nextchar "]" then inl (values', s3)
              else if Ascii.eqb nextchar ","
              then JSONArray fuel' values' (skip_ws s3)
              else fail "Expecting ',' delimiter" s2
          | EmptyString => fail "Expecting ',' delimiter" s2
          end
      end
  end.

(** [JSONDecoder.decode]: one value, surrounded by whitespace only.  The
    error is the message and the index [pos] in the document. *)
Definition decode (doc : string) : json + (string * nat) :=
  let n := String.length doc in
  match scan_once (S (2 * n)) (skip_ws doc) with
  | inl (obj, rest) =>
      match skip_ws rest with
      | EmptyString => inl obj
      | String c r => inr ("Extra data", (n - String.length (String c r))%nat)
      end
  | inr (msg, remaining) => inr (msg, (n - remaining)%nat)
  end.

(** Line and column of the index [pos], both counted from one. *)
Fixpoint line_col (doc : string) (pos : nat) (line col : nat) : nat * nat :=
  match pos, doc with
  | S pos', String c r =>
      if Ascii.eqb c (ascii_of_nat 10) then line_col r pos' (S line) 1
      else line_col r pos' line (S col)
  | _, _ => (line, col)
  end.

Definition str_of_nat (n : nat) : string :=
  NilEmpty.string_of_uint (Nat.to_uint n).

(** [str(e)] of a [JSONDecodeError]. *)
Definition errmsg (msg : string) (doc : string) (pos : nat) : string :=
  let '(line, col) := line_col doc pos 1 1 in
  msg ++ ": line " ++ str_of_nat line ++ " column " ++ str_of_nat col
      ++ " (char " ++ str_of_nat pos ++ ")".

(** The byte order mark U+FEFF in UTF-8. *)
Definition BOM : string :=
  String (ascii_of_nat 239) (String (ascii_of_nat 187)
    (String (ascii_of_nat 191) "")).

(** [json.loads(s)] for a [str] argument. *)
Definition loads (doc : string) : outcome json :=
  match after_prefix BOM doc with
  | Some _ =>
      Raise (Exn JSONDecodeError
               (errmsg "Unexpected UTF-8 BOM (decode using utf-8-sig)" doc 0))
  | None =>
      match decode doc with
      | inl obj => Return obj
      | inr (msg, pos) => Raise (Exn JSONDecodeError (errmsg msg doc pos))
      end
  end.

End Json.

(** The text [{"a":1}]. *)
Definition text_a1 : string := "{" ++ Builtins.quoted "a" ++ ":1}".

(** ** The package, over a given outside *)

Section App.

Context (w : World).

(** *** app/config/settings.py *)

Definition _ensure_env_loaded : Py unit :=
  let* s := get_state in
  if negb (_load_dotenv_called s)
  then log EvLoadDotenv >> modify (set_load_dotenv_called true)
  else ret tt.

Definition getenv (name : string) : Py (option string) :=
  ask (EvGetenv name) (fun h => os_getenv w h name).

(** Python truth of an optional string: [None] and [""] are false. *)
Definition truthy (v : option string) : bool :=
  match v with
  | Some (String _ _) => true
  | Some EmptyString | None => false
  end.

(** In each getter the final [return cls._x] is written in both branches
    of the [if cls._x is None]. *)
Definition _get_api_key : Py string :=
  _ensure_env_loaded >>
  let* s := get_state in
  match _api_key (Settings s) with
  | None =>
      let* v := getenv "GEMINI_API_KEY" in
      modify (fun s =>
        set_Settings (mkSettings v (_model_id (Settings s))
                        (_temperature (Settings s)) (_top_p (Settings s))) s)
      >>
      if negb (truthy v)
      then raise (Exn ConfigurationError
                    "GEMINI_API_KEY environment variable is not set")
      else ret (default "" v)
  | Some k => ret k
  end.

Definition _get_model_id : Py string :=
  _ensure_env_loaded >>
  let* s := get_state in
  match _model_id (Settings s) with
  | None =>
      let* v := getenv "GEMINI_MODEL" in
      modify (fun s =>
        set_Settings (mkSettings (_api_key (Settings s)) v
                        (_temperature (Settings s)) (_top_p (Settings s))) s)
      >>
      if negb (truthy v)
      then raise (Exn ConfigurationError
                    "GEMINI_MODEL environment variable is not set")
      else ret (default "" v)
  | Some m => ret m
  end.

Definition _get_temperature : Py pyfloat :=
  _ensure_env_loaded >>
  let* s := get_state in
  match _temperature (Settings s) with
  | None =>
      let* v := getenv "TEMPERATURE" in
      let* f := lift (Builtins.float (default "0.0" v)) in
      modify (fun s =>
        set_Settings (mkSettings (_api_key (Settings s))
                        (_model_id (Settings s)) (Some f)
                        (_top_p (Settings s))) s)
      >> ret f
  | Some f => ret f
  end.

Definition _get_top_p : Py pyfloat :=
  _ensure_env_loaded >>
  let* s := get_state in
  match _top_p (Settings s) with
  | None =>
      let* v := getenv "TOP_P" in
      let* f := lift (Builtins.float (default "0.1" v)) in
      modify (fun s =>
        set_Settings (mkSettings (_api_key (Settings s))
                        (_model_id (Settings s))
                        (_temperature (Settings s)) (Some f)) s)
      >> ret f
  | Some f => ret f
  end.

Definition get_api_key : Py string := _get_api_key.
Definition get_model_id : Py string := _get_model_id.
Definition get_temperature : Py pyfloat := _get_temperature.
Definition get_top_p : Py pyfloat := _get_top_p.

(** *** app/utils/validation.py *)

Definition validate_image_path (image_path : string) : Py string :=
  if String.eqb image_path ""
  then raise (Exn ValidationError "Image path cannot be empty")
  else
    let* ex := call (EvExists image_path)
                    (fun h => path_exists w h image_path) in
    if negb ex
    then raise (Exn ValidationError
                  ("Image path does not exist: " ++ image_path))
    else
      let* isf := call (EvIsFile image_path)
                       (fun h => path_is_file w h image_path) in
      if negb isf
      then raise (Exn ValidationError
                    ("Image path is not a file: " ++ image_path))
      else
        let* ok := ask (EvAccess image_path)
                       (fun h => os_access_R_OK w h image_path) in
        if negb ok
        then raise (Exn ValidationError
                      ("Image file is not readable: " ++ image_path))
        else ret (path_str w image_path).

Definition validate_image_format (image : Image) : Py unit :=
  match format image with
  | None =>
      raise (Exn ImageLoadError "Image format could not be determined")
  | Some _ =>
      if (fst (size image) =? 0)%Z || (snd (size image) =? 0)%Z
      then raise (Exn ImageLoadError "Image has invalid dimensions")
      else ret tt
  end.


(** *** app/utils/file_utils.py *)

Definition read_file (path : string) : Py string :=
  let* ex := call (EvExists path) (fun h => path_exists w h path) in
  if negb ex
  then raise (Exn ValidationError ("File does not exist: " ++ path))
  else
    let* isf := call (EvIsFile path) (fun h => path_is_file w h path) in
    if negb isf
    then raise (Exn ValidationError ("Path is not a file: " ++ path))
    else
      try_except
        (call (EvReadText path) (fun h => open_read_utf8 w h path))
        [([OSError; OSError; UnicodeDecodeError],
          fun e => raise (Exn ValidationError
                     ("Failed to read file " ++ path ++ ": " ++ exn_str e)))].

(** *** app/processors/image_loader.py *)

Definition load_image (path : string) : Py Image :=
  try_except
    (let* validated_path := validate_image_path path in
     let* image := call (EvImageOpen validated_path)
                        (fun h => Image_open w h validated_path) in
     call (EvImageLoad validated_path)
          (fun h => Image_load w h validated_path) >>
     validate_image_format image >>
     ret image)
    [([OSError; OSError; UnidentifiedImageError],
      fun e => raise (Exn ImageLoadError
                 ("Failed to load image from " ++ path ++ ": " ++ exn_str e)))].

(** *** app/ocr/gemini_client.py *)

(** [self._client] *)
Definition self_client (s : State) (self : ref) : option Client :=
  match heap s !! self with
  | Some o => obj_client o
  | None => None
  end.

(** [self._client = c] *)
Definition set_self_client (self : ref) (c : Client) : Py unit :=
  modify (fun s => set_heap (<[self := mkObj (Some c)]> (heap s)) s).

(** [super().__new__(cls)]: a fresh object without instance attributes. *)
Definition object__new__ : Py ref :=
  let* s := get_state in
  modify (set_heap (heap s ++ [mkObj None])%list) >>
  ret (length (heap s)).

Definition __new__ : Py ref :=
  let* s := get_state in
  match _instance s with
  | None =>
      let* o := object__new__ in
      modify (set_instance (Some o)) >>
      ret o
  | Some o => ret o
  end.

Definition __init__ (self : ref) : Py unit :=
  let* s := get_state in
  match self_client s self with
  | Some _ => ret tt
  | None =>
      try_except
        (let* key := get_api_key in
         let* c := call (EvGenaiClient key)
                        (fun h => genai_Client w h key) in
         set_self_client self c)
        [([ConfigurationError],
          fun e => raise (Exn ConfigurationError
                     ("Failed to initialize Gemini client: " ++ exn_str e)));
         ([Exception],
          fun e => raise (Exn APIError
                     ("Failed to create Gemini client: " ++ exn_str e)))]
  end.

(** The call [GeminiOCRClient()]: [__new__], then [__init__] on what it
    returned. *)
Definition GeminiOCRClient : Py ref :=
  let* self := __new__ in
  __init__ self >>
  ret self.

(** The property [client]. *)
Definition client (self : ref) : Py Client :=
  let* s := get_state in
  match self_client s self with
  | None => raise (Exn APIError "Client not initialized")
  | Some c => ret c
  end.

(** The body of [extract], under the decorator. *)
Definition extract_body
    (self : ref) (image : Image) (system_prompt user_prompt : string)
    : Py Response :=
  try_except
    (let* t := get_temperature in
     let* p := get_top_p in
     let config := mkConfig t p "application/json" system_prompt in
     let* c := client self in
     let* m := get_model_id in
     let req := mkRequest m (image, user_prompt) config in
     let* response := call (EvGenerateContent c req)
                           (fun h => generate_content w h c req) in
     match response with
     | None => raise (Exn APIError "Empty response from Gemini API")
     | Some response =>
         (match prompt_feedback response with
          | Some fb =>
              if truthy (block_reason fb)
              then raise (Exn APIError
                            ("Content blocked by safety filters: "
                             ++ default "" (block_reason fb)))
              else ret tt
          | None => ret tt
          end) >>
         if negb (truthy (text response))
         then raise (Exn APIError "Empty response text from Gemini API")
         else ret response
     end)
    [([APIError], fun e => raise e);
     ([Exception],
      fun e => raise (Exn APIError
                 ("Gemini API call failed: " ++ exn_str e)))].

(** **** The tenacity decorator

    [wait_exponential(multiplier, min, max)] before the attempt after
    [attempt_number]:
    [max(max(0, min), min(multiplier * 2 ** (attempt_number - 1), max))]. *)
Definition wait_exponential (multiplier min max : Z) (attempt_number : nat)
    : Z :=
  Z.max (Z.max 0 min)
        (Z.min (multiplier * 2 ^ (Z.of_nat attempt_number - 1)) max).

Definition sleep (seconds : Z) : Py unit := log (EvSleep seconds).

(** The loop of [Retrying] with [stop_after_attempt], a wait function,
    [retry_if_exception_type] and [reraise=True].  [attempts_left] is the
    stop bound minus [attempt_number]: the stop condition
    [attempt_number >= bound] is [attempts_left = 0].  A result is
    returned; an exception outside the retried class is re-raised at once;
    a retried exception is re-raised as it is when the loop stops, and
    otherwise the loop sleeps and calls again.  The loop also answers the
    [attempt_number] it ended at. *)
Fixpoint Retrying {A}
    (wait : nat -> Z) (retry_type : exn_class)
    (attempts_left attempt_number : nat) (fn : Py A)
    (s : State) : outcome A * State * nat :=
  match fn s with
  | (Return a, s') => (Return a, s', attempt_number)
  | (Raise e, s') =>
      if isinstance e retry_type then
        match attempts_left with
        | O => (Raise e, s', attempt_number)
        | S n =>
            Retrying wait retry_type n (S attempt_number) fn
                     (snd (sleep (wait attempt_number) s'))
        end
      else (Raise e, s', attempt_number)
  end.

(** [@retry(stop=stop_after_attempt(n), wait=..., retry=
    retry_if_exception_type(c), reraise=True)] *)
Definition retry {A}
    (stop_after_attempt : nat) (wait : nat -> Z)
    (retry_if_exception_type : exn_class) (fn : Py A) : Py A :=
  fun s =>
    fst (Retrying wait retry_if_exception_type
                  (stop_after_attempt - 1) 1 fn s).

Definition extract
    (self : ref) (image : Image) (system_prompt user_prompt : string)
    : Py Response :=
  retry 3 (wait_exponential 1 2 10) APIError
        (extract_body self image system_prompt user_prompt).

(** *** app/pipeline.py *)

(** The final [return _PROMPT_CACHE[path]] is written in both branches. *)
Definition _get_cached_prompt (path : string) : Py string :=
  let* s := get_state in
  match _PROMPT_CACHE s !! path with
  | None =>
      let* content := read_file path in
      modify (fun s => set_PROMPT_CACHE (<[path := content]> (_PROMPT_CACHE s)) s)
      >> ret content
  | Some content => ret content
  end.

(** [type(x).__name__] of a decoded JSON value. *)
Definition type_name (v : json) : string :=
  match v with
  | JNull => "NoneType"
  | JBool _ => "bool"
  | JInt _ => "int"
  | JFloat _ => "float"
  | JStr _ => "str"
  | JList _ => "list"
  | JDict _ => "dict"
  end.

(** [data[key] = value] with a string key: an item of a dict is set; any
    other decoded value refuses with [TypeError]. *)
Definition setitem (data : json) (key : string) (value : json)
    : outcome json :=
  match data with
  | JDict d => Return (JDict (dict_setitem key value d))
  | JList _ =>
      Raise (Exn TypeError
               "list indices must be integers or slices, not str")
  | _ =>
      Raise (Exn TypeError
               ("'" ++ type_name data
                ++ "' object does not support item assignment"))
  end.

Definition json_of_count (n : option Z) : json :=
  match n with
  | Some z => JInt z
  | None => JNull
  end.

Definition run_pipeline (image_path : string) : Py json :=
  try_except
    (let* image := load_image image_path in
     let* system_prompt := _get_cached_prompt "app/prompts/system.txt" in
     let* user_prompt := _get_cached_prompt "app/prompts/extraction.txt" in
     let* ocr_client := GeminiOCRClient in
     let* response := extract ocr_client image system_prompt user_prompt in
     let* data :=
       try_except
         (match text response with
          | Some t => lift (Json.loads t)
          | None =>
              raise (Exn TypeError
                "the JSON object must be str, bytes or bytearray, not NoneType")
          end)
         [([JSONDecodeError],
           fun e => raise (Exn JSONParseError
                      ("Failed to parse JSON response: " ++ exn_str e)))] in
     let* data :=
       match usage_metadata response with
       | Some um =>
           lift (setitem data "usage_metadata"
                   (JDict [("input_tokens",
                            json_of_count (prompt_token_count um));
                           ("output_tokens",
                            json_of_count (candidates_token_count um));
                           ("note", JStr "Populated from Gemini API")]))
       | None => ret data
       end in
     ret data)
    [([OCRException], fun e => raise e);
     ([Exception],
      fun e => raise (Exn OCRException
                 ("Pipeline execution failed: " ++ exn_str e)))].

End App.

(** * Observations and example processes *)

(** An observation [f] of the state that a computation leaves as it was. *)
Definition preserves {X A} (f : State -> X) (m : Py A) : Prop :=
  forall s r s', m s = (r, s') -> f s' = f s.

(** How often the text of [path] was read, in a history. *)
Definition is_read_of (path : string) (ev : event) : bool :=
  match ev with
  | EvReadText p => String.eqb p path
  | _ => false
  end.

Definition reads_of (path : string) (h : history) : nat :=
  length (List.filter (is_read_of path) h).

(** How many times [genai.Client(...)] was called, in a history. *)
Definition is_handle_creation (ev : event) : bool :=
  match ev with
  | EvGenaiClient _ => true
  | _ => false
  end.

Definition handles_opened (h : history) : nat :=
  length (List.filter is_handle_creation h).

(** What the client class sees of the state. *)
Definition client_view (s : State) : list GeminiOCRClientObj * option ref * nat :=
  (heap s, _instance s, handles_opened (trace s)).

(** The attempt of [__init__] to create the handle. *)
Definition create_handle (w : World) (self : ref) : Py unit :=
  let* key := get_api_key w in
  let* c := call (EvGenaiClient key) (fun h => genai_Client w h key) in
  set_self_client self c.

(** What [validate_image_format] answers for an image. *)
Definition format_verdict (image : Image) : option string :=
  match format image with
  | None => Some "Image format could not be determined"
  | Some _ =>
      if (fst (size image) =? 0)%Z || (snd (size image) =? 0)%Z
      then Some "Image has invalid dimensions"
      else None
  end.

(** Steps 1 to 3 of [run_pipeline] succeed from state [s] and hand the
    response [response] of the client in state [s5]. *)
Definition hands_response
    (w : World) (image_path : string) (s : State)
    (response : Response) (s5 : State) : Prop :=
  exists image s1 system_prompt s2 user_prompt s3 ocr_client s4,
    load_image w image_path s = (Return image, s1) /\
    _get_cached_prompt w "app/prompts/system.txt" s1
      = (Return system_prompt, s2) /\
    _get_cached_prompt w "app/prompts/extraction.txt" s2
      = (Return user_prompt, s3) /\
    GeminiOCRClient w s3 = (Return ocr_client, s4) /\
    extract w ocr_client image system_prompt user_prompt s4
      = (Return response, s5).

Definition is_generate (ev : event) : bool :=
  match ev with
  | EvGenerateContent _ _ => true
  | _ => false
  end.

(** How many requests the remote service has received. *)
Definition requests_sent (h : history) : nat :=
  length (List.filter is_generate h).

Definition sleeps (h : history) : list Z :=
  List.flat_map (fun ev => match ev with EvSleep z => [z] | _ => [] end) h.

Definition lookups_of (name : string) (h : history) : nat :=
  length (List.filter
            (fun ev => match ev with
                       | EvGetenv n => String.eqb n name
                       | _ => false
                       end) h).

Definition sample_image : Image := mkImage (Some "WEBP") (640, 480)%Z.

(** An outside with the environment [env], in which every file exists and
    reads as [prompt_text], every image decodes to [image], the handle can
    be created, and the remote service answers [service n] to its request
    number [n]. *)
Definition outside
    (env : list (string * string)) (prompt_text : string) (image : Image)
    (service : nat -> outcome (option Response)) : World :=
  {| os_getenv := fun _ name => dict_get name env;
     path_exists := fun _ _ => Return true;
     path_is_file := fun _ _ => Return true;
     os_access_R_OK := fun _ _ => true;
     path_str := fun p => p;
     open_read_utf8 := fun _ _ => Return prompt_text;
     Image_open := fun _ _ => Return image;
     Image_load := fun _ _ => Return tt;
     genai_Client := fun _ _ => Return (mkClient 0);
     generate_content := fun h _ _ => service (requests_sent h) |}.

Definition full_env : list (string * string) :=
  [("GEMINI_API_KEY", "secret"); ("GEMINI_MODEL", "gemini-flash")].

Definition answer (t : string) (um : option UsageMetadata)
    : outcome (option Response) :=
  Return (Some (mkResponse (Some t) None um)).

(** The API key is set, GEMINI_MODEL is not. *)
Definition world_without_model : World :=
  outside [("GEMINI_API_KEY", "secret")] "prompt" sample_image
          (fun _ => answer text_a1 None).

(** TEMPERATURE and TOP_P are set to text that is not a number. *)
Definition world_bad_floats : World :=
  outside (full_env ++ [("TEMPERATURE", "abc"); ("TOP_P", "high")])%list
          "prompt" sample_image (fun _ => answer text_a1 None).

(** Variants of an outside. *)
Definition with_getenv (f : history -> string -> option string) (w : World)
    : World :=
  mkWorld f (path_exists w) (path_is_file w) (os_access_R_OK w) (path_str w)
          (open_read_utf8 w) (Image_open w) (Image_load w) (genai_Client w)
          (generate_content w).

Definition with_path_exists (f : history -> string -> outcome bool)
    (w : World) : World :=
  mkWorld (os_getenv w) f (path_is_file w) (os_access_R_OK w) (path_str w)
          (open_read_utf8 w) (Image_open w) (Image_load w) (genai_Client w)
          (generate_content w).

Definition with_decoder
    (open : history -> string -> outcome Image)
    (load : history -> string -> outcome unit) (w : World) : World :=
  mkWorld (os_getenv w) (path_exists w) (path_is_file w) (os_access_R_OK w)
          (path_str w) (open_read_utf8 w) open load (genai_Client w)
          (generate_content w).

(** Everything in order; the service answers [{"a":1}] without usage. *)
Definition world_ok : World :=
  outside full_env "prompt" sample_image (fun _ => answer text_a1 None).

(** The service reports 5 input and 7 output tokens. *)
Definition world_usage : World :=
  outside full_env "prompt" sample_image
          (fun _ => answer text_a1 (Some (mkUsage (Some 5%Z) (Some 7%Z)))).


Definition unavailable : outcome (option Response) :=
  Raise (Exn Exception "503 UNAVAILABLE").

(** The service fails twice, then answers. *)
Definition world_recovers : World :=
  outside full_env "prompt" sample_image
          (fun n => if (n <? 2)%nat then unavailable
                    else answer text_a1 None).

(** The service fails every time. *)
Definition world_down : World :=
  outside full_env "prompt" sample_image (fun _ => unavailable).

(** GEMINI_API_KEY is unset at its first lookup and set afterwards. *)
Definition world_key_arrives : World :=
  with_getenv
    (fun h name =>
       if (lookups_of "GEMINI_API_KEY" h =? 0)%nat then None
       else dict_get name full_env)
    world_ok.

(** No file exists at the first look, every file exists afterwards. *)
Definition world_file_arrives : World :=
  with_path_exists
    (fun h _ => Return (negb (length h =? 0)%nat))
    world_ok.

(** The decoder does not recognize the file. *)
Definition world_unidentified : World :=
  with_decoder
    (fun _ p => Raise (Exn UnidentifiedImageError
                         ("cannot identify image file '" ++ p ++ "'")))
    (fun _ _ => Return tt)
    world_ok.

(** The file is truncated: it opens, and loading it fails. *)
Definition world_truncated : World :=
  with_decoder
    (fun _ _ => Return sample_image)
    (fun _ _ => Raise (Exn OSError "image file is truncated"))
    world_ok.

(** The decoder yields an image without width. *)
Definition world_empty_image : World :=
  with_decoder
    (fun _ _ => Return (mkImage (Some "PNG") (0, 480)%Z))
    (fun _ _ => Return tt)
    world_ok.

Definition system_path : string := "app/prompts/system.txt".
Definition extraction_path : string := "app/prompts/extraction.txt".
Definition sample_path : string := "images/sample.webp".

(** The state in which a process of [w] has constructed its client. *)
Definition constructed (w : World) : State :=
  snd (GeminiOCRClient w init_state).

Definition api_error_503 : exn :=
  Exn APIError "Gemini API call failed: 503 UNAVAILABLE".

(** ** Further observations *)

(** A condition on the state that a computation, started under it, leaves
    true. *)
Definition keeps {A} (I : State -> Prop) (m : Py A) : Prop :=
  forall s r s', I s -> m s = (r, s') -> I s'.

(** The kinds of calls to the outside. *)
Inductive kind : Type :=
  | KDotenv | KGetenv | KStat | KReadText | KImage | KHandle | KRequest
  | KSleep.

Definition kind_of (ev : event) : kind :=
  match ev with
  | EvLoadDotenv => KDotenv
  | EvGetenv _ => KGetenv
  | EvExists _ | EvIsFile _ | EvAccess _ => KStat
  | EvReadText _ => KReadText
  | EvImageOpen _ | EvImageLoad _ => KImage
  | EvGenaiClient _ => KHandle
  | EvGenerateContent _ _ => KRequest
  | EvSleep _ => KSleep
  end.

(** The calls of the kinds [K] in a history, in order. *)
Definition calls_of (K : kind -> bool) (h : history) : history :=
  List.filter (fun ev => K (kind_of ev)) h.

Definition is_kind (k : kind) (k' : kind) : bool :=
  match k, k' with
  | KDotenv, KDotenv | KGetenv, KGetenv | KStat, KStat
  | KReadText, KReadText | KImage, KImage | KHandle, KHandle
  | KRequest, KRequest | KSleep, KSleep => true
  | _, _ => false
  end.

(** Started in a state of [P], the computation ends in a result and a
    state of [Q]. *)
Definition hoare {A} (P : State -> Prop) (m : Py A)
    (Q : outcome A -> State -> Prop) : Prop :=
  forall s r s', P s -> m s = (r, s') -> Q r s'.

(** The entry points of the package, as a process may call them. *)
Inductive action : Type :=
  | RunPipeline (image_path : string)
  | Construct
  | Extract (self : ref) (image : Image) (system_prompt user_prompt : string)
  | GetCachedPrompt (path : string)
  | LoadImage (path : string)
  | ReadFile (path : string)
  | GetApiKey
  | GetModelId
  | GetTemperature
  | GetTopP.

(** The state one call leaves; what it returned or raised is dropped, as
    by a caller that goes on. *)
Definition perform (w : World) (s : State) (a : action) : State :=
  match a with
  | RunPipeline image_path => snd (run_pipeline w image_path s)
  | Construct => snd (GeminiOCRClient w s)
  | Extract self image system_prompt user_prompt =>
      snd (extract w self image system_prompt user_prompt s)
  | GetCachedPrompt path => snd (_get_cached_prompt w path s)
  | LoadImage path => snd (load_image w path s)
  | ReadFile path => snd (read_file w path s)
  | GetApiKey => snd (get_api_key w s)
  | GetModelId => snd (get_model_id w s)
  | GetTemperature => snd (get_temperature w s)
  | GetTopP => snd (get_top_p w s)
  end.

(** The state of a process after a sequence of calls. *)
Definition process (w : World) (actions : list action) : State :=
  fold_left (perform w) actions init_state.


(** The requests sent and the sleeps made are as given. *)
Definition effort (n : nat) (l : list Z) (s : State) : Prop :=
  requests_sent (trace s) = n /\ sleeps (trace s) = l.

(** The kinds of calls that resolve configuration, prompts and client:
    the load of the environment file, the lookups in the environment, the
    reads of text files and the creations of a handle. *)
Definition is_setup (k : kind) : bool :=
  is_kind k KDotenv || is_kind k KGetenv || is_kind k KReadText
  || is_kind k KHandle.

(** The kinds of calls [load_image] makes. *)
Definition is_image_work (k : kind) : bool :=
  is_kind k KStat || is_kind k KImage.

(** What [load_image] must leave alone: the variables of the package and
    every call that is not a check of a path or a use of the decoder. *)
Definition beyond_image (s : State)
    : bool * SettingsCls * list GeminiOCRClientObj * option ref
      * gmap string string * history :=
  (_load_dotenv_called s, Settings s, heap s, _instance s, _PROMPT_CACHE s,
   calls_of (fun k => negb (is_image_work k)) (trace s)).

(** A process in which everything a run needs is resolved: the
    environment file is loaded; temperature, top-p and model id are
    stored; both prompts are cached; the stored instance owns a handle. *)
Definition warm (s : State) : Prop :=
  _load_dotenv_called s = true /\
  (exists t p m, _temperature (Settings s) = Some t /\
                 _top_p (Settings s) = Some p /\
                 _model_id (Settings s) = Some m) /\
  (exists sp up, _PROMPT_CACHE s !! "app/prompts/system.txt" = Some sp /\
                 _PROMPT_CACHE s !! "app/prompts/extraction.txt" = Some up) /\
  (exists self c, _instance s = Some self /\ self_client s self = Some c).

(** What a run in a warm process must leave alone: the variables of the
    package and the calls that resolve them. *)
Definition resolved (s : State)
    : bool * SettingsCls * list GeminiOCRClientObj * option ref
      * gmap string string * history :=
  (_load_dotenv_called s, Settings s, heap s, _instance s, _PROMPT_CACHE s,
   calls_of is_setup (trace s)).

(** *** app/main.py

    [print] is modelled by the lines it writes, [sys.exit(n)] by the way
    the run ends, and [json.dumps(result, indent=2, ensure_ascii=False)],
    library code, by a function [dumps] taken as a parameter. *)




(** *** Further example processes *)

Definition with_genai_Client (f : history -> string -> outcome Client)
    (w : World) : World :=
  mkWorld (os_getenv w) (path_exists w) (path_is_file w) (os_access_R_OK w)
          (path_str w) (open_read_utf8 w) (Image_open w) (Image_load w) f
          (generate_content w).

(** No variable of the environment is set. *)
Definition world_no_env : World :=
  outside [] "prompt" sample_image (fun _ => answer text_a1 None).

(** GEMINI_MODEL is set to the empty string. *)
Definition world_empty_model : World :=
  outside [("GEMINI_API_KEY", "secret"); ("GEMINI_MODEL", "")]
          "prompt" sample_image (fun _ => answer text_a1 None).

(** TEMPERATURE is set to a number. *)
Definition world_override : World :=
  outside (full_env ++ [("TEMPERATURE", "0.7")])%list
          "prompt" sample_image (fun _ => answer text_a1 None).

(** The service answers a JSON list, without and with usage metadata. *)
Definition world_list : World :=
  outside full_env "prompt" sample_image (fun _ => answer "[1, 2]" None).

Definition world_list_usage : World :=
  outside full_env "prompt" sample_image
          (fun _ => answer "[1, 2]" (Some (mkUsage (Some 5%Z) None))).

(** The service blocks the content. *)
Definition blocked_response : Response :=
  mkResponse (Some text_a1) (Some (mkFeedback (Some "SAFETY"))) None.

Definition world_blocked : World :=
  outside full_env "prompt" sample_image
          (fun _ => Return (Some blocked_response)).

(** The call to the service is interrupted from the keyboard. *)
Definition world_interrupted : World :=
  outside full_env "prompt" sample_image
          (fun _ => Raise (Exn KeyboardInterrupt "")).

(** The handle cannot be created. *)
Definition world_no_network : World :=
  with_genai_Client (fun _ _ => Raise (Exn OSError "network unreachable"))
                    world_ok.

(** The prompt files now hold another text. *)
Definition world_edited_prompts : World :=
  outside full_env "another prompt" sample_image
          (fun _ => answer text_a1 None).

(** The state after one run of the pipeline in [w]. *)
Definition after_run (w : World) : State :=
  snd (run_pipeline w sample_path init_state).

(** A state in which the instance exists and owns no handle. *)
Definition bare_instance : State := snd (__new__ init_state).

Definition ok_response : Response := mkResponse (Some text_a1) None None.

(** * Properties *)

(** ** Reasoning about [Py] computations *)

Lemma bind_Return {A B} (m : Py A) (k : A -> Py B) s a s' :
  m s = (Return a, s') -> bind m k s = k a s'.
Proof. intros H. unfold bind. now rewrite H. Qed.

Lemma bind_Raise {A B} (m : Py A) (k : A -> Py B) s e s' :
  m s = (Raise e, s') -> bind m k s = (Raise e, s').
Proof. intros H. unfold bind. now rewrite H. Qed.

(** A bind that answers did so through its first part returning, or
    through its first part raising. *)
Lemma bind_inv {A B} (m : Py A) (k : A -> Py B) s r s2 :
  bind m k s = (r, s2) ->
  (exists a s1, m s = (Return a, s1) /\ k a s1 = (r, s2)) \/
  (exists e, m s = (Raise e, s2) /\ r = Raise e).
Proof.
  unfold bind. destruct (m s) as [[a | e] s1].
  - intros H. left. eauto.
  - intros H. right. exists e. split; congruence.
Qed.

Lemma try_except_Return {A} (m : Py A) clauses s a s' :
  m s = (Return a, s') -> try_except m clauses s = (Return a, s').
Proof. intros H. unfold try_except. now rewrite H. Qed.

Lemma try_except_caught {A} (m : Py A) clauses s e s' h :
  m s = (Raise e, s') -> handler_for clauses e = Some h ->
  try_except m clauses s = h s'.
Proof. intros H Hh. unfold try_except. now rewrite H, Hh. Qed.

Lemma try_except_uncaught {A} (m : Py A) clauses s e s' :
  m s = (Raise e, s') -> handler_for clauses e = None ->
  try_except m clauses s = (Raise e, s').
Proof. intros H Hh. unfold try_except. now rewrite H, Hh. Qed.

Lemma bind_get_state {B} (k : State -> Py B) s :
  bind get_state k s = k s s.
Proof. reflexivity. Qed.

Lemma bind_modify {B} (f : State -> State) (k : unit -> Py B) s :
  bind (modify f) k s = k tt (f s).
Proof. reflexivity. Qed.

Lemma log_eq ev s : log ev s = (Return tt, logged ev s).
Proof. reflexivity. Qed.

Lemma ask_eq {A} ev (answer : history -> A) s :
  ask ev answer s = (Return (answer (trace s)), logged ev s).
Proof. reflexivity. Qed.

Lemma call_eq {A} ev (answer : history -> outcome A) s :
  call ev answer s = (answer (trace s), logged ev s).
Proof. unfold call, bind, log, logged. cbn. now destruct (answer (trace s)). Qed.

Lemma bind_ask {A B} ev (answer : history -> A) (k : A -> Py B) s :
  bind (ask ev answer) k s = k (answer (trace s)) (logged ev s).
Proof. reflexivity. Qed.

Lemma bind_call {A B} ev (answer : history -> outcome A) (k : A -> Py B) s :
  bind (call ev answer) k s =
  match answer (trace s) with
  | Return a => k a (logged ev s)
  | Raise e => (Raise e, logged ev s)
  end.
Proof. unfold bind. rewrite call_eq. now destruct (answer (trace s)). Qed.

(** ** Observations a computation leaves unchanged *)

Section Preserves.

Context {X : Type} (f : State -> X).

Lemma preserves_ret {A} (a : A) : preserves f (ret a).
Proof. intros s r s' H. now inversion H. Qed.

Lemma preserves_raise {A} e : preserves f (@raise A e).
Proof. intros s r s' H. now inversion H. Qed.

Lemma preserves_lift {A} (o : outcome A) : preserves f (lift o).
Proof. intros s r s' H. now inversion H. Qed.

Lemma preserves_get_state : preserves f get_state.
Proof. intros s r s' H. now inversion H. Qed.

Lemma preserves_modify g : (forall s, f (g s) = f s) -> preserves f (modify g).
Proof. intros Hg s r s' H. inversion H. apply Hg. Qed.

Lemma preserves_log ev :
  (forall s, f (logged ev s) = f s) -> preserves f (log ev).
Proof. intros Hg s r s' H. inversion H. apply Hg. Qed.

Lemma preserves_ask {A} ev (answer : history -> A) :
  (forall s, f (logged ev s) = f s) -> preserves f (ask ev answer).
Proof. intros Hg s r s' H. rewrite ask_eq in H. inversion H. apply Hg. Qed.

Lemma preserves_call {A} ev (answer : history -> outcome A) :
  (forall s, f (logged ev s) = f s) -> preserves f (call ev answer).
Proof. intros Hg s r s' H. rewrite call_eq in H. inversion H. apply Hg. Qed.

Lemma preserves_bind {A B} (m : Py A) (k : A -> Py B) :
  preserves f m -> (forall a, preserves f (k a)) -> preserves f (bind m k).
Proof.
  intros Hm Hk s r s2 H. apply bind_inv in H as [(a & s1 & H1 & H2) | (e & H1 & _)].
  - rewrite (Hk a _ _ _ H2). eapply Hm, H1.
  - eapply Hm, H1.
Qed.

Lemma handler_for_Forall {A}
    (P : Py A -> Prop) (clauses : list (list exn_class * (exn -> Py A))) :
  List.Forall (fun c => forall e, P (snd c e)) clauses ->
  forall e h, handler_for clauses e = Some h -> P h.
Proof.
  induction 1 as [ | [cs h0] rest H0 _ IH]; intros e h; cbn.
  - discriminate.
  - destruct (caught_by cs e); [ | apply IH ].
    intros [= <-]. apply H0.
Qed.

Lemma preserves_try_except {A} (m : Py A) clauses :
  preserves f m ->
  List.Forall (fun c => forall e, preserves f (snd c e)) clauses ->
  preserves f (try_except m clauses).
Proof.
  intros Hm Hc s r s2. unfold try_except.
  destruct (m s) as [[a | e] s1] eqn:E.
  - intros [= <- <-]. eapply Hm, E.
  - destruct (handler_for clauses e) as [h | ] eqn:Hh.
    + intros H. rewrite (handler_for_Forall _ _ Hc e h Hh _ _ _ H).
      eapply Hm, E.
    + intros [= <- <-]. eapply Hm, E.
Qed.

End Preserves.

(** Walks through a computation, leaving the conditions on its effects. *)
Ltac preserves_step :=
  lazymatch goal with
  | |- preserves _ (bind _ _) => apply preserves_bind; [ | intros ? ]
  | |- preserves _ (ret _) => apply preserves_ret
  | |- preserves _ (raise _) => apply preserves_raise
  | |- preserves _ (lift _) => apply preserves_lift
  | |- preserves _ get_state => apply preserves_get_state
  | |- preserves _ (modify _) => apply preserves_modify; intros ?
  | |- preserves _ (log _) => apply preserves_log; intros ?
  | |- preserves _ (ask _ _) => apply preserves_ask; intros ?
  | |- preserves _ (call _ _) => apply preserves_call; intros ?
  | |- preserves _ (try_except _ _) =>
      apply preserves_try_except; [ | repeat constructor; intros ?; cbn [snd] ]
  | |- preserves _ (if ?b then _ else _) => destruct b
  | |- preserves _ (match ?x with _ => _ end) => destruct x
  end.

Ltac preserves_walk := repeat preserves_step.

(** ** The prompt cache *)

Lemma reads_of_app path h1 h2 :
  reads_of path (h1 ++ h2)%list = (reads_of path h1 + reads_of path h2)%nat.
Proof. unfold reads_of. now rewrite List.filter_app, length_app. Qed.

(** [read_file] touches nothing but the history. *)
Lemma read_file_preserves {X} (f : State -> X) w path :
  (forall ev s, f (logged ev s) = f s) -> preserves f (read_file w path).
Proof. intros Hf. unfold read_file. preserves_walk; apply Hf. Qed.

Lemma reads_of_logged path ev s :
  reads_of path (trace (logged ev s)) =
  (reads_of path (trace s) + if is_read_of path ev then 1 else 0)%nat.
Proof.
  cbn [logged trace]. rewrite reads_of_app. unfold reads_of at 2. cbn.
  now destruct (is_read_of path ev).
Qed.

(** One call of [read_file] opens the file at most once. *)
Lemma read_file_reads w path s r s' :
  read_file w path s = (r, s') ->
  (reads_of path (trace s') <= reads_of path (trace s) + 1)%nat.
Proof.
  unfold read_file. rewrite bind_call.
  destruct (path_exists w (trace s) path) as [[] | e1]; cbn [negb];
    [ | intros [= <- <-]; rewrite reads_of_logged; cbn; lia
      | intros [= <- <-]; rewrite reads_of_logged; cbn; lia ].
  rewrite bind_call.
  destruct (path_is_file w _ path) as [[] | e2]; cbn [negb];
    [ | intros [= <- <-]; rewrite !reads_of_logged; cbn; lia
      | intros [= <- <-]; rewrite !reads_of_logged; cbn; lia ].
  unfold try_except. rewrite call_eq.
  destruct (open_read_utf8 w _ path) as [c | e3].
  - intros [= <- <-]. rewrite !reads_of_logged. cbn.
    destruct (String.eqb path path); lia.
  - cbn [handler_for]. destruct (caught_by _ e3); intros [= <- <-];
      rewrite !reads_of_logged; cbn; destruct (String.eqb path path); lia.
Qed.

(** C7 (prompt cache idempotence).  When [_get_cached_prompt path] has
    returned a content, a second call on the same path, whatever the outside
    has become, returns the same content and leaves the whole state as it
    is: nothing is read, no call is made.  The first call opened the file
    at most once, so the two calls together read it at most once.  The
    entries of all other paths are as they were: each path has its own
    entry. *)
Theorem prompt_cache_idempotent w path s content s1 :
  _get_cached_prompt w path s = (Return content, s1) ->
  (forall w', _get_cached_prompt w' path s1 = (Return content, s1)) /\
  (reads_of path (trace s1) <= reads_of path (trace s) + 1)%nat /\
  (forall path', path' <> path ->
     _PROMPT_CACHE s1 !! path' = _PROMPT_CACHE s !! path').
Proof.
  unfold _get_cached_prompt. rewrite bind_get_state.
  destruct (_PROMPT_CACHE s !! path) as [c | ] eqn:Hc.
  - intros [= <- <-]. repeat split; [ | lia ].
    intros w'. rewrite bind_get_state. now rewrite Hc.
  - intros H.
    apply bind_inv in H as [(c & s0 & Hread & H) | (e & _ & [=])].
    rewrite bind_modify in H. injection H as <- <-.
    pose proof (read_file_preserves _PROMPT_CACHE w path
                  (fun _ _ => eq_refl) _ _ _ Hread) as Hsame.
    repeat split.
    + intros w'. rewrite bind_get_state. cbn [_PROMPT_CACHE set_PROMPT_CACHE].
      now rewrite lookup_insert_eq.
    + cbn [trace set_PROMPT_CACHE]. eapply read_file_reads, Hread.
    + intros path' Hne. cbn [_PROMPT_CACHE set_PROMPT_CACHE].
      rewrite lookup_insert_ne by congruence. now rewrite Hsame.
Qed.

(** C10 (no entry on error).  When [_get_cached_prompt path] raises, the
    cache is the one before the call and holds nothing for [path]; the next
    call on [path], whatever the outside has become, is therefore the
    branch that runs [read_file] again and stores and returns what it
    read. *)
Theorem prompt_cache_unchanged_on_error w path s e s1 :
  _get_cached_prompt w path s = (Raise e, s1) ->
  _PROMPT_CACHE s1 = _PROMPT_CACHE s /\
  _PROMPT_CACHE s1 !! path = None /\
  (forall w',
     _get_cached_prompt w' path s1 =
     (let* content := read_file w' path in
      modify (fun s =>
        set_PROMPT_CACHE (<[path := content]> (_PROMPT_CACHE s)) s)
      >> ret content) s1).
Proof.
  unfold _get_cached_prompt at 1. rewrite bind_get_state.
  destruct (_PROMPT_CACHE s !! path) as [c | ] eqn:Hc; [ intros [=] | ].
  intros H.
  apply bind_inv in H as [(c & s0 & _ & H) | (e' & Hread & _)];
    [ rewrite bind_modify in H; discriminate | ].
  pose proof (read_file_preserves _PROMPT_CACHE w path
                (fun _ _ => eq_refl) _ _ _ Hread) as Hsame.
  split; [ exact Hsame | ]. split; [ now rewrite Hsame | ].
  intros w'. unfold _get_cached_prompt. now rewrite bind_get_state, Hsame, Hc.
Qed.

(** ** The client singleton *)

Lemma handles_opened_logged ev s :
  handles_opened (trace (logged ev s)) =
  (handles_opened (trace s) + if is_handle_creation ev then 1 else 0)%nat.
Proof.
  cbn [logged trace]. unfold handles_opened.
  rewrite List.filter_app, length_app. cbn.
  now destruct (is_handle_creation ev).
Qed.

Lemma get_api_key_preserves_client w : preserves client_view (get_api_key w).
Proof.
  unfold get_api_key, _get_api_key, _ensure_env_loaded, getenv.
  preserves_walk; unfold client_view; try reflexivity;
    rewrite handles_opened_logged; cbn; f_equal; lia.
Qed.

Lemma __new__fresh s :
  _instance s = None ->
  __new__ s =
  (Return (length (heap s)),
   set_instance (Some (length (heap s)))
     (set_heap (heap s ++ [mkObj None])%list s)).
Proof. intros H. unfold __new__. rewrite bind_get_state, H. reflexivity. Qed.

Lemma __new__again s self :
  _instance s = Some self -> __new__ s = (Return self, s).
Proof. intros H. unfold __new__. now rewrite bind_get_state, H. Qed.

Lemma __init__again w s self c :
  self_client s self = Some c -> __init__ w self s = (Return tt, s).
Proof. intros H. unfold __init__. now rewrite bind_get_state, H. Qed.

(** What the attempt leaves: on success one more handle was created and
    [self] owns it; on failure the objects are untouched. *)
Lemma create_handle_effect w self s r s1 :
  self < length (heap s) ->
  create_handle w self s = (r, s1) ->
  _instance s1 = _instance s /\
  match r with
  | Return _ =>
      (exists c, self_client s1 self = Some c) /\
      handles_opened (trace s1) = S (handles_opened (trace s))
  | Raise _ => heap s1 = heap s
  end.
Proof.
  intros Hlt. unfold create_handle. intros H.
  apply bind_inv in H as [(key & s0 & Hkey & H) | (e & Hkey & ->)].
  - pose proof (get_api_key_preserves_client w _ _ _ Hkey) as Hv.
    unfold client_view in Hv. injection Hv as Hheap Hinst Hcount.
    rewrite bind_call in H.
    destruct (genai_Client w (trace s0) key) as [c | e].
    + injection H as <- <-. split; [ exact Hinst | ]. split.
      * exists c. unfold self_client, set_self_client. cbn [heap set_heap logged].
        rewrite list_lookup_insert_eq by (rewrite Hheap; exact Hlt).
        reflexivity.
      * cbn [trace set_heap]. rewrite handles_opened_logged. cbn. lia.
    + injection H as <- <-. split; [ exact Hinst | exact Hheap ].
  - pose proof (get_api_key_preserves_client w _ _ _ Hkey) as Hv.
    unfold client_view in Hv. injection Hv as Hheap Hinst Hcount. now split.
Qed.

(** Every handler of [__init__] raises, so [__init__] returns only when
    the attempt did. *)
Lemma __init__fresh w self s r s1 :
  self_client s self = None ->
  __init__ w self s = (r, s1) ->
  exists r0, create_handle w self s = (r0, s1) /\
    match r0, r with
    | Return _, Return _ => True
    | Raise _, Raise e =>
        isinstance e Exception = true ->
        exn_class_of e = ConfigurationError \/ exn_class_of e = APIError
    | _, _ => False
    end.
Proof.
  intros Hnone. unfold __init__. rewrite bind_get_state, Hnone.
  fold (create_handle w self). unfold try_except.
  destruct (create_handle w self s) as [[[] | e0] s0] eqn:E.
  - intros [= <- <-]. now exists (Return tt).
  - cbn [handler_for]. intros H. exists (Raise e0).
    destruct (caught_by [ConfigurationError] e0).
    + injection H as <- <-. split; [ reflexivity | ]. cbn. auto.
    + unfold caught_by at 1 in H. cbn [existsb] in H.
      destruct (isinstance e0 Exception) eqn:Hex; cbn in H.
      * injection H as <- <-. split; [ reflexivity | ]. cbn. auto.
      * injection H as <- <-. split; [ reflexivity | ]. congruence.
Qed.

(** The first construction of a process: [__new__] stores a fresh
    instance, then [__init__] attempts to create the handle on it. *)
Lemma first_construction w s r s1 :
  _instance s = None ->
  GeminiOCRClient w s = (r, s1) ->
  let self := length (heap s) in
  _instance s1 = Some self /\
  match r with
  | Return c1 =>
      c1 = self /\ (exists c, self_client s1 self = Some c) /\
      handles_opened (trace s1) = S (handles_opened (trace s))
  | Raise e =>
      heap s1 = (heap s ++ [mkObj None])%list /\
      (isinstance e Exception = true ->
       exn_class_of e = ConfigurationError \/ exn_class_of e = APIError)
  end.
Proof.
  intros Hnone H self. unfold GeminiOCRClient in H.
  rewrite (bind_Return _ _ _ _ _ (__new__fresh s Hnone)) in H.
  fold self in H.
  set (s0 := set_instance _ _) in H.
  assert (Hfresh : self_client s0 self = None).
  { unfold self_client, s0, self. cbn [heap set_instance set_heap].
    rewrite lookup_app_r by reflexivity. now rewrite Nat.sub_diag. }
  assert (Hlt : self < length (heap s0)).
  { unfold s0, self. cbn [heap set_instance set_heap].
    rewrite length_app. cbn. lia. }
  destruct (__init__ w self s0) as [r1 s2] eqn:Hinit.
  destruct (__init__fresh w self s0 r1 s2 Hfresh Hinit) as (r0 & Hc & Hr).
  destruct (create_handle_effect w self s0 r0 s2 Hlt Hc) as [Hinst Heff].
  destruct r1 as [[] | e1].
  - rewrite (bind_Return _ _ _ _ _ Hinit) in H. injection H as <- <-.
    destruct r0 as [ | e0]; [ | contradiction ].
    split; [ now rewrite Hinst | ]. split; [ reflexivity | ].
    destruct Heff as [Hcl Hcount]. split; [ exact Hcl | exact Hcount ].
  - rewrite (bind_Raise _ _ _ _ _ Hinit) in H. injection H as <- <-.
    destruct r0 as [ | e0]; [ contradiction | ].
    split; [ now rewrite Hinst | ]. split; [ exact Heff | exact Hr ].
Qed.

(** Once an instance owns a handle, constructing is the identity. *)
Lemma later_construction w s self c :
  _instance s = Some self -> self_client s self = Some c ->
  GeminiOCRClient w s = (Return self, s).
Proof.
  intros Hi Hc. unfold GeminiOCRClient.
  rewrite (bind_Return _ _ _ _ _ (__new__again s self Hi)).
  now rewrite (bind_Return _ _ _ _ _ (__init__again w s self c Hc)).
Qed.

(** C6 (singleton).  In a process that has no instance yet, when the
    first [GeminiOCRClient()] returns, it created exactly one handle; and
    every construction after it, in any later state that has the same
    client objects and whatever the outside has become, returns the same
    instance and changes nothing: no call is made, no handle is created
    again. *)
Theorem client_singleton w s c1 s1 :
  _instance s = None ->
  GeminiOCRClient w s = (Return c1, s1) ->
  handles_opened (trace s1) = S (handles_opened (trace s)) /\
  (forall w' s2,
     _instance s2 = _instance s1 -> heap s2 = heap s1 ->
     GeminiOCRClient w' s2 = (Return c1, s2)).
Proof.
  intros Hnone H.
  destruct (first_construction w s _ s1 Hnone H) as (Hi & -> & [c Hc] & Hn).
  split; [ exact Hn | ].
  intros w' s2 Hi2 Hh2.
  apply later_construction with (c := c); [ rewrite Hi2; exact Hi | ].
  unfold self_client in *. now rewrite Hh2.
Qed.

(** C9 (a failed first construction is not sticky).  In a process that
    has no instance yet, when the first [GeminiOCRClient()] raises, the
    instance [__new__] made is already stored in [_instance] and owns no
    handle; an exception of class [Exception] it raised is a
    ConfigurationError or an APIError.  A later construction does not skip
    [__init__]: it resolves the key and calls [genai.Client] again, and when
    both answer, it returns that same instance, which now owns the new
    handle. *)
Theorem failed_construction_not_sticky w s e s1 :
  _instance s = None ->
  GeminiOCRClient w s = (Raise e, s1) ->
  exists self,
    _instance s1 = Some self /\ self_client s1 self = None /\
    (isinstance e Exception = true ->
     exn_class_of e = ConfigurationError \/ exn_class_of e = APIError) /\
    (forall w' key s2 c,
       get_api_key w' s1 = (Return key, s2) ->
       genai_Client w' (trace s2) key = Return c ->
       let s3 := set_heap (<[self := mkObj (Some c)]> (heap s2))
                          (logged (EvGenaiClient key) s2) in
       GeminiOCRClient w' s1 = (Return self, s3) /\
       self_client s3 self = Some c /\
       handles_opened (trace s3) = S (handles_opened (trace s1))).
Proof.
  intros Hnone H.
  destruct (first_construction w s _ s1 Hnone H) as (Hi & Hheap & Hcls).
  exists (length (heap s)).
  assert (Hfresh : self_client s1 (length (heap s)) = None).
  { unfold self_client. rewrite Hheap, lookup_app_r by reflexivity.
    now rewrite Nat.sub_diag. }
  repeat split; [ exact Hi | exact Hfresh | exact Hcls | .. ];
    pose proof (get_api_key_preserves_client w' _ _ _ H0) as Hv;
    unfold client_view in Hv; injection Hv as Hheap2 Hinst2 Hcount2.
  - unfold GeminiOCRClient.
    rewrite (bind_Return _ _ _ _ _ (__new__again s1 _ Hi)).
    erewrite bind_Return; [ reflexivity | ].
    unfold __init__. rewrite bind_get_state, Hfresh.
    apply try_except_Return.
    rewrite (bind_Return _ _ _ _ _ H0), bind_call, H1. reflexivity.
  - unfold self_client. cbn [heap set_heap logged].
    rewrite list_lookup_insert_eq; [ reflexivity | ].
    rewrite Hheap2, Hheap, length_app. cbn. lia.
  - cbn [trace set_heap]. rewrite handles_opened_logged. cbn. lia.
Qed.

(** ** The image loader *)

(** The clause of [load_image] catches the OSError family, to which
    UnidentifiedImageError belongs. *)
Lemma load_image_clause_catches e :
  isinstance e OSError = true ->
  caught_by [OSError; OSError; UnidentifiedImageError] e = true.
Proof. intros H. unfold caught_by. cbn [existsb]. now rewrite H. Qed.

Lemma UnidentifiedImageError_is_OSError msg :
  isinstance (Exn UnidentifiedImageError msg) OSError = true.
Proof. reflexivity. Qed.

Lemma validate_image_format_eq image s :
  validate_image_format image s =
  (match format_verdict image with
   | Some msg => Raise (Exn ImageLoadError msg)
   | None => Return tt
   end, s).
Proof.
  unfold validate_image_format, format_verdict.
  destruct (format image); [ | reflexivity ].
  now destruct ((fst (size image) =? 0)%Z || (snd (size image) =? 0)%Z).
Qed.

Lemma format_verdict_invalid image :
  format image = None \/ fst (size image) = 0%Z \/ snd (size image) = 0%Z ->
  exists msg, format_verdict image = Some msg.
Proof.
  unfold format_verdict. intros [H | [H | H]].
  - rewrite H. eauto.
  - destruct (format image); eauto. rewrite H. cbn. eauto.
  - destruct (format image); eauto. rewrite H, orb_true_r. eauto.
Qed.

(** C8 (image validation and decode failures).  Once the path is
    validated: an exception of the OSError family (an I/O error, or
    UnidentifiedImageError for an unrecognized format) raised by
    [Image.open] or by [image.load] leaves [load_image] as an
    ImageLoadError that carries its message; and an image that decodes but
    has no format, or a zero width, or a zero height, makes [load_image]
    raise ImageLoadError. *)
Theorem load_image_ImageLoadError w path s validated_path s1 :
  validate_image_path w path s = (Return validated_path, s1) ->
  let s2 := logged (EvImageOpen validated_path) s1 in
  let s3 := logged (EvImageLoad validated_path) s2 in
  let wrapped e :=
    Exn ImageLoadError
        ("Failed to load image from " ++ path ++ ": " ++ exn_str e) in
  (forall e,
     Image_open w (trace s1) validated_path = Raise e ->
     isinstance e OSError = true ->
     load_image w path s = (Raise (wrapped e), s2)) /\
  (forall image e,
     Image_open w (trace s1) validated_path = Return image ->
     Image_load w (trace s2) validated_path = Raise e ->
     isinstance e OSError = true ->
     load_image w path s = (Raise (wrapped e), s3)) /\
  (forall image,
     Image_open w (trace s1) validated_path = Return image ->
     Image_load w (trace s2) validated_path = Return tt ->
     format image = None \/ fst (size image) = 0%Z \/
       snd (size image) = 0%Z ->
     exists msg,
       load_image w path s = (Raise (Exn ImageLoadError msg), s3)).
Proof.
  intros Hv s2 s3 wrapped. unfold load_image. repeat split.
  - intros e Hopen He.
    erewrite try_except_caught; [ reflexivity | | ].
    + rewrite (bind_Return _ _ _ _ _ Hv), bind_call, Hopen. reflexivity.
    + cbn [handler_for]. now rewrite load_image_clause_catches.
  - intros image e Hopen Hload He.
    erewrite try_except_caught; [ reflexivity | | ].
    + rewrite (bind_Return _ _ _ _ _ Hv), bind_call, Hopen.
      rewrite bind_call. fold s2. rewrite Hload. reflexivity.
    + cbn [handler_for]. now rewrite load_image_clause_catches.
  - intros image Hopen Hload Hbad.
    destruct (format_verdict_invalid image Hbad) as [msg Hmsg].
    exists msg. apply try_except_uncaught; [ | reflexivity ].
    rewrite (bind_Return _ _ _ _ _ Hv), bind_call, Hopen.
    rewrite bind_call. fold s2. rewrite Hload.
    unfold bind. rewrite validate_image_format_eq, Hmsg. reflexivity.
Qed.

(** ** The retry policy *)

(** The waits of [wait_exponential(multiplier=1, min=2, max=10)]. *)
Lemma extract_waits :
  wait_exponential 1 2 10 1 = 2%Z /\ wait_exponential 1 2 10 2 = 2%Z.
Proof. split; reflexivity. Qed.

(** The loop never goes past its stop bound. *)
Lemma Retrying_bound {A} wait c left (fn : Py A) :
  forall n s, (snd (Retrying wait c left n fn s) <= n + left)%nat.
Proof.
  induction left as [ | left IH]; intros n s; cbn [Retrying];
    destruct (fn s) as [[a | e] s']; cbn [snd]; try lia;
    destruct (isinstance e c); cbn [snd]; try lia.
  specialize (IH (S n) (snd (sleep (wait n) s'))). lia.
Qed.

(** The last permitted attempt decides. *)
Lemma Retrying_last {A} wait c n (fn : Py A) s :
  Retrying wait c 0 n fn s = (fn s, n).
Proof.
  cbn [Retrying]. destruct (fn s) as [[a | e] s']; [ reflexivity | ].
  now destruct (isinstance e c).
Qed.

(** A retried failure with attempts left: sleep, then go on. *)
Lemma Retrying_again {A} wait c left n (fn : Py A) s e s' :
  fn s = (Raise e, s') -> isinstance e c = true ->
  Retrying wait c (S left) n fn s =
  Retrying wait c left (S n) fn (logged (EvSleep (wait n)) s').
Proof. intros H He. cbn [Retrying]. now rewrite H, He. Qed.

(** An exception outside the retried class ends the loop at once. *)
Lemma Retrying_not_retried {A} wait c left n (fn : Py A) s e s' :
  fn s = (Raise e, s') -> isinstance e c = false ->
  Retrying wait c left n fn s = (Raise e, s', n).
Proof.
  intros H He. destruct left; cbn [Retrying]; now rewrite H, He.
Qed.

(** C3 (bounded retry).  [extract] is its body run by the retry loop, and
    the loop never makes more than three attempts.  When the first two attempts raise APIError, the loop
    sleeps two time units after each, and the third attempt decides: what
    it returns is returned, and the APIError it raises is raised as it is,
    in the state the third attempt left, after exactly three attempts. *)
Theorem extract_retry_three_attempts w self image system_prompt user_prompt :
  let fn := extract_body w self image system_prompt user_prompt in
  let loop := Retrying (wait_exponential 1 2 10) APIError 2 1 fn in
  (forall s, extract w self image system_prompt user_prompt s = fst (loop s))
  /\
  (forall s, snd (loop s) <= 3)%nat /\
  (forall s e1 s1 e2 s2 r3 s3,
     fn s = (Raise e1, s1) -> isinstance e1 APIError = true ->
     fn (logged (EvSleep 2) s1) = (Raise e2, s2) ->
     isinstance e2 APIError = true ->
     fn (logged (EvSleep 2) s2) = (r3, s3) ->
     extract w self image system_prompt user_prompt s = (r3, s3) /\
     snd (loop s) = 3%nat).
Proof.
  intros fn loop. split; [ reflexivity | ]. split.
  - intros s. apply (Retrying_bound _ _ 2 fn 1 s).
  - intros s e1 s1 e2 s2 r3 s3 H1 He1 H2 He2 H3.
    assert (Hloop : loop s = (r3, s3, 3%nat)).
    { unfold loop.
      rewrite (Retrying_again _ _ _ _ _ _ _ _ H1 He1).
      change (wait_exponential 1 2 10 1) with 2%Z.
      rewrite (Retrying_again _ _ _ _ _ _ _ _ H2 He2).
      change (wait_exponential 1 2 10 2) with 2%Z.
      now rewrite Retrying_last, H3. }
    unfold extract, retry. cbn [Nat.sub]. fold fn. fold loop.
    now rewrite Hloop.
Qed.

(** ** The orchestrator *)


Lemma loads_a1 : Json.loads text_a1 = Return (JDict [("a", JInt 1)]).
Proof. reflexivity. Qed.

(** C4 (JSON round trip).  When the client hands a response whose text is
    [{"a":1}]: without usage metadata [run_pipeline] returns the object
    [{"a": 1}] as parsed, with no other key; with usage metadata of 5 input
    and 7 output tokens it returns that object with the key
    [usage_metadata] added, holding the two counts and the note. *)
Theorem run_pipeline_round_trip w image_path s response s5 :
  hands_response w image_path s response s5 ->
  text response = Some text_a1 ->
  (usage_metadata response = None ->
   run_pipeline w image_path s = (Return (JDict [("a", JInt 1)]), s5)) /\
  (usage_metadata response = Some (mkUsage (Some 5%Z) (Some 7%Z)) ->
   run_pipeline w image_path s =
   (Return (JDict [("a", JInt 1);
                   ("usage_metadata",
                    JDict [("input_tokens", JInt 5);
                           ("output_tokens", JInt 7);
                           ("note", JStr "Populated from Gemini API")])]),
    s5)).
Proof.
  intros (image & s1 & sp & s2 & up & s3 & c & s4 & H1 & H2 & H3 & H4 & H5)
         Htext.
  split; intros Hum; unfold run_pipeline; apply try_except_Return;
    rewrite (bind_Return _ _ _ _ _ H1), (bind_Return _ _ _ _ _ H2),
            (bind_Return _ _ _ _ _ H3), (bind_Return _ _ _ _ _ H4),
            (bind_Return _ _ _ _ _ H5);
    rewrite Htext, Hum; unfold try_except, lift, bind;
    rewrite loads_a1; reflexivity.
Qed.


(** ** Exceptions that leave [extract] *)

(** APIError has no subclass. *)
Lemma issubclass_APIError c : issubclass c APIError = true -> c = APIError.
Proof. destruct c; intros H; try reflexivity; vm_compute in H; discriminate. Qed.

(** An exception of class [Exception] that leaves the body of [extract]
    is an APIError: whatever else was raised inside has been wrapped. *)
Lemma extract_body_raises w self image sp up s e s' :
  extract_body w self image sp up s = (Raise e, s') ->
  isinstance e Exception = true -> exn_class_of e = APIError.
Proof.
  unfold extract_body, try_except.
  match goal with |- context [match ?m s with _ => _ end] =>
    destruct (m s) as [[r | e0] s0] end; [ discriminate | ].
  cbn [handler_for]. unfold caught_by at 1. cbn [existsb].
  destruct (isinstance e0 APIError) eqn:Hapi; cbn [orb].
  - intros [= <- <-] _. now apply issubclass_APIError.
  - unfold caught_by. cbn [existsb].
    destruct (isinstance e0 Exception) eqn:Hex; cbn [orb].
    + now intros [= <- <-].
    + intros [= <- <-]. congruence.
Qed.

(** What the loop answers is what one of the attempts answered. *)
Lemma Retrying_answer {A} wait c left (fn : Py A) :
  forall n s r s' k,
    Retrying wait c left n fn s = (r, s', k) -> exists s0, fn s0 = (r, s').
Proof.
  induction left as [ | left IH]; intros n s r s' k; cbn [Retrying];
    destruct (fn s) as [[a | e] s1] eqn:E.
  - intros [= <- <- _]. eauto.
  - destruct (isinstance e c); intros [= <- <- _]; eauto.
  - intros [= <- <- _]. eauto.
  - destruct (isinstance e c); [ apply IH | intros [= <- <- _]; eauto ].
Qed.

(** [extract] lets no ConfigurationError out. *)
Lemma extract_never_raises_ConfigurationError w self image sp up s e s' :
  extract w self image sp up s = (Raise e, s') ->
  exn_class_of e <> ConfigurationError.
Proof.
  unfold extract, retry. intros H.
  destruct (Retrying _ _ _ _ _ s) as [[r s1] k] eqn:E. cbn [fst] in H.
  injection H as -> ->.
  destruct (Retrying_answer _ _ _ _ _ _ _ _ _ E) as [s0 H0].
  intros Hc.
  pose proof (extract_body_raises _ _ _ _ _ _ _ _ H0) as Hapi.
  unfold isinstance in Hapi. rewrite Hc in Hapi.
  specialize (Hapi eq_refl). congruence.
Qed.

(** C1, on the code.  With GEMINI_MODEL unset, [get_model_id] raises
    ConfigurationError; inside [extract] that error is caught by the
    [except Exception] clause and becomes an APIError, which the loop
    retries: the model id is looked up three times, with two sleeps of two
    time units, and [extract] ends with the APIError. *)
Theorem extract_wraps_and_retries_ConfigurationError :
  let w := world_without_model in
  let s0 := snd (GeminiOCRClient w init_state) in
  let run := extract w 0 sample_image "system" "user" s0 in
  fst (GeminiOCRClient w init_state) = Return 0 /\
  fst (get_model_id w s0) =
    Raise (Exn ConfigurationError
             "GEMINI_MODEL environment variable is not set") /\
  fst run =
    Raise (Exn APIError
             "Gemini API call failed: GEMINI_MODEL environment variable is not set") /\
  lookups_of "GEMINI_MODEL" (trace (snd run)) = 3 /\
  sleeps (trace (snd run)) = [2; 2]%Z /\
  requests_sent (trace (snd run)) = 0.
Proof. vm_compute. repeat split; reflexivity. Qed.

(** ** The float settings *)

(** [_ensure_env_loaded] returns and leaves the settings alone. *)
Lemma _ensure_env_loaded_eq s :
  exists s1, _ensure_env_loaded s = (Return tt, s1) /\
             Settings s1 = Settings s.
Proof.
  unfold _ensure_env_loaded. rewrite bind_get_state.
  destruct (negb (_load_dotenv_called s)); eexists; split; reflexivity.
Qed.

(** [float] raises nothing but ValueError. *)
Lemma float_raises v e :
  Builtins.float v = Raise e -> exn_class_of e = ValueError.
Proof.
  unfold Builtins.float.
  destruct (Builtins.strip v) as [ | c r];
    repeat match goal with
    | |- context [if ?b then _ else _] => destruct b
    | |- context [match Builtins.floatnumber ?u with _ => _ end] =>
        destruct (Builtins.floatnumber u)
    | |- context [let '(_, _) := ?p in _] => destruct p
    end; try discriminate; now intros [= <-].
Qed.

(** The first access of the temperature, for a value of TEMPERATURE that
    [float] refuses: the ValueError of [float] leaves the getter as it is,
    and nothing is cached. *)
Lemma get_temperature_parse_failure w s v e :
  _temperature (Settings s) = None ->
  os_getenv w (trace (snd (_ensure_env_loaded s))) "TEMPERATURE" = Some v ->
  Builtins.float v = Raise e ->
  fst (get_temperature w s) = Raise e /\
  exn_class_of e = ValueError /\
  _temperature (Settings (snd (get_temperature w s))) = None.
Proof.
  intros Hnone Henv Hfloat.
  destruct (_ensure_env_loaded_eq s) as (s1 & E & Hs).
  rewrite E in Henv. cbn [snd] in Henv.
  unfold get_temperature, _get_temperature.
  rewrite (bind_Return _ _ _ _ _ E), bind_get_state, Hs, Hnone.
  unfold getenv. rewrite bind_ask, Henv. cbn [default from_option].
  unfold id, bind, lift. rewrite Hfloat. cbn [fst snd logged Settings].
  split; [ reflexivity | ]. split; [ now apply float_raises with v | ].
  now rewrite Hs.
Qed.

(** C2, on the code.  With TEMPERATURE set to [abc] and TOP_P set to [high],
    the first access of each setting raises the ValueError of [float], not a
    ConfigurationError, and caches nothing, so that the next access fails
    again. *)
Theorem get_temperature_non_numeric_raises_ValueError :
  let w := world_bad_floats in
  let r1 := get_temperature w init_state in
  fst r1 =
    Raise (Exn ValueError "could not convert string to float: 'abc'") /\
  _temperature (Settings (snd r1)) = None /\
  fst (get_temperature w (snd r1)) = fst r1 /\
  fst (get_top_p w init_state) =
    Raise (Exn ValueError "could not convert string to float: 'high'").
Proof. vm_compute. repeat split; reflexivity. Qed.

(** The half of C2 that the code keeps: an unset variable resolves to the
    default, 0.0 for the temperature and 0.1 for top-p. *)
Lemma temperature_default w s :
  _temperature (Settings s) = None ->
  os_getenv w (trace (snd (_ensure_env_loaded s))) "TEMPERATURE" = None ->
  fst (get_temperature w s) = Return (Finite 0).
Proof.
  intros Hnone Henv.
  destruct (_ensure_env_loaded_eq s) as (s1 & E & Hs).
  rewrite E in Henv. cbn [snd] in Henv.
  unfold get_temperature, _get_temperature.
  rewrite (bind_Return _ _ _ _ _ E), bind_get_state, Hs, Hnone.
  unfold getenv. now rewrite bind_ask, Henv.
Qed.

Lemma top_p_default w s :
  _top_p (Settings s) = None ->
  os_getenv w (trace (snd (_ensure_env_loaded s))) "TOP_P" = None ->
  fst (get_top_p w s) = Return (Finite (1 # 10)).
Proof.
  intros Hnone Henv.
  destruct (_ensure_env_loaded_eq s) as (s1 & E & Hs).
  rewrite E in Henv. cbn [snd] in Henv.
  unfold get_top_p, _get_top_p.
  rewrite (bind_Return _ _ _ _ _ E), bind_get_state, Hs, Hnone.
  unfold getenv. now rewrite bind_ask, Henv.
Qed.

(** ** Instances in concrete processes *)

Lemma prompt_cache_idempotent_witness :
  let s1 := snd (_get_cached_prompt world_ok system_path init_state) in
  _get_cached_prompt world_ok system_path init_state = (Return "prompt", s1)
  /\ (forall w', _get_cached_prompt w' system_path s1 = (Return "prompt", s1))
  /\ (reads_of system_path (trace s1) <= 1)%nat
  /\ _PROMPT_CACHE s1 !! extraction_path = None.
Proof.
  intros s1.
  assert (H : _get_cached_prompt world_ok system_path init_state
              = (Return "prompt", s1)) by reflexivity.
  destruct (prompt_cache_idempotent world_ok system_path init_state
              "prompt" s1 H) as (Hagain & Hreads & Hother).
  split; [ exact H | ]. split; [ exact Hagain | ].
  split; [ exact Hreads | ].
  rewrite (Hother extraction_path) by discriminate. reflexivity.
Defined.

Lemma prompt_cache_unchanged_on_error_witness :
  let r := _get_cached_prompt world_file_arrives system_path init_state in
  r = (Raise (Exn ValidationError
                "File does not exist: app/prompts/system.txt"), snd r)
  /\ _PROMPT_CACHE (snd r) = ∅
  /\ _PROMPT_CACHE (snd r) !! system_path = None
  /\ fst (_get_cached_prompt world_file_arrives system_path (snd r))
     = Return "prompt"
  /\ reads_of system_path
       (trace (snd (_get_cached_prompt world_file_arrives system_path
                      (snd r)))) = 1%nat.
Proof.
  intros r.
  assert (H : r = (Raise (Exn ValidationError
                            "File does not exist: app/prompts/system.txt"),
                   snd r)) by reflexivity.
  destruct (prompt_cache_unchanged_on_error world_file_arrives system_path
              init_state _ (snd r) H) as (Hsame & Hnone & Hnext).
  split; [ exact H | ]. split; [ exact Hsame | ]. split; [ exact Hnone | ].
  rewrite (Hnext world_file_arrives). split; reflexivity.
Defined.

Lemma client_singleton_witness :
  let s1 := snd (GeminiOCRClient world_ok init_state) in
  GeminiOCRClient world_ok init_state = (Return 0%nat, s1)
  /\ handles_opened (trace s1) = 1%nat
  /\ GeminiOCRClient world_down s1 = (Return 0%nat, s1).
Proof.
  intros s1.
  assert (H : GeminiOCRClient world_ok init_state = (Return 0%nat, s1))
    by reflexivity.
  destruct (client_singleton world_ok init_state 0%nat s1 eq_refl H)
    as [Hone Hagain].
  split; [ exact H | ]. split; [ exact Hone | ].
  apply Hagain; reflexivity.
Defined.

Lemma failed_construction_not_sticky_witness :
  let w := world_key_arrives in
  let r := GeminiOCRClient w init_state in
  fst r = Raise (Exn ConfigurationError
    "Failed to initialize Gemini client: GEMINI_API_KEY environment variable is not set")
  /\ _instance (snd r) = Some 0%nat
  /\ self_client (snd r) 0%nat = None
  /\ fst (GeminiOCRClient w (snd r)) = Return 0%nat
  /\ self_client (snd (GeminiOCRClient w (snd r))) 0%nat = Some (mkClient 0).
Proof.
  intros w r.
  assert (H : r = (Raise (Exn ConfigurationError
    "Failed to initialize Gemini client: GEMINI_API_KEY environment variable is not set"),
                   snd r)) by reflexivity.
  destruct (failed_construction_not_sticky w init_state _ (snd r) eq_refl H)
    as (self & Hi & Hc & _ & Hretry).
  assert (Hself : self = 0%nat).
  { assert (Hi0 : _instance (snd r) = Some 0%nat) by reflexivity.
    rewrite Hi0 in Hi. now injection Hi. }
  subst self.
  destruct (Hretry w "secret" (snd (get_api_key w (snd r))) (mkClient 0)
              eq_refl eq_refl) as (Hok & Hown & _).
  split; [ reflexivity | ]. split; [ exact Hi | ]. split; [ exact Hc | ].
  rewrite Hok. split; [ reflexivity | exact Hown ].
Defined.

Lemma load_image_ImageLoadError_witness :
  load_image world_unidentified sample_path init_state
  = (Raise (Exn ImageLoadError
      "Failed to load image from images/sample.webp: cannot identify image file 'images/sample.webp'"),
     snd (load_image world_unidentified sample_path init_state))
  /\ load_image world_truncated sample_path init_state
  = (Raise (Exn ImageLoadError
      "Failed to load image from images/sample.webp: image file is truncated"),
     snd (load_image world_truncated sample_path init_state))
  /\ exists msg,
       load_image world_empty_image sample_path init_state
       = (Raise (Exn ImageLoadError msg),
          snd (load_image world_empty_image sample_path init_state)).
Proof.
  split; [ | split ].
  - exact (proj1 (load_image_ImageLoadError world_unidentified sample_path
                    init_state sample_path
                    (snd (validate_image_path world_unidentified sample_path
                            init_state)) eq_refl)
             (Exn UnidentifiedImageError
                  "cannot identify image file 'images/sample.webp'")
             eq_refl eq_refl).
  - exact (proj1 (proj2 (load_image_ImageLoadError world_truncated sample_path
                    init_state sample_path
                    (snd (validate_image_path world_truncated sample_path
                            init_state)) eq_refl))
             sample_image (Exn OSError "image file is truncated")
             eq_refl eq_refl eq_refl).
  - exact (proj2 (proj2 (load_image_ImageLoadError world_empty_image
                    sample_path init_state sample_path
                    (snd (validate_image_path world_empty_image sample_path
                            init_state)) eq_refl))
             (mkImage (Some "PNG") (0, 480)%Z) eq_refl eq_refl
             (or_intror (or_introl eq_refl))).
Defined.

Lemma extract_retry_three_attempts_witness :
  (let w := world_recovers in
   let run := extract w 0 sample_image "system" "user" (constructed w) in
   fst run = Return (mkResponse (Some text_a1) None None)
   /\ requests_sent (trace (snd run)) = 3%nat
   /\ sleeps (trace (snd run)) = [2; 2]%Z)
  /\
  (let w := world_down in
   let run := extract w 0 sample_image "system" "user" (constructed w) in
   fst run = Raise api_error_503
   /\ requests_sent (trace (snd run)) = 3%nat
   /\ sleeps (trace (snd run)) = [2; 2]%Z).
Proof.
  assert (He : isinstance api_error_503 APIError = true) by reflexivity.
  split; intros w run.
  - set (fn := extract_body w 0 sample_image "system" "user").
    set (s1 := snd (fn (constructed w))).
    set (s2 := snd (fn (logged (EvSleep 2) s1))).
    set (s3 := snd (fn (logged (EvSleep 2) s2))).
    assert (H1 : fn (constructed w) = (Raise api_error_503, s1))
      by (vm_compute; reflexivity).
    assert (H2 : fn (logged (EvSleep 2) s1) = (Raise api_error_503, s2))
      by (vm_compute; reflexivity).
    assert (H3 : fn (logged (EvSleep 2) s2)
                 = (Return (mkResponse (Some text_a1) None None), s3))
      by (vm_compute; reflexivity).
    destruct (proj2 (proj2 (extract_retry_three_attempts w 0 sample_image
                              "system" "user"))
                (constructed w) api_error_503 s1 api_error_503 s2 _ s3
                H1 He H2 He H3) as [Hrun _].
    fold run in Hrun. rewrite Hrun.
    repeat split; vm_compute; reflexivity.
  - set (fn := extract_body w 0 sample_image "system" "user").
    set (s1 := snd (fn (constructed w))).
    set (s2 := snd (fn (logged (EvSleep 2) s1))).
    set (s3 := snd (fn (logged (EvSleep 2) s2))).
    assert (H1 : fn (constructed w) = (Raise api_error_503, s1))
      by (vm_compute; reflexivity).
    assert (H2 : fn (logged (EvSleep 2) s1) = (Raise api_error_503, s2))
      by (vm_compute; reflexivity).
    assert (H3 : fn (logged (EvSleep 2) s2) = (Raise api_error_503, s3))
      by (vm_compute; reflexivity).
    destruct (proj2 (proj2 (extract_retry_three_attempts w 0 sample_image
                              "system" "user"))
                (constructed w) api_error_503 s1 api_error_503 s2 _ s3
                H1 He H2 He H3) as [Hrun _].
    fold run in Hrun. rewrite Hrun.
    repeat split; vm_compute; reflexivity.
Defined.

(** Steps 1 to 3 of [run_pipeline] in a fresh process of a concrete
    outside, by running them. *)
Ltac run_first_steps w response :=
  set (s1 := snd (load_image w sample_path init_state));
  set (s2 := snd (_get_cached_prompt w system_path s1));
  set (s3 := snd (_get_cached_prompt w extraction_path s2));
  set (s4 := snd (GeminiOCRClient w s3));
  set (s5 := snd (extract w 0%nat sample_image "prompt" "prompt" s4));
  assert (Hsteps : hands_response w sample_path init_state response s5)
    by (exists sample_image, s1, "prompt", s2, "prompt", s3, 0%nat, s4;
        repeat split; vm_compute; reflexivity).

Lemma run_pipeline_round_trip_witness :
  fst (run_pipeline world_ok sample_path init_state)
  = Return (JDict [("a", JInt 1)])
  /\
  fst (run_pipeline world_usage sample_path init_state)
  = Return (JDict [("a", JInt 1);
                   ("usage_metadata",
                    JDict [("input_tokens", JInt 5);
                           ("output_tokens", JInt 7);
                           ("note", JStr "Populated from Gemini API")])]).
Proof.
  split.
  - run_first_steps world_ok (mkResponse (Some text_a1) None None).
    now rewrite (proj1 (run_pipeline_round_trip world_ok sample_path
                          init_state _ s5 Hsteps eq_refl) eq_refl).
  - run_first_steps world_usage
      (mkResponse (Some text_a1) None
                  (Some (mkUsage (Some 5%Z) (Some 7%Z)))).
    now rewrite (proj2 (run_pipeline_round_trip world_usage sample_path
                          init_state _ s5 Hsteps eq_refl) eq_refl).
Defined.


(** * Further properties of the code *)

(** ** Conditions a computation keeps *)

Section Keeps.

Context (I : State -> Prop).

Lemma keeps_ret {A} (a : A) : keeps I (ret a).
Proof. intros s r s' Hi H. now inversion H; subst. Qed.

Lemma keeps_raise {A} e : keeps I (@raise A e).
Proof. intros s r s' Hi H. now inversion H; subst. Qed.

Lemma keeps_lift {A} (o : outcome A) : keeps I (lift o).
Proof. intros s r s' Hi H. now inversion H; subst. Qed.

Lemma keeps_get_state : keeps I get_state.
Proof. intros s r s' Hi H. now inversion H; subst. Qed.

Lemma keeps_modify g : (forall s, I s -> I (g s)) -> keeps I (modify g).
Proof. intros Hg s r s' Hi H. inversion H; subst. now apply Hg. Qed.

Lemma keeps_log ev :
  (forall s, I s -> I (logged ev s)) -> keeps I (log ev).
Proof. intros Hg s r s' Hi H. inversion H; subst. now apply Hg. Qed.

Lemma keeps_ask {A} ev (answer : history -> A) :
  (forall s, I s -> I (logged ev s)) -> keeps I (ask ev answer).
Proof.
  intros Hg s r s' Hi H. rewrite ask_eq in H. inversion H; subst.
  now apply Hg.
Qed.

Lemma keeps_call {A} ev (answer : history -> outcome A) :
  (forall s, I s -> I (logged ev s)) -> keeps I (call ev answer).
Proof.
  intros Hg s r s' Hi H. rewrite call_eq in H. inversion H; subst.
  now apply Hg.
Qed.

Lemma keeps_bind {A B} (m : Py A) (k : A -> Py B) :
  keeps I m -> (forall a, keeps I (k a)) -> keeps I (bind m k).
Proof.
  intros Hm Hk s r s2 Hi H.
  apply bind_inv in H as [(a & s1 & H1 & H2) | (e & H1 & _)].
  - eapply Hk; [ | exact H2 ]. eapply Hm; eauto.
  - eapply Hm; eauto.
Qed.

Lemma keeps_try_except {A} (m : Py A) clauses :
  keeps I m ->
  List.Forall (fun c => forall e, keeps I (snd c e)) clauses ->
  keeps I (try_except m clauses).
Proof.
  intros Hm Hc s r s2 Hi. unfold try_except.
  destruct (m s) as [[a | e] s1] eqn:E.
  - intros [= <- <-]. eapply Hm; eauto.
  - destruct (handler_for clauses e) as [h | ] eqn:Hh.
    + intros H.
      eapply (handler_for_Forall (keeps I) _ Hc e h Hh); [ | exact H ].
      eapply Hm; eauto.
    + intros [= <- <-]. eapply Hm; eauto.
Qed.

(** The retry loop keeps what its attempts and its sleeps keep. *)
Lemma keeps_Retrying {A} wait c (fn : Py A) :
  keeps I fn ->
  (forall z s, I s -> I (logged (EvSleep z) s)) ->
  forall left n s r s' k,
    I s -> Retrying wait c left n fn s = (r, s', k) -> I s'.
Proof.
  intros Hfn Hsleep.
  induction left as [ | left IH]; intros n s r s' k Hi; cbn [Retrying];
    destruct (fn s) as [[a | e] s1] eqn:E;
    try (intros [= <- <- _]; eapply Hfn; eauto; fail).
  - destruct (isinstance e c); intros [= <- <- _]; eapply Hfn; eauto.
  - destruct (isinstance e c); [ | intros [= <- <- _]; eapply Hfn; eauto ].
    apply IH. apply Hsleep. eapply Hfn; eauto.
Qed.

Lemma keeps_retry {A} stop wait c (fn : Py A) :
  keeps I fn ->
  (forall z s, I s -> I (logged (EvSleep z) s)) ->
  keeps I (retry stop wait c fn).
Proof.
  intros Hfn Hsleep s r s' Hi. unfold retry.
  destruct (Retrying wait c (stop - 1) 1 fn s) as [[r0 s0] k] eqn:E.
  cbn [fst]. intros [= <- <-].
  eapply keeps_Retrying; eauto.
Qed.

End Keeps.

Ltac keeps_step :=
  lazymatch goal with
  | |- keeps _ (bind _ _) => apply keeps_bind; [ | intros ? ]
  | |- keeps _ (ret _) => apply keeps_ret
  | |- keeps _ (raise _) => apply keeps_raise
  | |- keeps _ (lift _) => apply keeps_lift
  | |- keeps _ get_state => apply keeps_get_state
  | |- keeps _ (modify _) => apply keeps_modify; intros ? ?
  | |- keeps _ (log _) => apply keeps_log; intros ? ?
  | |- keeps _ (ask _ _) => apply keeps_ask; intros ? ?
  | |- keeps _ (call _ _) => apply keeps_call; intros ? ?
  | |- keeps _ (try_except _ _) =>
      apply keeps_try_except; [ | repeat constructor; intros ?; cbn [snd] ]
  | |- keeps _ (if ?b then _ else _) => destruct b
  | |- keeps _ (match ?x with _ => _ end) => destruct x
  end.

Ltac keeps_walk := repeat keeps_step.

(** ** What each function touches

    A condition [I] that survives the calls of the kinds in [K] survives
    each function that makes only such calls and only the state changes
    [I] allows. *)

Section Footprints.

Context (w : World) (I : State -> Prop) (K : kind -> bool).

Hypothesis closed_log :
  forall ev s, K (kind_of ev) = true -> I s -> I (logged ev s).

Lemma validate_image_path_keeps path :
  K KStat = true -> keeps I (validate_image_path w path).
Proof.
  intros Hk. unfold validate_image_path.
  keeps_walk; try (apply closed_log; assumption).
Qed.

Lemma load_image_keeps path :
  K KStat = true -> K KImage = true -> keeps I (load_image w path).
Proof.
  intros Hs Hi. unfold load_image, validate_image_format.
  keeps_walk; try (apply closed_log; assumption).
  now apply validate_image_path_keeps.
Qed.

Lemma read_file_keeps path :
  K KStat = true -> K KReadText = true -> keeps I (read_file w path).
Proof.
  intros Hs Hr. unfold read_file.
  keeps_walk; try (apply closed_log; assumption).
Qed.

(** The state changes of the settings: loading the environment file once,
    and storing a resolved value. *)
Hypothesis closed_dotenv :
  forall s, _load_dotenv_called s = false -> I s ->
            I (set_load_dotenv_called true (logged EvLoadDotenv s)).

Lemma _ensure_env_loaded_keeps : keeps I _ensure_env_loaded.
Proof.
  intros s r s' Hi. unfold _ensure_env_loaded. rewrite bind_get_state.
  destruct (_load_dotenv_called s) eqn:Hf; cbn [negb].
  - now intros [= <- <-].
  - intros [= <- <-]. now apply closed_dotenv.
Qed.

Hypothesis closed_Settings : forall c s, I s -> I (set_Settings c s).

Lemma get_api_key_keeps : K KGetenv = true -> keeps I (get_api_key w).
Proof.
  intros Hk. unfold get_api_key, _get_api_key, getenv.
  keeps_walk; try (apply closed_log; assumption);
    try (apply closed_Settings; assumption).
  apply _ensure_env_loaded_keeps.
Qed.

Lemma get_model_id_keeps : K KGetenv = true -> keeps I (get_model_id w).
Proof.
  intros Hk. unfold get_model_id, _get_model_id, getenv.
  keeps_walk; try (apply closed_log; assumption);
    try (apply closed_Settings; assumption).
  apply _ensure_env_loaded_keeps.
Qed.

Lemma get_temperature_keeps : K KGetenv = true -> keeps I (get_temperature w).
Proof.
  intros Hk. unfold get_temperature, _get_temperature, getenv.
  keeps_walk; try (apply closed_log; assumption);
    try (apply closed_Settings; assumption).
  apply _ensure_env_loaded_keeps.
Qed.

Lemma get_top_p_keeps : K KGetenv = true -> keeps I (get_top_p w).
Proof.
  intros Hk. unfold get_top_p, _get_top_p, getenv.
  keeps_walk; try (apply closed_log; assumption);
    try (apply closed_Settings; assumption).
  apply _ensure_env_loaded_keeps.
Qed.

Lemma extract_body_keeps self image system_prompt user_prompt :
  K KGetenv = true -> K KRequest = true ->
  keeps I (extract_body w self image system_prompt user_prompt).
Proof.
  intros Hg Hr. unfold extract_body, client.
  keeps_walk; try (apply closed_log; assumption);
    auto using get_temperature_keeps, get_top_p_keeps, get_model_id_keeps.
Qed.

Lemma extract_keeps self image system_prompt user_prompt :
  K KGetenv = true -> K KRequest = true -> K KSleep = true ->
  keeps I (extract w self image system_prompt user_prompt).
Proof.
  intros Hg Hr Hs. unfold extract. apply keeps_retry.
  - now apply extract_body_keeps.
  - intros z s Hi. now apply closed_log.
Qed.

End Footprints.

(** How the steps compose: a condition each step keeps is kept by the
    whole. *)
Lemma _get_cached_prompt_keeps w (I : State -> Prop) path :
  keeps I (read_file w path) ->
  (forall content s,
     _PROMPT_CACHE s !! path = None -> I s ->
     I (set_PROMPT_CACHE (<[path := content]> (_PROMPT_CACHE s)) s)) ->
  keeps I (_get_cached_prompt w path).
Proof.
  intros Hread Hfresh s r s' Hi. unfold _get_cached_prompt.
  rewrite bind_get_state.
  destruct (_PROMPT_CACHE s !! path) as [c | ] eqn:Hc.
  - now intros [= <- <-].
  - intros H.
    apply bind_inv in H as [(c & s0 & Hr & H) | (e & Hr & _)].
    + rewrite bind_modify in H. injection H as <- <-.
      apply Hfresh; [ | eapply Hread; eauto ].
      now rewrite (read_file_preserves _PROMPT_CACHE w path
                     (fun _ _ => eq_refl) _ _ _ Hr).
    + eapply Hread; eauto.
Qed.

Lemma GeminiOCRClient_keeps w (I : State -> Prop) :
  keeps I (get_api_key w) ->
  (forall key s, I s -> I (logged (EvGenaiClient key) s)) ->
  (forall h s, I s -> I (set_heap h s)) ->
  (forall i s, I s -> I (set_instance i s)) ->
  keeps I (GeminiOCRClient w).
Proof.
  intros Hkey Hlog Hheap Hinst.
  unfold GeminiOCRClient, __new__, object__new__, __init__, set_self_client.
  keeps_walk; auto.
Qed.

Lemma run_pipeline_keeps w (I : State -> Prop) image_path :
  keeps I (load_image w image_path) ->
  keeps I (_get_cached_prompt w "app/prompts/system.txt") ->
  keeps I (_get_cached_prompt w "app/prompts/extraction.txt") ->
  keeps I (GeminiOCRClient w) ->
  (forall self image system_prompt user_prompt,
     keeps I (extract w self image system_prompt user_prompt)) ->
  keeps I (run_pipeline w image_path).
Proof.
  intros Hload Hsys Hext Hclient Hextract. unfold run_pipeline.
  keeps_walk; auto.
Qed.

(** ** The settings *)

(** [_ensure_env_loaded] returns with the flag set, touches only the flag
    and the history, and does nothing once the flag is set. *)
Lemma _ensure_env_loaded_run s :
  exists s1,
    _ensure_env_loaded s = (Return tt, s1) /\
    _load_dotenv_called s1 = true /\ Settings s1 = Settings s /\
    (_load_dotenv_called s = true -> s1 = s).
Proof.
  unfold _ensure_env_loaded. rewrite bind_get_state.
  destruct (_load_dotenv_called s) eqn:Hf; cbn [negb]; eexists;
    (split; [ reflexivity | ]); cbn; auto.
  repeat split; auto. discriminate.
Qed.

(** A state in which a setting is resolved and the environment file is
    loaded: the getters return the stored value and change nothing. *)
Lemma _get_api_key_cached w s k :
  _load_dotenv_called s = true -> _api_key (Settings s) = Some k ->
  _get_api_key w s = (Return k, s).
Proof.
  intros Hf Hk. unfold _get_api_key.
  destruct (_ensure_env_loaded_run s) as (s1 & E & _ & _ & Hsame).
  rewrite (Hsame Hf) in E.
  now rewrite (bind_Return _ _ _ _ _ E), bind_get_state, Hk.
Qed.

Lemma _get_model_id_cached w s m :
  _load_dotenv_called s = true -> _model_id (Settings s) = Some m ->
  _get_model_id w s = (Return m, s).
Proof.
  intros Hf Hk. unfold _get_model_id.
  destruct (_ensure_env_loaded_run s) as (s1 & E & _ & _ & Hsame).
  rewrite (Hsame Hf) in E.
  now rewrite (bind_Return _ _ _ _ _ E), bind_get_state, Hk.
Qed.

Lemma _get_temperature_cached w s t :
  _load_dotenv_called s = true -> _temperature (Settings s) = Some t ->
  _get_temperature w s = (Return t, s).
Proof.
  intros Hf Hk. unfold _get_temperature.
  destruct (_ensure_env_loaded_run s) as (s1 & E & _ & _ & Hsame).
  rewrite (Hsame Hf) in E.
  now rewrite (bind_Return _ _ _ _ _ E), bind_get_state, Hk.
Qed.

Lemma _get_top_p_cached w s p :
  _load_dotenv_called s = true -> _top_p (Settings s) = Some p ->
  _get_top_p w s = (Return p, s).
Proof.
  intros Hf Hk. unfold _get_top_p.
  destruct (_ensure_env_loaded_run s) as (s1 & E & _ & _ & Hsame).
  rewrite (Hsame Hf) in E.
  now rewrite (bind_Return _ _ _ _ _ E), bind_get_state, Hk.
Qed.

(** What a getter that returned leaves: the flag set and the value
    stored. *)
Lemma _get_api_key_returned w s k s1 :
  _get_api_key w s = (Return k, s1) ->
  _load_dotenv_called s1 = true /\ _api_key (Settings s1) = Some k.
Proof.
  unfold _get_api_key.
  destruct (_ensure_env_loaded_run s) as (s0 & E & Hf & Hs & _).
  rewrite (bind_Return _ _ _ _ _ E), bind_get_state.
  destruct (_api_key (Settings s0)) as [k0 | ] eqn:Hk.
  - now intros [= <- <-].
  - unfold getenv. rewrite bind_ask, bind_modify.
    destruct (os_getenv w (trace s0) "GEMINI_API_KEY") as [[ | c r] | ];
      cbn [truthy negb default from_option]; try discriminate.
    now intros [= <- <-].
Qed.

Lemma _get_model_id_returned w s m s1 :
  _get_model_id w s = (Return m, s1) ->
  _load_dotenv_called s1 = true /\ _model_id (Settings s1) = Some m.
Proof.
  unfold _get_model_id.
  destruct (_ensure_env_loaded_run s) as (s0 & E & Hf & Hs & _).
  rewrite (bind_Return _ _ _ _ _ E), bind_get_state.
  destruct (_model_id (Settings s0)) as [k0 | ] eqn:Hk.
  - now intros [= <- <-].
  - unfold getenv. rewrite bind_ask, bind_modify.
    destruct (os_getenv w (trace s0) "GEMINI_MODEL") as [[ | c r] | ];
      cbn [truthy negb default from_option]; try discriminate.
    now intros [= <- <-].
Qed.

Lemma _get_temperature_returned w s t s1 :
  _get_temperature w s = (Return t, s1) ->
  _load_dotenv_called s1 = true /\ _temperature (Settings s1) = Some t.
Proof.
  unfold _get_temperature.
  destruct (_ensure_env_loaded_run s) as (s0 & E & Hf & Hs & _).
  rewrite (bind_Return _ _ _ _ _ E), bind_get_state.
  destruct (_temperature (Settings s0)) as [k0 | ] eqn:Hk.
  - now intros [= <- <-].
  - unfold getenv. rewrite bind_ask. unfold bind, lift.
    destruct (Builtins.float _) as [f | e]; [ | discriminate ].
    now intros [= <- <-].
Qed.

Lemma _get_top_p_returned w s p s1 :
  _get_top_p w s = (Return p, s1) ->
  _load_dotenv_called s1 = true /\ _top_p (Settings s1) = Some p.
Proof.
  unfold _get_top_p.
  destruct (_ensure_env_loaded_run s) as (s0 & E & Hf & Hs & _).
  rewrite (bind_Return _ _ _ _ _ E), bind_get_state.
  destruct (_top_p (Settings s0)) as [k0 | ] eqn:Hk.
  - now intros [= <- <-].
  - unfold getenv. rewrite bind_ask. unfold bind, lift.
    destruct (Builtins.float _) as [f | e]; [ | discriminate ].
    now intros [= <- <-].
Qed.

(** X1 (a resolved setting is never resolved again).  Once one of the four
    getters has returned a value, every later call of it, whatever the
    environment has become, returns that value and changes nothing: no
    lookup, no load of the environment file. *)
Theorem settings_resolved_once w s s1 :
  (forall k, get_api_key w s = (Return k, s1) ->
     forall w', get_api_key w' s1 = (Return k, s1)) /\
  (forall m, get_model_id w s = (Return m, s1) ->
     forall w', get_model_id w' s1 = (Return m, s1)) /\
  (forall t, get_temperature w s = (Return t, s1) ->
     forall w', get_temperature w' s1 = (Return t, s1)) /\
  (forall p, get_top_p w s = (Return p, s1) ->
     forall w', get_top_p w' s1 = (Return p, s1)).
Proof.
  repeat split; intros v H w'.
  - destruct (_get_api_key_returned w s v s1 H).
    now apply _get_api_key_cached.
  - destruct (_get_model_id_returned w s v s1 H).
    now apply _get_model_id_cached.
  - destruct (_get_temperature_returned w s v s1 H).
    now apply _get_temperature_cached.
  - destruct (_get_top_p_returned w s v s1 H).
    now apply _get_top_p_cached.
Qed.

(** The first access of a required setting, by what the environment
    answers. *)
Lemma _get_api_key_first w s :
  _api_key (Settings s) = None ->
  let s0 := snd (_ensure_env_loaded s) in
  let v := os_getenv w (trace s0) "GEMINI_API_KEY" in
  let s1 := set_Settings
              (mkSettings v (_model_id (Settings s0))
                 (_temperature (Settings s0)) (_top_p (Settings s0)))
              (logged (EvGetenv "GEMINI_API_KEY") s0) in
  _get_api_key w s =
  (if truthy v then Return (default "" v)
   else Raise (Exn ConfigurationError
                 "GEMINI_API_KEY environment variable is not set"), s1).
Proof.
  intros Hnone s0 v s1. unfold _get_api_key.
  destruct (_ensure_env_loaded_run s) as (s0' & E & Hf & Hs & _).
  assert (s0' = s0) as -> by (unfold s0; now rewrite E).
  rewrite (bind_Return _ _ _ _ _ E), bind_get_state, Hs, Hnone.
  unfold getenv. rewrite bind_ask, bind_modify. fold v.
  now destruct (truthy v).
Qed.

Lemma _get_model_id_first w s :
  _model_id (Settings s) = None ->
  let s0 := snd (_ensure_env_loaded s) in
  let v := os_getenv w (trace s0) "GEMINI_MODEL" in
  let s1 := set_Settings
              (mkSettings (_api_key (Settings s0)) v
                 (_temperature (Settings s0)) (_top_p (Settings s0)))
              (logged (EvGetenv "GEMINI_MODEL") s0) in
  _get_model_id w s =
  (if truthy v then Return (default "" v)
   else Raise (Exn ConfigurationError
                 "GEMINI_MODEL environment variable is not set"), s1).
Proof.
  intros Hnone s0 v s1. unfold _get_model_id.
  destruct (_ensure_env_loaded_run s) as (s0' & E & Hf & Hs & _).
  assert (s0' = s0) as -> by (unfold s0; now rewrite E).
  rewrite (bind_Return _ _ _ _ _ E), bind_get_state, Hs, Hnone.
  unfold getenv. rewrite bind_ask, bind_modify. fold v.
  now destruct (truthy v).
Qed.

(** X2 (a required setting that is missing).  The first access of the API
    key, or of the model id, raises ConfigurationError with the message that
    names the variable when the variable is unset or empty.  When it is
    unset, nothing is stored: the setting is still unresolved. *)
Theorem required_setting_missing w s :
  let s0 := snd (_ensure_env_loaded s) in
  (_api_key (Settings s) = None ->
   truthy (os_getenv w (trace s0) "GEMINI_API_KEY") = false ->
   fst (get_api_key w s) =
     Raise (Exn ConfigurationError
              "GEMINI_API_KEY environment variable is not set") /\
   (os_getenv w (trace s0) "GEMINI_API_KEY" = None ->
    _api_key (Settings (snd (get_api_key w s))) = None)) /\
  (_model_id (Settings s) = None ->
   truthy (os_getenv w (trace s0) "GEMINI_MODEL") = false ->
   fst (get_model_id w s) =
     Raise (Exn ConfigurationError
              "GEMINI_MODEL environment variable is not set") /\
   (os_getenv w (trace s0) "GEMINI_MODEL" = None ->
    _model_id (Settings (snd (get_model_id w s))) = None)).
Proof.
  intros s0. split; intros Hnone Hv.
  - unfold get_api_key. rewrite (_get_api_key_first w s Hnone).
    fold s0. rewrite Hv. split; [ reflexivity | ].
    intros Hunset. cbn. exact Hunset.
  - unfold get_model_id. rewrite (_get_model_id_first w s Hnone).
    fold s0. rewrite Hv. split; [ reflexivity | ].
    intros Hunset. cbn. exact Hunset.
Qed.

(** X3 (an empty required setting is stored).  When GEMINI_API_KEY, or
    GEMINI_MODEL, is set to the empty string, the first access raises
    ConfigurationError, but the empty string has been stored as the
    resolved value: every later access returns the empty string instead of
    raising, whatever the environment has become. *)
Theorem empty_required_setting_sticks w s :
  let s0 := snd (_ensure_env_loaded s) in
  (_api_key (Settings s) = None ->
   os_getenv w (trace s0) "GEMINI_API_KEY" = Some "" ->
   fst (get_api_key w s) =
     Raise (Exn ConfigurationError
              "GEMINI_API_KEY environment variable is not set") /\
   forall w', get_api_key w' (snd (get_api_key w s))
              = (Return "", snd (get_api_key w s))) /\
  (_model_id (Settings s) = None ->
   os_getenv w (trace s0) "GEMINI_MODEL" = Some "" ->
   fst (get_model_id w s) =
     Raise (Exn ConfigurationError
              "GEMINI_MODEL environment variable is not set") /\
   forall w', get_model_id w' (snd (get_model_id w s))
              = (Return "", snd (get_model_id w s))).
Proof.
  intros s0.
  destruct (_ensure_env_loaded_run s) as (s0' & E & Hf & Hs & _).
  assert (s0' = s0) as -> by (unfold s0; now rewrite E).
  split; intros Hnone Hv.
  - unfold get_api_key. rewrite (_get_api_key_first w s Hnone).
    fold s0. rewrite Hv. cbn [truthy fst snd]. split; [ reflexivity | ].
    intros w'. apply _get_api_key_cached; [ exact Hf | reflexivity ].
  - unfold get_model_id. rewrite (_get_model_id_first w s Hnone).
    fold s0. rewrite Hv. cbn [truthy fst snd]. split; [ reflexivity | ].
    intros w'. apply _get_model_id_cached; [ exact Hf | reflexivity ].
Qed.

(** ** Path validation and image loading *)

(** X4 (when [validate_image_path] returns).  It returns exactly when the
    path is not empty and the three checks, made in this order, answer yes:
    the path exists, is a regular file, is readable.  It then returns
    [str(Path(path))], having made these three calls and no other. *)
Theorem validate_image_path_returns w path s validated s' :
  validate_image_path w path s = (Return validated, s') <->
  path <> "" /\
  path_exists w (trace s) path = Return true /\
  path_is_file w (trace (logged (EvExists path) s)) path = Return true /\
  os_access_R_OK w
    (trace (logged (EvIsFile path) (logged (EvExists path) s))) path = true /\
  validated = path_str w path /\
  s' = logged (EvAccess path)
         (logged (EvIsFile path) (logged (EvExists path) s)).
Proof.
  unfold validate_image_path.
  destruct (String.eqb_spec path "") as [-> | Hne].
  { split; [ discriminate | ]. now intros [[] _]. }
  rewrite bind_call.
  destruct (path_exists w (trace s) path) as [[] | e1]; cbn [negb];
    [ | split; [ discriminate | now intros (_ & [=] & _) ]
      | split; [ discriminate | now intros (_ & [=] & _) ] ].
  rewrite bind_call.
  destruct (path_is_file w _ path) as [[] | e2]; cbn [negb];
    [ | split; [ discriminate | now intros (_ & _ & [=] & _) ]
      | split; [ discriminate | now intros (_ & _ & [=] & _) ] ].
  rewrite bind_ask.
  destruct (os_access_R_OK w _ path); cbn [negb].
  - split.
    + intros [= <- <-]. repeat split; auto.
    + intros (_ & _ & _ & _ & -> & ->). reflexivity.
  - split; [ discriminate | now intros (_ & _ & _ & [=] & _) ].
Qed.

(** X5 (no raw I/O error leaves [load_image]).  Whatever the file system
    and the decoder do, an exception that leaves [load_image] is not of the
    OSError family: every such error, also one raised by the checks of the
    path, has been turned into ImageLoadError. *)
Theorem load_image_never_OSError w path s e s' :
  load_image w path s = (Raise e, s') -> isinstance e OSError = false.
Proof.
  unfold load_image, try_except.
  match goal with |- context [match ?m s with _ => _ end] =>
    destruct (m s) as [[r | e0] s0] end; [ discriminate | ].
  cbn [handler_for]. destruct (caught_by _ e0) eqn:Hc.
  - now intros [= <- <-].
  - intros [= <- <-]. unfold caught_by in Hc. cbn [existsb] in Hc.
    now destruct (isinstance e0 OSError).
Qed.



(** X7 (a refused path stops [load_image]).  When [validate_image_path]
    raises its ValidationError (or any exception outside the OSError
    family), [load_image] raises that same exception in the state the
    validation left: the decoder is never called and the error is not
    turned into ImageLoadError. *)
Theorem load_image_refused_path w path s e s1 :
  validate_image_path w path s = (Raise e, s1) ->
  isinstance e OSError = false ->
  load_image w path s = (Raise e, s1).
Proof.
  intros Hv He. unfold load_image.
  apply try_except_uncaught.
  - now apply bind_Raise.
  - cbn [handler_for]. unfold caught_by. cbn [existsb]. rewrite He.
    cbn [orb].
    assert (Hu : isinstance e UnidentifiedImageError = false).
    { destruct e as [c m]. unfold isinstance in *. cbn in *.
      destruct c; try reflexivity; vm_compute in He; discriminate. }
    now rewrite Hu.
Qed.

(** ** The file reader *)

(** X8 (errors of [read_file]).  A path that does not exist, or is not a
    regular file, is refused with ValidationError before the file is
    opened.  Once both checks pass, the file is opened once: its text is
    returned as it is; an error of the OSError family or a
    UnicodeDecodeError becomes a ValidationError that carries its message;
    any other exception goes through unchanged. *)
Theorem read_file_outcomes w path s :
  let s1 := logged (EvExists path) s in
  let s2 := logged (EvIsFile path) s1 in
  let s3 := logged (EvReadText path) s2 in
  (path_exists w (trace s) path = Return false ->
   read_file w path s =
   (Raise (Exn ValidationError ("File does not exist: " ++ path)), s1)) /\
  (path_exists w (trace s) path = Return true ->
   path_is_file w (trace s1) path = Return false ->
   read_file w path s =
   (Raise (Exn ValidationError ("Path is not a file: " ++ path)), s2)) /\
  (path_exists w (trace s) path = Return true ->
   path_is_file w (trace s1) path = Return true ->
   match open_read_utf8 w (trace s2) path with
   | Return content => read_file w path s = (Return content, s3)
   | Raise e =>
       read_file w path s =
       (Raise (if isinstance e OSError || isinstance e UnicodeDecodeError
               then Exn ValidationError
                      ("Failed to read file " ++ path ++ ": " ++ exn_str e)
               else e), s3)
   end).
Proof.
  intros s1 s2 s3. unfold read_file. repeat split.
  - intros He. rewrite bind_call, He. reflexivity.
  - intros He Hf. rewrite bind_call, He. cbn [negb].
    rewrite bind_call. fold s1. rewrite Hf. reflexivity.
  - intros He Hf. rewrite bind_call, He. cbn [negb].
    rewrite bind_call. fold s1. rewrite Hf. cbn [negb]. fold s2.
    unfold try_except. rewrite call_eq. fold s3.
    destruct (open_read_utf8 w (trace s2) path) as [c | e]; [ reflexivity | ].
    cbn [handler_for]. unfold caught_by. cbn [existsb].
    destruct (isinstance e OSError); cbn [orb]; [ reflexivity | ].
    rewrite orb_false_r.
    now destruct (isinstance e UnicodeDecodeError).
Qed.

(** ** Conditions the whole pipeline keeps *)

(** A condition that survives every call to the outside other than the
    load of the environment file, the load of that file when it happens
    for the first time, and every state change the package makes, survives
    [run_pipeline]. *)
Lemma run_pipeline_keeps_closed w (I : State -> Prop) image_path :
  (forall ev s, kind_of ev <> KDotenv -> I s -> I (logged ev s)) ->
  (forall s, _load_dotenv_called s = false -> I s ->
             I (set_load_dotenv_called true (logged EvLoadDotenv s))) ->
  (forall c s, I s -> I (set_Settings c s)) ->
  (forall h s, I s -> I (set_heap h s)) ->
  (forall i s, I s -> I (set_instance i s)) ->
  (forall path content s,
     _PROMPT_CACHE s !! path = None -> I s ->
     I (set_PROMPT_CACHE (<[path := content]> (_PROMPT_CACHE s)) s)) ->
  keeps I (run_pipeline w image_path).
Proof.
  intros Hlog Hdot Hset Hheap Hinst Hcache.
  set (K := fun k => negb (is_kind k KDotenv)).
  assert (HK : forall ev s, K (kind_of ev) = true -> I s -> I (logged ev s)).
  { intros ev s Hk. apply Hlog. intros Heq. rewrite Heq in Hk. discriminate. }
  apply run_pipeline_keeps.
  - now apply (load_image_keeps w I K HK).
  - apply _get_cached_prompt_keeps; [ | apply Hcache ].
    now apply (read_file_keeps w I K HK).
  - apply _get_cached_prompt_keeps; [ | apply Hcache ].
    now apply (read_file_keeps w I K HK).
  - apply GeminiOCRClient_keeps; auto.
    now apply (get_api_key_keeps w I K HK Hdot Hset).
  - intros self image sp up.
    now apply (extract_keeps w I K HK Hdot Hset).
Qed.

(** X9 (a cached prompt is never replaced).  An entry of the prompt cache
    stays what it is through every later call of [_get_cached_prompt], on
    any path, and through every run of the pipeline: the file is not looked
    at again, whatever it has become. *)
Theorem prompt_cache_frozen path content s :
  _PROMPT_CACHE s !! path = Some content ->
  (forall w path' r s',
     _get_cached_prompt w path' s = (r, s') ->
     _PROMPT_CACHE s' !! path = Some content) /\
  (forall w image_path r s',
     run_pipeline w image_path s = (r, s') ->
     _PROMPT_CACHE s' !! path = Some content).
Proof.
  intros Hc.
  set (I := fun s : State => _PROMPT_CACHE s !! path = Some content).
  assert (Hfresh : forall path' content' s0,
            _PROMPT_CACHE s0 !! path' = None -> I s0 ->
            I (set_PROMPT_CACHE (<[path' := content']> (_PROMPT_CACHE s0)) s0)).
  { unfold I. intros path' content' s0 Hnone Hi.
    cbn [_PROMPT_CACHE set_PROMPT_CACHE].
    rewrite lookup_insert_ne; [ exact Hi | congruence ]. }
  split.
  - intros w path' r s' H.
    refine (_get_cached_prompt_keeps w I path' _ (Hfresh path') s r s' Hc H).
    intros s0 r0 s0' Hi Hr. unfold I.
    now rewrite (read_file_preserves _PROMPT_CACHE w path'
                   (fun _ _ => eq_refl) _ _ _ Hr).
  - intros w image_path r s' H.
    refine (run_pipeline_keeps_closed w I image_path _ _ _ _ _ Hfresh
              s r s' Hc H); unfold I; auto.
Qed.

(** A condition that every entry point keeps holds throughout a
    process. *)
Lemma process_invariant w (I : State -> Prop) :
  I init_state ->
  (forall image_path, keeps I (run_pipeline w image_path)) ->
  keeps I (GeminiOCRClient w) ->
  (forall self image sp up, keeps I (extract w self image sp up)) ->
  (forall path, keeps I (_get_cached_prompt w path)) ->
  (forall path, keeps I (load_image w path)) ->
  (forall path, keeps I (read_file w path)) ->
  keeps I (get_api_key w) -> keeps I (get_model_id w) ->
  keeps I (get_temperature w) -> keeps I (get_top_p w) ->
  forall actions, I (process w actions).
Proof.
  intros H0 Hrun Hc Hx Hp Hl Hr Hk Hm Ht Hpp actions. unfold process.
  revert H0. generalize init_state.
  induction actions as [ | a actions IH]; intros s Hs; [ exact Hs | ].
  cbn [fold_left]. apply IH.
  destruct a; cbn [perform];
    match goal with |- I (snd (?m s)) =>
      destruct (m s) as [r s'] eqn:E; cbn [snd] end;
    [ eapply Hrun | eapply Hc | eapply Hx | eapply Hp | eapply Hl
    | eapply Hr | eapply Hk | eapply Hm | eapply Ht | eapply Hpp ];
    eassumption.
Qed.




(** ** One client object *)

(** [__init__] allocates nothing and leaves [_instance] alone. *)
Lemma __init__preserves_shape w self :
  preserves (fun s => (length (heap s), _instance s)) (__init__ w self).
Proof.
  unfold __init__, set_self_client, get_api_key, _get_api_key,
         _ensure_env_loaded, getenv.
  preserves_walk; try reflexivity.
  cbn [heap set_heap _instance]. now rewrite length_insert.
Qed.

(** A construction allocates an object exactly when no instance is
    stored, and stores it. *)
Lemma GeminiOCRClient_shape w s r s' :
  GeminiOCRClient w s = (r, s') ->
  match _instance s with
  | None => _instance s' = Some (length (heap s)) /\
            length (heap s') = S (length (heap s))
  | Some l => _instance s' = Some l /\ length (heap s') = length (heap s)
  end.
Proof.
  unfold GeminiOCRClient. intros H.
  destruct (_instance s) as [l | ] eqn:Hi.
  - rewrite (bind_Return _ _ _ _ _ (__new__again s l Hi)) in H.
    destruct (__init__ w l s) as [r1 s1] eqn:E.
    pose proof (__init__preserves_shape w l _ _ _ E) as Hs.
    injection Hs as Hlen Hinst.
    assert (s' = s1) as ->.
    { unfold bind in H. rewrite E in H. destruct r1; now injection H. }
    split; congruence.
  - rewrite (bind_Return _ _ _ _ _ (__new__fresh s Hi)) in H.
    set (s0 := set_instance _ _) in H.
    destruct (__init__ w (length (heap s)) s0) as [r1 s1] eqn:E.
    pose proof (__init__preserves_shape w _ _ _ _ E) as Hs.
    injection Hs as Hlen Hinst.
    assert (s' = s1) as ->.
    { unfold bind in H. rewrite E in H. destruct r1; now injection H. }
    split; [ exact Hinst | ]. rewrite Hlen. unfold s0.
    cbn [heap set_instance set_heap]. rewrite length_app. cbn. lia.
Qed.

(** X11 (one client object per process).  Whatever a process calls, at
    most one GeminiOCRClient object is ever allocated: the heap is empty
    as long as [_instance] is unset, and afterwards holds exactly the
    object [_instance] refers to. *)
Theorem one_client_object w actions :
  let s := process w actions in
  (length (heap s) <= 1)%nat /\
  match _instance s with
  | None => heap s = []
  | Some self => self = 0%nat /\ length (heap s) = 1%nat
  end.
Proof.
  intros s.
  set (I := fun s : State =>
              match _instance s with
              | None => heap s = []
              | Some self => self = 0%nat /\ length (heap s) = 1%nat
              end).
  assert (H : I s).
  { unfold s.
    assert (Hlog : forall ev s0, I s0 -> I (logged ev s0)) by (intros; assumption).
    assert (Hdot : forall s0, _load_dotenv_called s0 = false -> I s0 ->
                     I (set_load_dotenv_called true (logged EvLoadDotenv s0)))
      by (intros; assumption).
    assert (Hset : forall c s0, I s0 -> I (set_Settings c s0))
      by (intros; assumption).
    assert (HK : forall ev s0, (fun _ => true) (kind_of ev) = true ->
                   I s0 -> I (logged ev s0)) by (intros; assumption).
    assert (Hcache : forall path content s0,
              _PROMPT_CACHE s0 !! path = None -> I s0 ->
              I (set_PROMPT_CACHE (<[path := content]> (_PROMPT_CACHE s0)) s0))
      by (intros; assumption).
    assert (Hread : forall path, keeps I (read_file w path))
      by (intros path; now apply (read_file_keeps w I _ HK)).
    assert (Hc : keeps I (GeminiOCRClient w)).
    { intros s0 r s1 Hi E. pose proof (GeminiOCRClient_shape w s0 r s1 E) as Hs.
      unfold I in *. destruct (_instance s0) as [l | ].
      - destruct Hs as [-> ->]. exact Hi.
      - destruct Hs as [-> ->]. rewrite Hi. auto. }
    assert (Hx : forall self image sp up, keeps I (extract w self image sp up))
      by (intros; now apply (extract_keeps w I _ HK Hdot Hset)).
    assert (Hp : forall path, keeps I (_get_cached_prompt w path))
      by (intros path; apply _get_cached_prompt_keeps;
          [ apply Hread | apply Hcache ]).
    assert (Hl : forall path, keeps I (load_image w path))
      by (intros path; now apply (load_image_keeps w I _ HK)).
    apply process_invariant; auto.
    - reflexivity.
    - intros image_path. now apply run_pipeline_keeps.
    - now apply (get_api_key_keeps w I _ HK Hdot Hset).
    - now apply (get_model_id_keeps w I _ HK Hdot Hset).
    - now apply (get_temperature_keeps w I _ HK Hdot Hset).
    - now apply (get_top_p_keeps w I _ HK Hdot Hset). }
  split; [ | exact H ].
  unfold I in H. destruct (_instance s); [ lia | rewrite H; cbn; lia ].
Qed.

(** ** Pre- and postconditions *)

Lemma hoare_of_keeps {A} (I : State -> Prop) (m : Py A) :
  keeps I m -> hoare I m (fun _ => I).
Proof. intros H s r s' Hi E. eapply H; eauto. Qed.

Lemma hoare_weaken {A} (P P' : State -> Prop) (m : Py A)
    (Q Q' : outcome A -> State -> Prop) :
  hoare P m Q -> (forall s, P' s -> P s) ->
  (forall r s, Q r s -> Q' r s) -> hoare P' m Q'.
Proof. intros H HP HQ s r s' Hp E. eapply HQ, H; eauto. Qed.

Lemma hoare_bind {A B} (P : State -> Prop) (m : Py A) (k : A -> Py B)
    (Q1 : outcome A -> State -> Prop) (Q : outcome B -> State -> Prop) :
  hoare P m Q1 ->
  (forall a, hoare (Q1 (Return a)) (k a) Q) ->
  (forall e s, Q1 (Raise e) s -> Q (Raise e) s) ->
  hoare P (bind m k) Q.
Proof.
  intros Hm Hk He s r s2 Hp H.
  apply bind_inv in H as [(a & s1 & H1 & H2) | (e & H1 & ->)].
  - eapply Hk; [ | exact H2 ]. eapply Hm; eauto.
  - eapply He, Hm; eauto.
Qed.

(** A [try] whose handlers all raise, in the state they are entered in:
    the state is the one the body left. *)
Lemma hoare_try_raising {A} (P : State -> Prop) (m : Py A) clauses
    (Q : State -> Prop) :
  hoare P m (fun _ => Q) ->
  List.Forall (fun c => forall e s, exists e', snd c e s = (Raise e', s))
              clauses ->
  hoare P (try_except m clauses) (fun _ => Q).
Proof.
  intros Hm Hc s r s2 Hp. unfold try_except.
  destruct (m s) as [[a | e] s1] eqn:E.
  - intros [= <- <-]. eapply Hm; eauto.
  - destruct (handler_for clauses e) as [h | ] eqn:Hh.
    + assert (Hr : forall s0, exists e', h s0 = (Raise e', s0)).
      { revert Hh. clear -Hc. induction Hc as [ | [cs h0] rest H0 _ IH]; cbn.
        - discriminate.
        - destruct (caught_by cs e); [ | exact IH ].
          intros [= <-] s0. apply H0. }
      destruct (Hr s1) as [e' He']. rewrite He'. intros [= <- <-].
      eapply Hm; eauto.
    + intros [= <- <-]. eapply Hm; eauto.
Qed.

(** ** The cost of a call of [extract] *)

Lemma requests_sent_logged ev s :
  requests_sent (trace (logged ev s)) =
  (requests_sent (trace s) + if is_generate ev then 1 else 0)%nat.
Proof.
  cbn [logged trace]. unfold requests_sent.
  rewrite List.filter_app, length_app. cbn. now destruct (is_generate ev).
Qed.

Lemma sleeps_logged ev s :
  sleeps (trace (logged ev s)) =
  (sleeps (trace s) ++ match ev with EvSleep z => [z] | _ => [] end)%list.
Proof.
  cbn [logged trace]. unfold sleeps. rewrite List.flat_map_app. cbn.
  now rewrite app_nil_r.
Qed.

Lemma effort_quiet n l ev s :
  negb (is_kind (kind_of ev) KRequest || is_kind (kind_of ev) KSleep) = true ->
  effort n l s -> effort n l (logged ev s).
Proof.
  unfold effort. intros Hk [Hr Hs].
  rewrite requests_sent_logged, sleeps_logged.
  destruct ev; cbn in Hk; try discriminate; cbn; rewrite ?app_nil_r;
    split; auto; lia.
Qed.

(** One attempt sends at most one request and never sleeps. *)
Lemma extract_body_effort w self image sp up s r s' :
  extract_body w self image sp up s = (r, s') ->
  (requests_sent (trace s') <= requests_sent (trace s) + 1)%nat /\
  sleeps (trace s') = sleeps (trace s).
Proof.
  set (n := requests_sent (trace s)). set (l := sleeps (trace s)).
  set (K := fun k => negb (is_kind k KRequest || is_kind k KSleep)).
  set (Q := fun s0 => (requests_sent (trace s0) <= n + 1)%nat
                      /\ sleeps (trace s0) = l).
  pose proof (effort_quiet n l) as Hq.
  assert (Hd : forall s0, _load_dotenv_called s0 = false -> effort n l s0 ->
                 effort n l (set_load_dotenv_called true
                               (logged EvLoadDotenv s0))).
  { intros s0 _ Hi. now apply (Hq EvLoadDotenv). }
  assert (Hs : forall c s0, effort n l s0 -> effort n l (set_Settings c s0))
    by (intros; assumption).
  assert (Hweak : forall s0, effort n l s0 -> Q s0).
  { intros s0 [Hr Hl]. unfold Q. rewrite Hr, Hl. split; [ lia | reflexivity ]. }
  assert (Hh : hoare (effort n l) (extract_body w self image sp up)
                     (fun _ => Q)).
  { unfold extract_body. apply hoare_try_raising.
    2:{ repeat constructor; intros e s0; cbn [snd]; eexists; reflexivity. }
    eapply hoare_bind;
      [ apply hoare_of_keeps, (get_temperature_keeps w _ K Hq Hd Hs eq_refl)
      | intros t | intros e s0; apply Hweak ].
    eapply hoare_bind;
      [ apply hoare_of_keeps, (get_top_p_keeps w _ K Hq Hd Hs eq_refl)
      | intros p | intros e s0; apply Hweak ].
    eapply hoare_bind;
      [ apply hoare_of_keeps; unfold client; keeps_walk
      | intros c | intros e s0; apply Hweak ].
    eapply hoare_bind;
      [ apply hoare_of_keeps, (get_model_id_keeps w _ K Hq Hd Hs eq_refl)
      | intros m | intros e s0; apply Hweak ].
    eapply hoare_bind with (Q1 := fun _ => Q).
    - intros s0 r0 s1 [Hr Hsl]. rewrite call_eq. intros [= <- <-].
      unfold Q. rewrite requests_sent_logged, sleeps_logged. cbn.
      rewrite app_nil_r. split; [ lia | assumption ].
    - intros resp. apply hoare_of_keeps. keeps_walk.
    - auto. }
  intros H. exact (Hh s r s' (conj eq_refl eq_refl) H).
Qed.

(** The loop sleeps between its attempts, and only there. *)
Lemma Retrying_effort {A} wait c (fn : Py A) :
  (forall s r s', fn s = (r, s') ->
     (requests_sent (trace s') <= requests_sent (trace s) + 1)%nat /\
     sleeps (trace s') = sleeps (trace s)) ->
  forall left n s r s' k,
    Retrying wait c left n fn s = (r, s', k) ->
    (n <= k <= n + left)%nat /\
    sleeps (trace s') = (sleeps (trace s) ++ map wait (seq n (k - n)))%list /\
    (requests_sent (trace s') <= requests_sent (trace s) + (k - n + 1))%nat.
Proof.
  intros Hfn.
  assert (Hend : forall n s r s',
            fn s = (r, s') ->
            forall left,
            (n <= n <= n + left)%nat /\
            sleeps (trace s')
            = (sleeps (trace s) ++ map wait (seq n (n - n)))%list /\
            (requests_sent (trace s')
             <= requests_sent (trace s) + (n - n + 1))%nat).
  { intros n s r s' E left. destruct (Hfn _ _ _ E) as [Hr Hs].
    rewrite Nat.sub_diag. cbn. rewrite app_nil_r. repeat split; auto; lia. }
  induction left as [ | left IH]; intros n s r s' k; cbn [Retrying];
    destruct (fn s) as [[a | e] s1] eqn:E.
  - intros [= <- <- <-]. eapply Hend; eauto.
  - destruct (isinstance e c); intros [= <- <- <-]; eapply Hend; eauto.
  - intros [= <- <- <-]. eapply Hend; eauto.
  - destruct (isinstance e c); [ | intros [= <- <- <-]; eapply Hend; eauto ].
    intros H. apply IH in H as ([Hn Hk] & Hsl & Hrq).
    destruct (Hfn _ _ _ E) as [Hr1 Hs1].
    unfold sleep in *. rewrite log_eq in *. cbn [snd] in *.
    rewrite sleeps_logged, Hs1 in Hsl.
    rewrite requests_sent_logged in Hrq. cbn in Hrq.
    split; [ lia | ]. split; [ | lia ].
    rewrite Hsl, <- app_assoc. f_equal.
    replace (k - n)%nat with (S (k - S n)) by lia. reflexivity.
Qed.

(** The loop of [extract]: its attempts, its sleeps and its requests. *)
Lemma extract_loop_effort w self image sp up s r s' k :
  Retrying (wait_exponential 1 2 10) APIError 2 1
           (extract_body w self image sp up) s = (r, s', k) ->
  (1 <= k <= 3)%nat /\
  sleeps (trace s') = (sleeps (trace s) ++ repeat 2%Z (k - 1))%list /\
  (requests_sent (trace s') <= requests_sent (trace s) + k)%nat.
Proof.
  intros E.
  apply (Retrying_effort _ _ _ (extract_body_effort w self image sp up))
    in E as ([Hn Hk] & Hsl & Hrq).
  split; [ lia | ]. split; [ | lia ].
  rewrite Hsl. f_equal.
  assert (Hcases : (k = 1 \/ k = 2 \/ k = 3)%nat) by lia.
  destruct Hcases as [-> | [-> | ->]]; reflexivity.
Qed.

(** X12 (the cost of one [extract]).  A call of [extract] makes between
    one and three attempts; it sleeps two time units after each attempt but
    the last, so at most four in all, and sends at most one request per
    attempt, so at most three. *)
Theorem extract_effort w self image system_prompt user_prompt s r s' :
  extract w self image system_prompt user_prompt s = (r, s') ->
  exists attempts,
    (1 <= attempts <= 3)%nat /\
    sleeps (trace s')
    = (sleeps (trace s) ++ repeat 2%Z (attempts - 1))%list /\
    (requests_sent (trace s') <= requests_sent (trace s) + attempts)%nat.
Proof.
  unfold extract, retry. cbn [Nat.sub].
  destruct (Retrying _ _ _ _ _ s) as [[r0 s0] k] eqn:E. cbn [fst].
  intros [= <- <-]. exists k. eapply extract_loop_effort, E.
Qed.

(** X13 (the cost of one run).  One run of the pipeline sends at most
    three requests to the remote service and sleeps at most twice, two time
    units each: the only requests and sleeps are those of its one call of
    [extract]. *)
Theorem run_pipeline_effort w image_path s r s' :
  run_pipeline w image_path s = (r, s') ->
  (requests_sent (trace s') <= requests_sent (trace s) + 3)%nat /\
  exists k, (k <= 2)%nat /\
            sleeps (trace s') = (sleeps (trace s) ++ repeat 2%Z k)%list.
Proof.
  set (n := requests_sent (trace s)). set (l := sleeps (trace s)).
  set (K := fun k => negb (is_kind k KRequest || is_kind k KSleep)).
  set (Q := fun s0 => (requests_sent (trace s0) <= n + 3)%nat /\
                      exists k, (k <= 2)%nat /\
                        sleeps (trace s0) = (l ++ repeat 2%Z k)%list).
  pose proof (effort_quiet n l) as Hq.
  assert (Hd : forall s0, _load_dotenv_called s0 = false -> effort n l s0 ->
                 effort n l (set_load_dotenv_called true
                               (logged EvLoadDotenv s0))).
  { intros s0 _ Hi. now apply (Hq EvLoadDotenv). }
  assert (Hs : forall c s0, effort n l s0 -> effort n l (set_Settings c s0))
    by (intros; assumption).
  assert (Hweak : forall s0, effort n l s0 -> Q s0).
  { intros s0 [Hr Hl]. unfold Q. rewrite Hr, Hl. split; [ lia | ].
    exists 0%nat. split; [ lia | ]. cbn. now rewrite app_nil_r. }
  assert (Hprompt : forall path, keeps (effort n l) (_get_cached_prompt w path)).
  { intros path. apply _get_cached_prompt_keeps.
    - now apply (read_file_keeps w _ K Hq).
    - intros; assumption. }
  assert (Hh : hoare (effort n l) (run_pipeline w image_path) (fun _ => Q)).
  { unfold run_pipeline. apply hoare_try_raising.
    2:{ repeat constructor; intros e s0; cbn [snd]; eexists; reflexivity. }
    eapply hoare_bind;
      [ apply hoare_of_keeps; now apply (load_image_keeps w _ K Hq)
      | intros image | intros e s0; apply Hweak ].
    eapply hoare_bind;
      [ apply hoare_of_keeps, Hprompt
      | intros sp | intros e s0; apply Hweak ].
    eapply hoare_bind;
      [ apply hoare_of_keeps, Hprompt
      | intros up | intros e s0; apply Hweak ].
    eapply hoare_bind;
      [ apply hoare_of_keeps, GeminiOCRClient_keeps
      | intros c | intros e s0; apply Hweak ].
    { now apply (get_api_key_keeps w _ K Hq Hd Hs). }
    { intros key s0. now apply (Hq (EvGenaiClient key)). }
    { intros; assumption. }
    { intros; assumption. }
    eapply hoare_bind with (Q1 := fun _ => Q).
    - intros s0 r0 s1 [Hr Hsl] E. unfold extract, retry in E.
      cbn [Nat.sub] in E.
      destruct (Retrying _ _ _ _ _ s0) as [[r1 s2] k] eqn:El.
      cbn [fst] in E. injection E as <- <-.
      destruct (extract_loop_effort _ _ _ _ _ _ _ _ _ El) as (Hk & Hsl1 & Hr1).
      unfold Q. split; [ lia | ].
      exists (k - 1)%nat. split; [ lia | ]. now rewrite Hsl1, Hsl.
    - intros resp. apply hoare_of_keeps. clearbody Q. keeps_walk.
    - auto. }
  intros H. exact (Hh s r s' (conj eq_refl eq_refl) H).
Qed.

(** ** Attempts of [extract] *)

(** X14 (an attempt that does not fail with APIError ends [extract]).
    When the first attempt returns, or raises an exception that is not an
    APIError (one outside the class [Exception], such as KeyboardInterrupt:
    everything else has been wrapped), [extract] ends with that result in
    the state the attempt left: no sleep, no second attempt. *)
Theorem extract_first_attempt_decides w self image system_prompt user_prompt
    s r s' :
  extract_body w self image system_prompt user_prompt s = (r, s') ->
  match r with
  | Return _ => True
  | Raise e => isinstance e APIError = false
  end ->
  extract w self image system_prompt user_prompt s = (r, s').
Proof.
  intros H Hr. unfold extract, retry. cbn [Nat.sub Retrying]. rewrite H.
  destruct r as [a | e]; [ reflexivity | ]. now rewrite Hr.
Qed.

(** What a returning attempt went through. *)
Lemma extract_body_returned w self image sp up s response s' :
  extract_body w self image sp up s = (Return response, s') ->
  truthy (text response) = true /\
  (forall fb, prompt_feedback response = Some fb ->
              truthy (block_reason fb) = false) /\
  (exists c, self_client s' self = Some c) /\
  _load_dotenv_called s' = true /\
  (exists t p m, _temperature (Settings s') = Some t /\
                 _top_p (Settings s') = Some p /\
                 _model_id (Settings s') = Some m).
Proof.
  unfold extract_body, try_except.
  match goal with |- context [match ?m s with _ => _ end] =>
    destruct (m s) as [[r | e0] s0] eqn:E end.
  2:{ cbn [handler_for]. destruct (caught_by _ e0); [ discriminate | ].
      destruct (caught_by _ e0); discriminate. }
  intros [= -> ->].
  apply bind_inv in E as [(t & s1 & Ht & E) | (e & _ & [=])].
  apply bind_inv in E as [(p & s2 & Hp & E) | (e & _ & [=])].
  cbn zeta in E.
  apply bind_inv in E as [(c & s3 & Hc & E) | (e & _ & [=])].
  apply bind_inv in E as [(m & s4 & Hm & E) | (e & _ & [=])].
  cbn zeta in E. rewrite bind_call in E.
  destruct (generate_content w (trace s4) c _) as [[resp | ] | e];
    try discriminate.
  assert (Hc3 : s3 = s2 /\ self_client s2 self = Some c).
  { revert Hc. unfold client. rewrite bind_get_state.
    destruct (self_client s2 self); [ | discriminate ].
    now intros [= <- <-]. }
  destruct Hc3 as [-> Hcl].
  destruct (_get_temperature_returned w _ _ _ Ht) as [Hf1 Ht1].
  destruct (_get_top_p_returned w _ _ _ Hp) as [Hf2 Hp2].
  destruct (_get_model_id_returned w _ _ _ Hm) as [Hf4 Hm4].
  (* the settings resolved earlier are still there *)
  assert (Ht2 : _temperature (Settings s2) = Some t).
  { revert Hp. unfold get_top_p, _get_top_p.
    destruct (_ensure_env_loaded_run s1) as (s1' & E1 & _ & Hs1 & _).
    rewrite (bind_Return _ _ _ _ _ E1), bind_get_state.
    destruct (_top_p (Settings s1')).
    - intros [= <- <-]. congruence.
    - unfold getenv. rewrite bind_ask. unfold bind, lift.
      destruct (Builtins.float _); [ | discriminate ].
      intros [= <- <-]. cbn. congruence. }
  assert (Hkeep : _temperature (Settings s4) = Some t /\
                  _top_p (Settings s4) = Some p /\
                  heap s4 = heap s2).
  { revert Hm. unfold get_model_id, _get_model_id.
    destruct (_ensure_env_loaded_run s2) as (s2' & E2 & _ & Hs2 & _).
    assert (Hh2 : heap s2' = heap s2).
    { revert E2. unfold _ensure_env_loaded. rewrite bind_get_state.
      destruct (negb (_load_dotenv_called s2)); now intros [= <-]. }
    rewrite (bind_Return _ _ _ _ _ E2), bind_get_state.
    destruct (_model_id (Settings s2')).
    - intros [= <- <-]. repeat split; congruence.
    - unfold getenv. rewrite bind_ask, bind_modify.
      unfold raise, ret.
      destruct (negb (truthy (os_getenv w (trace s2') "GEMINI_MODEL")));
        [ discriminate | ].
      intros [= <- <-]. cbn. repeat split; congruence. }
  destruct Hkeep as (Ht4 & Hp4 & Hheap).
  assert (Hfinal : truthy (text resp) = true /\
            (forall fb, prompt_feedback resp = Some fb ->
                        truthy (block_reason fb) = false) /\
            response = resp /\ s' = logged (EvGenerateContent c
              (mkRequest m (image, up)
                 (mkConfig t p "application/json" sp))) s4).
  { revert E. unfold bind.
    destruct (prompt_feedback resp) as [fb | ].
    - destruct (truthy (block_reason fb)) eqn:Hb; [ discriminate | ].
      cbn. destruct (truthy (text resp)); [ | discriminate ].
      intros [= <- <-]. repeat split; auto. now intros fb0 [= <-].
    - cbn. destruct (truthy (text resp)); [ | discriminate ].
      intros [= <- <-]. repeat split; auto. discriminate. }
  destruct Hfinal as (Htx & Hfb & -> & ->).
  split; [ exact Htx | ]. split; [ exact Hfb | ].
  split; [ exists c; unfold self_client in *; cbn [heap logged];
           now rewrite Hheap | ].
  split; [ exact Hf4 | ]. exists t, p, m. auto.
Qed.

(** X15 (what [extract] returns).  A response that [extract] returns has
    a text that is not empty and no block reason; and in the state it
    leaves, the instance owns a handle, the environment file is loaded, and
    the temperature, top-p and the model id are resolved. *)
Theorem extract_returns_validated w self image system_prompt user_prompt
    s response s' :
  extract w self image system_prompt user_prompt s = (Return response, s') ->
  truthy (text response) = true /\
  (forall fb, prompt_feedback response = Some fb ->
              truthy (block_reason fb) = false) /\
  (exists c, self_client s' self = Some c) /\
  _load_dotenv_called s' = true /\
  (exists t p m, _temperature (Settings s') = Some t /\
                 _top_p (Settings s') = Some p /\
                 _model_id (Settings s') = Some m).
Proof.
  unfold extract, retry. intros H.
  destruct (Retrying _ _ _ _ _ s) as [[r s1] k] eqn:E. cbn [fst] in H.
  injection H as -> ->.
  destruct (Retrying_answer _ _ _ _ _ _ _ _ _ E) as [s0 H0].
  eapply extract_body_returned, H0.
Qed.

(** The float getters raise nothing but the ValueError of [float]. *)
Lemma get_temperature_raises w s e s' :
  get_temperature w s = (Raise e, s') -> exn_class_of e = ValueError.
Proof.
  unfold get_temperature, _get_temperature.
  destruct (_ensure_env_loaded_run s) as (s0 & E & _).
  rewrite (bind_Return _ _ _ _ _ E), bind_get_state.
  destruct (_temperature (Settings s0)); [ discriminate | ].
  unfold getenv. rewrite bind_ask. unfold bind, lift.
  destruct (Builtins.float _) as [f | e0] eqn:Hf; [ discriminate | ].
  intros [= <- _]. eapply float_raises, Hf.
Qed.

Lemma get_top_p_raises w s e s' :
  get_top_p w s = (Raise e, s') -> exn_class_of e = ValueError.
Proof.
  unfold get_top_p, _get_top_p.
  destruct (_ensure_env_loaded_run s) as (s0 & E & _).
  rewrite (bind_Return _ _ _ _ _ E), bind_get_state.
  destruct (_top_p (Settings s0)); [ discriminate | ].
  unfold getenv. rewrite bind_ask. unfold bind, lift.
  destruct (Builtins.float _) as [f | e0] eqn:Hf; [ discriminate | ].
  intros [= <- _]. eapply float_raises, Hf.
Qed.

(** An attempt on an instance without handle: it fails with APIError
    before any request, and the instance still has no handle. *)
Lemma extract_body_no_handle w self image sp up s r s' :
  self_client s self = None ->
  extract_body w self image sp up s = (r, s') ->
  (exists msg, r = Raise (Exn APIError msg)) /\
  self_client s' self = None /\
  requests_sent (trace s') = requests_sent (trace s) /\
  sleeps (trace s') = sleeps (trace s).
Proof.
  intros Hnone.
  set (I := fun s0 : State =>
              self_client s0 self = None /\
              effort (requests_sent (trace s)) (sleeps (trace s)) s0).
  set (K := fun k => negb (is_kind k KRequest || is_kind k KSleep)).
  assert (Hq : forall ev s0, K (kind_of ev) = true -> I s0 -> I (logged ev s0)).
  { intros ev s0 Hk [Hn He]. split; [ exact Hn | now apply effort_quiet ]. }
  assert (Hd : forall s0, _load_dotenv_called s0 = false -> I s0 ->
                 I (set_load_dotenv_called true (logged EvLoadDotenv s0))).
  { intros s0 _ Hi. now apply (Hq EvLoadDotenv). }
  assert (Hs : forall c s0, I s0 -> I (set_Settings c s0))
    by (intros; assumption).
  assert (Hi : I s) by (split; [ exact Hnone | split; reflexivity ]).
  assert (Hpost : forall s0, I s0 ->
            self_client s0 self = None /\
            requests_sent (trace s0) = requests_sent (trace s) /\
            sleeps (trace s0) = sleeps (trace s)).
  { intros s0 [Hn [Hr Hl]]. auto. }
  unfold extract_body, try_except.
  match goal with |- context [match ?m s with _ => _ end] =>
    destruct (m s) as [[r0 | e0] s0] eqn:E end.
  - exfalso.
    apply bind_inv in E as [(t & s1 & Ht & E) | (e & _ & [=])].
    apply bind_inv in E as [(p & s2 & Hp & E) | (e & _ & [=])].
    cbn zeta in E.
    apply bind_inv in E as [(c & s3 & Hc & E) | (e & _ & [=])].
    pose proof (get_temperature_keeps w I K Hq Hd Hs eq_refl _ _ _ Hi Ht) as H1.
    pose proof (get_top_p_keeps w I K Hq Hd Hs eq_refl _ _ _ H1 Hp) as [H2 _].
    revert Hc. unfold client. rewrite bind_get_state, H2. discriminate.
  - assert (He0 : I s0 /\ (exn_class_of e0 = ValueError \/
                           exists msg, e0 = Exn APIError msg)).
    { apply bind_inv in E as [(t & s1 & Ht & E) | (e & Ht & [= ->])].
      2:{ split; [ eapply (get_temperature_keeps w I K Hq Hd Hs eq_refl); eauto | ].
          left. eapply get_temperature_raises, Ht. }
      pose proof (get_temperature_keeps w I K Hq Hd Hs eq_refl _ _ _ Hi Ht) as H1.
      apply bind_inv in E as [(p & s2 & Hp & E) | (e & Hp & [= ->])].
      2:{ split; [ eapply (get_top_p_keeps w I K Hq Hd Hs eq_refl); eauto | ].
          left. eapply get_top_p_raises, Hp. }
      pose proof (get_top_p_keeps w I K Hq Hd Hs eq_refl _ _ _ H1 Hp) as H2.
      cbn zeta in E.
      apply bind_inv in E as [(c & s3 & Hc & E) | (e & Hc & [= ->])].
      { exfalso. revert Hc. unfold client. destruct H2 as [H2 _].
        rewrite bind_get_state, H2. discriminate. }
      revert Hc. unfold client. destruct H2 as [H2n H2e].
      rewrite bind_get_state, H2n. intros [= <- <-].
      split; [ now split | ]. right. eauto. }
    destruct He0 as [Hi0 Hcls]. cbn [handler_for].
    destruct Hcls as [Hv | [msg ->]].
    + assert (Hc1 : caught_by [APIError] e0 = false)
        by (unfold caught_by, isinstance; now rewrite Hv).
      assert (Hc2 : caught_by [Exception] e0 = true)
        by (unfold caught_by, isinstance; now rewrite Hv).
      rewrite Hc1, Hc2. intros [= <- <-]. split; [ eauto | now apply Hpost ].
    + assert (Hc1 : caught_by [APIError] (Exn APIError msg) = true)
        by reflexivity.
      rewrite Hc1. intros [= <- <-]. split; [ eauto | now apply Hpost ].
Qed.

(** X16 ([extract] on an instance without handle).  When the instance
    owns no handle, [extract] never contacts the remote service: each of
    its three attempts fails with APIError, it sleeps twice, and ends with
    APIError, the instance still without handle. *)
Theorem extract_without_handle w self image system_prompt user_prompt
    s r s' :
  self_client s self = None ->
  extract w self image system_prompt user_prompt s = (r, s') ->
  (exists msg, r = Raise (Exn APIError msg)) /\
  self_client s' self = None /\
  requests_sent (trace s') = requests_sent (trace s) /\
  sleeps (trace s') = (sleeps (trace s) ++ [2; 2]%Z)%list.
Proof.
  intros Hnone. unfold extract, retry. cbn [Nat.sub].
  set (fn := extract_body w self image system_prompt user_prompt).
  destruct (fn s) as [r1 s1] eqn:E1.
  destruct (extract_body_no_handle _ _ _ _ _ _ _ _ Hnone E1)
    as ([m1 ->] & Hn1 & Hr1 & Hs1).
  rewrite (Retrying_again _ APIError _ _ _ _ _ _ E1 eq_refl).
  change (wait_exponential 1 2 10 1) with 2%Z.
  set (s1' := logged (EvSleep 2) s1).
  destruct (fn s1') as [r2 s2] eqn:E2.
  destruct (extract_body_no_handle _ _ _ _ _ s1' _ _ Hn1 E2)
    as ([m2 ->] & Hn2 & Hr2 & Hs2).
  rewrite (Retrying_again _ APIError _ _ _ _ _ _ E2 eq_refl).
  change (wait_exponential 1 2 10 2) with 2%Z.
  set (s2' := logged (EvSleep 2) s2).
  destruct (fn s2') as [r3 s3] eqn:E3.
  destruct (extract_body_no_handle _ _ _ _ _ s2' _ _ Hn2 E3)
    as ([m3 ->] & Hn3 & Hr3 & Hs3).
  rewrite Retrying_last, E3. cbn [fst]. intros [= <- <-].
  split; [ eauto | ]. split; [ exact Hn3 | ].
  unfold s2', s1' in *.
  rewrite requests_sent_logged in Hr3, Hr2. rewrite sleeps_logged in Hs3, Hs2.
  cbn in Hr3, Hr2. split; [ lia | ].
  rewrite Hs3, Hs2, Hs1, <- app_assoc. reflexivity.
Qed.

(** ** What leaves [run_pipeline] *)

(** X17 (only pipeline errors leave [run_pipeline]).  An exception of
    class [Exception] that leaves [run_pipeline] is an OCRException or one
    of its subclasses: everything else has been wrapped into the generic
    OCRException. *)
Theorem run_pipeline_raises_OCRException w image_path s e s' :
  run_pipeline w image_path s = (Raise e, s') ->
  isinstance e Exception = true ->
  isinstance e OCRException = true.
Proof.
  unfold run_pipeline, try_except.
  match goal with |- context [match ?m s with _ => _ end] =>
    destruct (m s) as [[r | e0] s0] end; [ discriminate | ].
  cbn [handler_for]. unfold caught_by. cbn [existsb].
  destruct (isinstance e0 OCRException) eqn:Ho; cbn [orb].
  - now intros [= <- <-].
  - destruct (isinstance e0 Exception) eqn:Hx; cbn [orb].
    + now intros [= <- <-].
    + intros [= <- <-]. congruence.
Qed.

(** The part of [run_pipeline] after the response has arrived. *)
Lemma run_pipeline_after_response w image_path s response s5 t :
  hands_response w image_path s response s5 ->
  text response = Some t ->
  forall v, Json.loads t = Return v ->
  run_pipeline w image_path s =
  (match usage_metadata response with
   | None => Return v
   | Some um =>
       match setitem v "usage_metadata"
               (JDict [("input_tokens",
                        json_of_count (prompt_token_count um));
                       ("output_tokens",
                        json_of_count (candidates_token_count um));
                       ("note", JStr "Populated from Gemini API")]) with
       | Return v' => Return v'
       | Raise e =>
           Raise (Exn OCRException
                    ("Pipeline execution failed: " ++ exn_str e))
       end
   end, s5).
Proof.
  intros (image & s1 & sp & s2 & up & s3 & c & s4 & H1 & H2 & H3 & H4 & H5)
         Htext v Hloads.
  unfold run_pipeline, try_except at 1.
  rewrite (bind_Return _ _ _ _ _ H1), (bind_Return _ _ _ _ _ H2),
          (bind_Return _ _ _ _ _ H3), (bind_Return _ _ _ _ _ H4),
          (bind_Return _ _ _ _ _ H5).
  rewrite Htext. unfold try_except, lift, bind. rewrite Hloads.
  destruct (usage_metadata response) as [um | ]; [ | reflexivity ].
  destruct v; reflexivity.
Qed.

(** X18 (without usage metadata the decoded value is returned as it is).
    When the response reports no usage metadata, [run_pipeline] returns
    what [json.loads] made of the text, unchanged, whether it is an object
    or not: a list, a number, a string or [null] is returned as such. *)
Theorem run_pipeline_without_usage w image_path s response s5 t v :
  hands_response w image_path s response s5 ->
  text response = Some t ->
  Json.loads t = Return v ->
  usage_metadata response = None ->
  run_pipeline w image_path s = (Return v, s5).
Proof.
  intros Hh Ht Hl Hu.
  rewrite (run_pipeline_after_response w image_path s response s5 t Hh Ht v Hl).
  now rewrite Hu.
Qed.

Lemma dict_get_setitem_eq {V} k (v : V) d :
  dict_get k (dict_setitem k v d) = Some v.
Proof.
  induction d as [ | [k' v'] d IH]; cbn.
  - now rewrite String.eqb_refl.
  - destruct (String.eqb k k') eqn:E; cbn; rewrite ?String.eqb_refl, ?E; auto.
Qed.

Lemma dict_get_setitem_ne {V} k k0 (v : V) d :
  k0 <> k -> dict_get k0 (dict_setitem k v d) = dict_get k0 d.
Proof.
  intros Hne. induction d as [ | [k' v'] d IH]; cbn.
  - destruct (String.eqb_spec k0 k); [ contradiction | reflexivity ].
  - destruct (String.eqb_spec k k') as [<- | Hkk]; cbn.
    + destruct (String.eqb_spec k0 k); [ contradiction | reflexivity ].
    + destruct (String.eqb k0 k'); auto.
Qed.

Lemma dict_setitem_keys {V} k (v : V) d :
  map fst (dict_setitem k v d) =
  match dict_get k d with
  | Some _ => map fst d
  | None => (map fst d ++ [k])%list
  end.
Proof.
  induction d as [ | [k' v'] d IH]; cbn; [ reflexivity | ].
  destruct (String.eqb_spec k k') as [<- | Hne]; cbn; [ reflexivity | ].
  rewrite IH. now destruct (dict_get k d).
Qed.

(** X19 (usage metadata on an object).  When the text decodes to an
    object and the response reports usage metadata, [run_pipeline] returns
    the object with the key [usage_metadata] bound to the two counts and the
    note.  Every other key keeps its value and the keys keep their order; a
    [usage_metadata] key of the service's own answer is overwritten in
    place, and a count the service left out is [null]. *)
Theorem run_pipeline_with_usage w image_path s response s5 t d um :
  hands_response w image_path s response s5 ->
  text response = Some t ->
  Json.loads t = Return (JDict d) ->
  usage_metadata response = Some um ->
  let injected :=
    JDict [("input_tokens", json_of_count (prompt_token_count um));
           ("output_tokens", json_of_count (candidates_token_count um));
           ("note", JStr "Populated from Gemini API")] in
  exists d',
    run_pipeline w image_path s = (Return (JDict d'), s5) /\
    dict_get "usage_metadata" d' = Some injected /\
    (forall k, k <> "usage_metadata" -> dict_get k d' = dict_get k d) /\
    map fst d' = match dict_get "usage_metadata" d with
                 | Some _ => map fst d
                 | None => (map fst d ++ ["usage_metadata"])%list
                 end.
Proof.
  intros Hh Ht Hl Hu injected.
  exists (dict_setitem "usage_metadata" injected d).
  rewrite (run_pipeline_after_response w image_path s response s5 t Hh Ht _ Hl).
  rewrite Hu. cbn [setitem]. split; [ reflexivity | ].
  split; [ apply dict_get_setitem_eq | ].
  split; [ intros k Hk; now apply dict_get_setitem_ne | ].
  apply dict_setitem_keys.
Qed.

(** X20 (usage metadata on a value that is not an object).  When the text
    decodes to a value that is not an object and the response reports
    usage metadata, the item assignment fails and [run_pipeline] raises the
    generic OCRException, whose message starts with
    [Pipeline execution failed: ]. *)
Theorem run_pipeline_usage_on_non_object w image_path s response s5 t v um :
  hands_response w image_path s response s5 ->
  text response = Some t ->
  Json.loads t = Return v ->
  (forall d, v <> JDict d) ->
  usage_metadata response = Some um ->
  exists msg,
    run_pipeline w image_path s =
    (Raise (Exn OCRException ("Pipeline execution failed: " ++ msg)), s5) /\
    msg = match v with
          | JList _ => "list indices must be integers or slices, not str"
          | _ => "'" ++ type_name v
                 ++ "' object does not support item assignment"
          end.
Proof.
  intros Hh Ht Hl Hv Hu.
  rewrite (run_pipeline_after_response w image_path s response s5 t Hh Ht _ Hl).
  rewrite Hu.
  destruct v; try (eexists; split; reflexivity).
  now contradiction (Hv d).
Qed.

Lemma calls_of_logged K ev s :
  calls_of K (trace (logged ev s)) =
  (calls_of K (trace s) ++ if K (kind_of ev) then [ev] else [])%list.
Proof.
  cbn [logged trace]. unfold calls_of. rewrite List.filter_app. cbn.
  now destruct (K (kind_of ev)).
Qed.

(** X21 (a failing image stops the run).  When [load_image] raises,
    [run_pipeline] ends there: a pipeline error is raised as it is, another
    exception of class [Exception] inside the generic OCRException.  No
    prompt has been read, no client constructed, no setting resolved, and
    the remote service has not been contacted: apart from the checks of the
    path and the decoder, nothing was called and no variable changed. *)
Theorem run_pipeline_image_failure w image_path s e s1 :
  load_image w image_path s = (Raise e, s1) ->
  run_pipeline w image_path s =
  (Raise (if isinstance e OCRException then e
          else if isinstance e Exception
               then Exn OCRException
                      ("Pipeline execution failed: " ++ exn_str e)
               else e), s1) /\
  beyond_image s1 = beyond_image s.
Proof.
  intros H. split.
  - unfold run_pipeline, try_except.
    rewrite (bind_Raise _ _ _ _ _ H). cbn [handler_for].
    unfold caught_by. cbn [existsb]. rewrite !orb_false_r.
    destruct (isinstance e OCRException); [ reflexivity | ].
    now destruct (isinstance e Exception).
  - refine (load_image_keeps w (fun s0 => beyond_image s0 = beyond_image s)
              is_image_work _ image_path eq_refl eq_refl s _ s1 eq_refl H).
    intros ev s0 Hk Hi. rewrite <- Hi. unfold beyond_image.
    rewrite calls_of_logged, Hk. cbn. now rewrite app_nil_r.
Qed.

(** ** The entry point *)


(** ** Runs in a warm process *)

Lemma _get_cached_prompt_returned w path s content s' :
  _get_cached_prompt w path s = (Return content, s') ->
  _PROMPT_CACHE s' !! path = Some content.
Proof.
  unfold _get_cached_prompt. rewrite bind_get_state.
  destruct (_PROMPT_CACHE s !! path) as [c | ] eqn:Hc.
  - now intros [= <- <-].
  - intros H. apply bind_inv in H as [(c & s0 & _ & H) | (e & _ & [=])].
    rewrite bind_modify in H. injection H as <- <-.
    cbn [_PROMPT_CACHE set_PROMPT_CACHE]. apply lookup_insert_eq.
Qed.

Lemma GeminiOCRClient_returned w s self s' :
  GeminiOCRClient w s = (Return self, s') -> _instance s' = Some self.
Proof.
  intros H. pose proof (GeminiOCRClient_shape w s _ s' H) as Hs.
  unfold GeminiOCRClient in H.
  destruct (_instance s) as [l | ] eqn:Hi.
  - rewrite (bind_Return _ _ _ _ _ (__new__again s l Hi)) in H.
    apply bind_inv in H as [(u & s1 & _ & H) | (e & _ & [=])].
    injection H as <- <-. tauto.
  - rewrite (bind_Return _ _ _ _ _ (__new__fresh s Hi)) in H.
    apply bind_inv in H as [(u & s1 & _ & H) | (e & _ & [=])].
    injection H as <- <-. tauto.
Qed.

(** A [try] none of whose handlers returns. *)
Lemma hoare_try_no_return {A} (P : State -> Prop) (m : Py A) clauses
    (Q : State -> Prop) :
  hoare P m (fun r s => match r with Return _ => Q s | Raise _ => True end) ->
  List.Forall (fun c => forall e s, exists e', snd c e s = (Raise e', s))
              clauses ->
  hoare P (try_except m clauses)
        (fun r s => match r with Return _ => Q s | Raise _ => True end).
Proof.
  intros Hm Hc s r s2 Hp. unfold try_except.
  destruct (m s) as [[a | e] s1] eqn:E.
  - intros [= <- <-]. apply (Hm s _ s1 Hp E).
  - destruct (handler_for clauses e) as [h | ] eqn:Hh.
    + assert (Hr : forall s0, exists e', h s0 = (Raise e', s0)).
      { revert Hh. clear -Hc. induction Hc as [ | [cs h0] rest H0 _ IH]; cbn.
        - discriminate.
        - destruct (caught_by cs e); [ | exact IH ].
          intros [= <-] s0. apply H0. }
      destruct (Hr s1) as [e' He']. rewrite He'. now intros [= <- <-].
    + now intros [= <- <-].
Qed.

(** X23 (a run that returns leaves the process warm).  After a run of the
    pipeline that returned, the environment file is loaded, the
    temperature, top-p and the model id are resolved, both prompts are
    cached, and the stored instance owns a handle. *)
Theorem run_pipeline_leaves_warm w image_path s result s' :
  run_pipeline w image_path s = (Return result, s') -> warm s'.
Proof.
  set (sys := "app/prompts/system.txt").
  set (ext := "app/prompts/extraction.txt").
  set (C1 := fun s0 : State => exists sp, _PROMPT_CACHE s0 !! sys = Some sp).
  set (C2 := fun s0 : State =>
               C1 s0 /\ exists up, _PROMPT_CACHE s0 !! ext = Some up).
  set (K := fun _ : kind => true).
  assert (Hh : hoare (fun _ => True) (run_pipeline w image_path)
                 (fun r s0 => match r with
                              | Return _ => warm s0
                              | Raise _ => True
                              end)).
  { unfold run_pipeline. apply hoare_try_no_return.
    2:{ repeat constructor; intros e s0; cbn [snd]; eexists; reflexivity. }
    eapply hoare_bind with (Q1 := fun _ _ => True);
      [ intros s0 r0 s1 _ _; exact I | intros image | auto ].
    eapply hoare_bind with
      (Q1 := fun r s0 => match r with Return _ => C1 s0 | Raise _ => True end);
      [ | intros sp | auto ].
    { intros s0 [sp0 | e] s1 _ E; [ | exact I ].
      exists sp0. eapply _get_cached_prompt_returned, E. }
    eapply hoare_bind with
      (Q1 := fun r s0 => match r with Return _ => C2 s0 | Raise _ => True end);
      [ | intros up | auto ].
    { intros s0 [up0 | e] s1 [sp0 Hsp] E; [ | exact I ]. split.
      - refine (_get_cached_prompt_keeps w C1 ext _ _ s0 _ s1
                  (ex_intro _ sp0 Hsp) E).
        + intros s2 r2 s3 Hi Hr. unfold C1.
          now rewrite (read_file_preserves _PROMPT_CACHE w ext
                         (fun _ _ => eq_refl) _ _ _ Hr).
        + intros content s2 Hnone [sp1 Hsp1]. exists sp1.
          cbn [_PROMPT_CACHE set_PROMPT_CACHE].
          rewrite lookup_insert_ne; [ exact Hsp1 | ].
          intros Heq. now rewrite <- Heq, Hnone in Hsp1.
      - exists up0. eapply _get_cached_prompt_returned, E. }
    eapply hoare_bind with
      (Q1 := fun r s0 => match r with
                         | Return self => C2 s0 /\ _instance s0 = Some self
                         | Raise _ => True
                         end);
      [ | intros self | auto ].
    { intros s0 [self0 | e] s1 Hc E; [ | exact I ]. split.
      - refine (GeminiOCRClient_keeps w C2 _ _ _ _ s0 _ s1 Hc E);
          try (intros; assumption).
        apply (get_api_key_keeps w C2 K); try (intros; assumption).
        reflexivity.
      - eapply GeminiOCRClient_returned, E. }
    eapply hoare_bind with
      (Q1 := fun r s0 => match r with
                         | Return _ => warm s0
                         | Raise _ => True
                         end);
      [ | intros response | auto ].
    { intros s0 [response0 | e] s1 [Hc Hi] E; [ | exact I ].
      assert (Hbody : exists s2,
                extract_body w self image sp up s2 = (Return response0, s1)).
      { revert E. unfold extract, retry.
        destruct (Retrying _ _ _ _ _ s0) as [[r1 s2] k] eqn:El.
        cbn [fst]. intros [= -> ->].
        eapply Retrying_answer, El. }
      destruct Hbody as [s2 Hbody].
      destruct (extract_body_returned _ _ _ _ _ _ _ _ Hbody)
        as (_ & _ & Hcl & Hf & Hset).
      assert (Hkeep : C2 s1 /\ _instance s1 = Some self).
      { refine (extract_keeps w
                  (fun s2 => C2 s2 /\ _instance s2 = Some self) K
                  _ _ _ self image sp up eq_refl eq_refl eq_refl
                  s0 _ s1 (conj Hc Hi) E); intros; assumption. }
      destruct Hkeep as [[[sp' Hsp] [up' Hup]] Hi1].
      destruct Hcl as [c Hcl].
      split; [ exact Hf | ]. split; [ exact Hset | ].
      split; [ exists sp', up'; now split | ].
      exists self, c. now split. }
    intros s0 r0 s1 Hw E.
    assert (Hk : keeps warm
              (let* data :=
                 try_except
                   (match text response with
                    | Some t => lift (Json.loads t)
                    | None =>
                        raise (Exn TypeError
                          "the JSON object must be str, bytes or bytearray, not NoneType")
                    end)
                   [([JSONDecodeError],
                     fun e => raise (Exn JSONParseError
                                ("Failed to parse JSON response: "
                                 ++ exn_str e)))] in
               let* data :=
                 match usage_metadata response with
                 | Some um =>
                     lift (setitem data "usage_metadata"
                             (JDict [("input_tokens",
                                      json_of_count (prompt_token_count um));
                                     ("output_tokens",
                                      json_of_count
                                        (candidates_token_count um));
                                     ("note",
                                      JStr "Populated from Gemini API")]))
                 | None => ret data
                 end in
               ret data)).
    { generalize warm. intros W. keeps_walk. }
    destruct r0; [ | exact I ]. eapply Hk; eauto. }
  intros H. exact (Hh s _ s' I H).
Qed.

(** An attempt keeps what its getters and its request keep. *)
Lemma extract_body_keeps_from w (I : State -> Prop) self image sp up :
  keeps I (get_temperature w) -> keeps I (get_top_p w) ->
  keeps I (get_model_id w) ->
  (forall c req s, I s -> I (logged (EvGenerateContent c req) s)) ->
  keeps I (extract_body w self image sp up).
Proof.
  intros Ht Hp Hm Hreq. unfold extract_body, client.
  keeps_walk; auto.
Qed.

Lemma warm_of_resolved s s0 : resolved s0 = resolved s -> warm s -> warm s0.
Proof.
  unfold resolved, warm, self_client.
  intros [= Hf Hs Hh Hi Hc _]. now rewrite Hf, Hs, Hh, Hi, Hc.
Qed.

(** X24 (a run in a warm process resolves nothing again).  In a warm
    process a run of the pipeline, whatever it ends with and whatever the
    outside has become, leaves the process warm and every variable of the
    package as it was, and makes no call that resolves them: the
    environment file is not loaded, no variable of the environment is
    looked up, no prompt file is read and no handle is created.  Only the
    image is checked and decoded, requests are sent and the loop sleeps. *)
Theorem warm_run w image_path s r s' :
  warm s ->
  run_pipeline w image_path s = (r, s') ->
  warm s' /\ resolved s' = resolved s.
Proof.
  intros Hw H.
  set (P := fun s0 : State => resolved s0 = resolved s).
  set (K := fun k => negb (is_setup k)).
  assert (Hq : forall ev s0, K (kind_of ev) = true -> P s0 -> P (logged ev s0)).
  { unfold P, K. intros ev s0 Hk Hi. rewrite <- Hi. unfold resolved.
    rewrite calls_of_logged. apply negb_true_iff in Hk. rewrite Hk.
    cbn. now rewrite app_nil_r. }
  assert (HP : forall s0, P s0 -> warm s0)
    by (intros s0 Hp; now apply (warm_of_resolved s)).
  assert (Hsame : forall A (m : Py A),
            (forall s0, P s0 -> exists a, m s0 = (Return a, s0)) ->
            keeps P m).
  { intros A m Hm s0 r0 s1 Hp E. destruct (Hm s0 Hp) as [a Ha].
    rewrite Ha in E. now injection E as <- <-. }
  assert (Hprompt : forall path,
            path = "app/prompts/system.txt" \/
            path = "app/prompts/extraction.txt" ->
            keeps P (_get_cached_prompt w path)).
  { intros path Hpath. apply Hsame. intros s0 Hp.
    destruct (HP s0 Hp) as (_ & _ & (sp & up & Hsp & Hup) & _).
    unfold _get_cached_prompt. rewrite bind_get_state.
    destruct Hpath as [-> | ->]; [ rewrite Hsp | rewrite Hup ]; eauto. }
  assert (Hclient : keeps P (GeminiOCRClient w)).
  { apply Hsame. intros s0 Hp.
    destruct (HP s0 Hp) as (_ & _ & _ & (self & c & Hi & Hc)).
    exists self. now apply later_construction with (c := c). }
  assert (Hextract : forall self image sp up,
            keeps P (extract w self image sp up)).
  { intros self image sp up. unfold extract. apply keeps_retry.
    - apply extract_body_keeps_from.
      + apply Hsame. intros s0 Hp.
        destruct (HP s0 Hp) as (Hf & (t & p & m & Ht & _ & _) & _).
        exists t. now apply _get_temperature_cached.
      + apply Hsame. intros s0 Hp.
        destruct (HP s0 Hp) as (Hf & (t & p & m & _ & Hpp & _) & _).
        exists p. now apply _get_top_p_cached.
      + apply Hsame. intros s0 Hp.
        destruct (HP s0 Hp) as (Hf & (t & p & m & _ & _ & Hm) & _).
        exists m. now apply _get_model_id_cached.
      + intros c req s0. now apply Hq.
    - intros z s0. now apply Hq. }
  assert (Hfinal : P s').
  { refine (run_pipeline_keeps w P image_path _ _ _ Hclient Hextract
              s r s' eq_refl H).
    - now apply (load_image_keeps w P K Hq).
    - apply Hprompt. now left.
    - apply Hprompt. now right. }
  split; [ now apply HP | exact Hfinal ].
Qed.

(** ** One attempt in a process whose settings are resolved *)

(** X25 (the request and its verdict).  In a process where the
    environment file is loaded, temperature, top-p and model id are
    resolved and the instance owns a handle, an attempt of [extract] sends
    exactly one request: the stored model id, the image and the user
    prompt as contents, and a configuration with the stored temperature and
    top-p, the JSON response type and the system prompt as system
    instruction.  An exception of the call is wrapped into APIError with
    its message (an APIError is kept, an exception outside [Exception] goes
    through); no response, a block reason (checked before the text, and
    quoted in the message) or an empty text raise APIError; otherwise the
    response is returned as it came. *)
Theorem extract_attempt w self image system_prompt user_prompt s c t p m :
  _load_dotenv_called s = true ->
  _temperature (Settings s) = Some t ->
  _top_p (Settings s) = Some p ->
  _model_id (Settings s) = Some m ->
  self_client s self = Some c ->
  let req := mkRequest m (image, user_prompt)
               (mkConfig t p "application/json" system_prompt) in
  extract_body w self image system_prompt user_prompt s =
  (match generate_content w (trace s) c req with
   | Raise e =>
       Raise (if isinstance e APIError then e
              else if isinstance e Exception
                   then Exn APIError ("Gemini API call failed: " ++ exn_str e)
                   else e)
   | Return None => Raise (Exn APIError "Empty response from Gemini API")
   | Return (Some response) =>
       match prompt_feedback response with
       | Some (mkFeedback (Some (String a reason))) =>
           Raise (Exn APIError ("Content blocked by safety filters: "
                                ++ String a reason))
       | _ =>
           if truthy (text response) then Return response
           else Raise (Exn APIError "Empty response text from Gemini API")
       end
   end, logged (EvGenerateContent c req) s).
Proof.
  intros Hf Ht Hp Hm Hc req. unfold extract_body, try_except.
  unfold get_temperature, get_top_p, get_model_id.
  rewrite (bind_Return _ _ _ _ _ (_get_temperature_cached w s t Hf Ht)).
  rewrite (bind_Return _ _ _ _ _ (_get_top_p_cached w s p Hf Hp)).
  cbn zeta.
  assert (Hcl : client self s = (Return c, s)).
  { unfold client. now rewrite bind_get_state, Hc. }
  rewrite (bind_Return _ _ _ _ _ Hcl).
  rewrite (bind_Return _ _ _ _ _ (_get_model_id_cached w s m Hf Hm)).
  cbn zeta. fold req. rewrite bind_call.
  destruct (generate_content w (trace s) c req) as [[response | ] | e].
  - unfold bind.
    destruct (prompt_feedback response) as [[[[ | a reason] | ]] | ];
      cbn [truthy block_reason negb default from_option id];
      destruct (truthy (text response)); reflexivity.
  - reflexivity.
  - cbn [handler_for]. unfold caught_by. cbn [existsb].
    rewrite !orb_false_r.
    destruct (isinstance e APIError); [ reflexivity | ].
    now destruct (isinstance e Exception).
Qed.

(** ** A numeric override of a float setting *)

(** X26 (a numeric TEMPERATURE or TOP_P).  When the variable is set to a
    text that [float] accepts, the first access returns the value [float]
    gives and stores it. *)
Theorem float_setting_override w s v f :
  let s0 := snd (_ensure_env_loaded s) in
  Builtins.float v = Return f ->
  (_temperature (Settings s) = None ->
   os_getenv w (trace s0) "TEMPERATURE" = Some v ->
   fst (get_temperature w s) = Return f /\
   _temperature (Settings (snd (get_temperature w s))) = Some f) /\
  (_top_p (Settings s) = None ->
   os_getenv w (trace s0) "TOP_P" = Some v ->
   fst (get_top_p w s) = Return f /\
   _top_p (Settings (snd (get_top_p w s))) = Some f).
Proof.
  intros s0 Hfl.
  destruct (_ensure_env_loaded_run s) as (s0' & E & Hf & Hs & _).
  assert (s0' = s0) as -> by (unfold s0; now rewrite E).
  split; intros Hnone Henv.
  - unfold get_temperature, _get_temperature.
    rewrite (bind_Return _ _ _ _ _ E), bind_get_state, Hs, Hnone.
    unfold getenv. rewrite bind_ask, Henv. cbn [default from_option].
    unfold id, bind, lift. rewrite Hfl. split; reflexivity.
  - unfold get_top_p, _get_top_p.
    rewrite (bind_Return _ _ _ _ _ E), bind_get_state, Hs, Hnone.
    unfold getenv. rewrite bind_ask, Henv. cbn [default from_option].
    unfold id, bind, lift. rewrite Hfl. split; reflexivity.
Qed.

(** ** Errors of the construction *)

(** X27 (how [__init__] fails).  On an instance without handle: a
    ConfigurationError of the key lookup is raised again as a
    ConfigurationError whose message starts with
    [Failed to initialize Gemini client: ]; once the key is resolved, any
    exception of class [Exception] raised by [genai.Client] becomes an
    APIError whose message starts with [Failed to create Gemini client: ].
    In both cases the instance still has no handle. *)
Theorem GeminiOCRClient_init_errors w self s :
  self_client s self = None ->
  (forall e s1,
     get_api_key w s = (Raise e, s1) ->
     exn_class_of e = ConfigurationError ->
     __init__ w self s =
     (Raise (Exn ConfigurationError
               ("Failed to initialize Gemini client: " ++ exn_str e)), s1)
     /\ self_client s1 self = None) /\
  (forall key s1 e,
     get_api_key w s = (Return key, s1) ->
     genai_Client w (trace s1) key = Raise e ->
     isinstance e Exception = true ->
     isinstance e ConfigurationError = false ->
     __init__ w self s =
     (Raise (Exn APIError
               ("Failed to create Gemini client: " ++ exn_str e)),
      logged (EvGenaiClient key) s1)
     /\ self_client (logged (EvGenaiClient key) s1) self = None).
Proof.
  intros Hnone.
  assert (Hheap : forall r s1, get_api_key w s = (r, s1) ->
                               self_client s1 self = None).
  { intros r s1 E.
    pose proof (get_api_key_preserves_client w _ _ _ E) as Hv.
    unfold client_view in Hv. injection Hv as Hh _ _.
    unfold self_client in *. now rewrite Hh. }
  split.
  - intros e s1 E Hcls. split; [ | eapply Hheap, E ].
    unfold __init__. rewrite bind_get_state, Hnone.
    rewrite (try_except_caught _ _ s e s1
               (raise (Exn ConfigurationError
                         ("Failed to initialize Gemini client: "
                          ++ exn_str e))));
      [ reflexivity | apply bind_Raise, E | ].
    cbn [handler_for]. unfold caught_by, isinstance. cbn [existsb].
    now rewrite Hcls.
  - intros key s1 e E Hg Hx Hc.
    split; [ | change (self_client s1 self = None); eapply Hheap, E ].
    unfold __init__. rewrite bind_get_state, Hnone.
    rewrite (try_except_caught _ _ s e (logged (EvGenaiClient key) s1)
               (raise (Exn APIError
                         ("Failed to create Gemini client: " ++ exn_str e))));
      [ reflexivity | | ].
    + rewrite (bind_Return _ _ _ _ _ E), bind_call, Hg. reflexivity.
    + cbn [handler_for]. unfold caught_by. cbn [existsb].
      now rewrite Hc, Hx.
Qed.

(** ** Instances of the further properties *)

Lemma settings_resolved_once_witness :
  (let s1 := snd (get_api_key world_ok init_state) in
   get_api_key world_no_env s1 = (Return "secret", s1)) /\
  (let s1 := snd (get_temperature world_ok init_state) in
   get_temperature world_bad_floats s1 = (Return (Finite 0), s1)).
Proof.
  split; intros s1.
  - apply (proj1 (settings_resolved_once world_ok init_state s1) "secret").
    vm_compute; reflexivity.
  - apply (proj1 (proj2 (proj2 (settings_resolved_once world_ok init_state
                                  s1))) (Finite 0)).
    vm_compute; reflexivity.
Defined.

Lemma required_setting_missing_witness :
  fst (get_api_key world_no_env init_state)
  = Raise (Exn ConfigurationError
             "GEMINI_API_KEY environment variable is not set")
  /\ _api_key (Settings (snd (get_api_key world_no_env init_state))) = None
  /\ fst (get_model_id world_empty_model init_state)
  = Raise (Exn ConfigurationError
             "GEMINI_MODEL environment variable is not set").
Proof.
  destruct (proj1 (required_setting_missing world_no_env init_state)
              eq_refl eq_refl) as [Hraise Hunset].
  destruct (proj2 (required_setting_missing world_empty_model init_state)
              eq_refl eq_refl) as [Hmodel _].
  split; [ exact Hraise | ]. split; [ exact (Hunset eq_refl) | exact Hmodel ].
Defined.

Lemma empty_required_setting_sticks_witness :
  let r := get_model_id world_empty_model init_state in
  fst r = Raise (Exn ConfigurationError
                   "GEMINI_MODEL environment variable is not set")
  /\ get_model_id world_empty_model (snd r) = (Return "", snd r).
Proof.
  intros r.
  destruct (proj2 (empty_required_setting_sticks world_empty_model init_state)
              eq_refl eq_refl) as [Hfirst Hlater].
  split; [ exact Hfirst | exact (Hlater world_empty_model) ].
Defined.

Lemma validate_image_path_returns_witness :
  validate_image_path world_ok sample_path init_state
  = (Return sample_path,
     logged (EvAccess sample_path)
       (logged (EvIsFile sample_path)
          (logged (EvExists sample_path) init_state))).
Proof.
  apply (proj2 (validate_image_path_returns world_ok sample_path init_state
                  _ _)).
  repeat split; try reflexivity. discriminate.
Defined.

Lemma load_image_never_OSError_witness :
  isinstance
    (Exn ImageLoadError
       "Failed to load image from images/sample.webp: image file is truncated")
    OSError = false.
Proof.
  apply (load_image_never_OSError world_truncated sample_path init_state _
           (snd (load_image world_truncated sample_path init_state))).
  vm_compute; reflexivity.
Defined.


Lemma load_image_refused_path_witness :
  load_image world_file_arrives sample_path init_state
  = (Raise (Exn ValidationError
              "Image path does not exist: images/sample.webp"),
     logged (EvExists sample_path) init_state).
Proof.
  apply load_image_refused_path; vm_compute; reflexivity.
Defined.

Lemma read_file_outcomes_witness :
  read_file world_file_arrives system_path init_state
  = (Raise (Exn ValidationError
              "File does not exist: app/prompts/system.txt"),
     logged (EvExists system_path) init_state)
  /\ read_file world_ok system_path init_state
  = (Return "prompt",
     logged (EvReadText system_path)
       (logged (EvIsFile system_path)
          (logged (EvExists system_path) init_state))).
Proof.
  split.
  - apply (proj1 (read_file_outcomes world_file_arrives system_path
                    init_state)).
    vm_compute; reflexivity.
  - exact (proj2 (proj2 (read_file_outcomes world_ok system_path
                           init_state)) eq_refl eq_refl).
Defined.

Lemma prompt_cache_frozen_witness :
  let s := after_run world_ok in
  _PROMPT_CACHE s !! system_path = Some "prompt"
  /\ _PROMPT_CACHE (snd (run_pipeline world_edited_prompts sample_path s))
       !! system_path = Some "prompt".
Proof.
  intros s.
  assert (H : _PROMPT_CACHE s !! system_path = Some "prompt")
    by (vm_compute; reflexivity).
  split; [ exact H | ].
  destruct (run_pipeline world_edited_prompts sample_path s) as [r s'] eqn:E.
  exact (proj2 (prompt_cache_frozen system_path "prompt" s H)
           world_edited_prompts sample_path r s' E).
Defined.

Lemma extract_effort_witness :
  let w := world_recovers in
  let run := extract w 0 sample_image "system" "user" (constructed w) in
  exists attempts,
    (1 <= attempts <= 3)%nat /\
    sleeps (trace (snd run))
    = (sleeps (trace (constructed w)) ++ repeat 2%Z (attempts - 1))%list /\
    (requests_sent (trace (snd run))
     <= requests_sent (trace (constructed w)) + attempts)%nat.
Proof.
  intros w run.
  apply (extract_effort w 0 sample_image "system" "user" (constructed w)
           (fst run) (snd run)).
  vm_compute; reflexivity.
Defined.

Lemma run_pipeline_effort_witness :
  let run := run_pipeline world_down sample_path init_state in
  (requests_sent (trace (snd run)) <= 3)%nat /\
  exists k, (k <= 2)%nat /\ sleeps (trace (snd run)) = repeat 2%Z k.
Proof.
  intros run.
  apply (run_pipeline_effort world_down sample_path init_state
           (fst run) (snd run)).
  vm_compute; reflexivity.
Defined.

Lemma extract_first_attempt_decides_witness :
  (let w := world_ok in
   let s := constructed w in
   extract w 0 sample_image "system" "user" s
   = (Return ok_response,
      snd (extract_body w 0 sample_image "system" "user" s))) /\
  (let w := world_interrupted in
   let s := constructed w in
   fst (extract w 0 sample_image "system" "user" s)
   = Raise (Exn KeyboardInterrupt "") /\
   requests_sent (trace (snd (extract w 0 sample_image "system" "user" s)))
   = 1%nat).
Proof.
  split; intros w s.
  - apply extract_first_attempt_decides; [ vm_compute; reflexivity | exact I ].
  - set (s' := snd (extract_body w 0 sample_image "system" "user" s)).
    rewrite (extract_first_attempt_decides w 0 sample_image "system" "user" s
               (Raise (Exn KeyboardInterrupt "")) s');
      [ split; vm_compute; reflexivity | vm_compute; reflexivity
      | vm_compute; reflexivity ].
Defined.

Lemma extract_returns_validated_witness :
  let w := world_ok in
  let run := extract w 0 sample_image "system" "user" (constructed w) in
  fst run = Return ok_response /\
  truthy (text ok_response) = true /\
  (exists c, self_client (snd run) 0%nat = Some c) /\
  _load_dotenv_called (snd run) = true.
Proof.
  intros w run.
  assert (H : run = (Return ok_response, snd run)) by (vm_compute; reflexivity).
  destruct (extract_returns_validated w 0 sample_image "system" "user"
              (constructed w) ok_response (snd run) H)
    as (Ht & _ & Hc & Hf & _).
  split; [ now rewrite H | ]. split; [ exact Ht | ].
  split; [ exact Hc | exact Hf ].
Defined.

Lemma extract_without_handle_witness :
  let w := world_no_env in
  let s := snd (GeminiOCRClient w init_state) in
  let run := extract w 0 sample_image "system" "user" s in
  self_client s 0%nat = None /\
  (exists msg, fst run = Raise (Exn APIError msg)) /\
  requests_sent (trace (snd run)) = requests_sent (trace s) /\
  sleeps (trace (snd run)) = (sleeps (trace s) ++ [2; 2]%Z)%list.
Proof.
  intros w s run.
  assert (Hnone : self_client s 0%nat = None) by (vm_compute; reflexivity).
  destruct (extract_without_handle w 0 sample_image "system" "user" s
              (fst run) (snd run) Hnone)
    as (Hmsg & _ & Hreq & Hsl); [ vm_compute; reflexivity | ].
  split; [ exact Hnone | ]. split; [ exact Hmsg | ].
  split; [ exact Hreq | exact Hsl ].
Defined.

Lemma run_pipeline_raises_OCRException_witness :
  let run := run_pipeline world_list_usage sample_path init_state in
  fst run = Raise (Exn OCRException
    "Pipeline execution failed: list indices must be integers or slices, not str")
  /\ isinstance (Exn OCRException
    "Pipeline execution failed: list indices must be integers or slices, not str")
       OCRException = true.
Proof.
  intros run.
  assert (H : run = (Raise (Exn OCRException
    "Pipeline execution failed: list indices must be integers or slices, not str"),
                     snd run)) by (vm_compute; reflexivity).
  split; [ now rewrite H | ].
  apply (run_pipeline_raises_OCRException world_list_usage sample_path
           init_state _ (snd run) H).
  reflexivity.
Defined.

Lemma run_pipeline_without_usage_witness :
  fst (run_pipeline world_list sample_path init_state)
  = Return (JList [JInt 1; JInt 2]).
Proof.
  run_first_steps world_list (mkResponse (Some "[1, 2]") None None).
  assert (Hloads : Json.loads "[1, 2]" = Return (JList [JInt 1; JInt 2]))
    by (vm_compute; reflexivity).
  now rewrite (run_pipeline_without_usage world_list sample_path init_state
                 _ s5 "[1, 2]" _ Hsteps eq_refl Hloads eq_refl).
Defined.

Lemma run_pipeline_with_usage_witness :
  exists d',
    fst (run_pipeline world_usage sample_path init_state) = Return (JDict d')
    /\ dict_get "a" d' = Some (JInt 1)
    /\ map fst d' = ["a"; "usage_metadata"].
Proof.
  run_first_steps world_usage
    (mkResponse (Some text_a1) None (Some (mkUsage (Some 5%Z) (Some 7%Z)))).
  destruct (run_pipeline_with_usage world_usage sample_path init_state _ s5
              text_a1 [("a", JInt 1)] (mkUsage (Some 5%Z) (Some 7%Z))
              Hsteps eq_refl loads_a1 eq_refl)
    as (d' & Hrun & _ & Hother & Hkeys).
  exists d'. split; [ now rewrite Hrun | ].
  split; [ now rewrite Hother | exact Hkeys ].
Defined.

Lemma run_pipeline_usage_on_non_object_witness :
  exists msg,
    fst (run_pipeline world_list_usage sample_path init_state)
    = Raise (Exn OCRException ("Pipeline execution failed: " ++ msg))
    /\ msg = "list indices must be integers or slices, not str".
Proof.
  run_first_steps world_list_usage
    (mkResponse (Some "[1, 2]") None (Some (mkUsage (Some 5%Z) None))).
  assert (Hloads : Json.loads "[1, 2]" = Return (JList [JInt 1; JInt 2]))
    by (vm_compute; reflexivity).
  destruct (run_pipeline_usage_on_non_object world_list_usage sample_path
              init_state _ s5 "[1, 2]" _ (mkUsage (Some 5%Z) None)
              Hsteps eq_refl Hloads (fun d => ltac:(discriminate)) eq_refl)
    as (msg & Hrun & Hmsg).
  exists msg. split; [ now rewrite Hrun | exact Hmsg ].
Defined.

Lemma run_pipeline_image_failure_witness :
  let run := run_pipeline world_file_arrives sample_path init_state in
  fst run = Raise (Exn ValidationError
                     "Image path does not exist: images/sample.webp")
  /\ beyond_image (snd run) = beyond_image init_state.
Proof.
  intros run.
  destruct (run_pipeline_image_failure world_file_arrives sample_path
              init_state
              (Exn ValidationError
                 "Image path does not exist: images/sample.webp")
              (logged (EvExists sample_path) init_state))
    as [Hrun Hsame]; [ vm_compute; reflexivity | ].
  unfold run. rewrite Hrun. split; [ reflexivity | exact Hsame ].
Defined.

Lemma run_pipeline_leaves_warm_witness : warm (after_run world_ok).
Proof.
  apply (run_pipeline_leaves_warm world_ok sample_path init_state
           (JDict [("a", JInt 1)])).
  vm_compute; reflexivity.
Defined.

Lemma warm_run_witness :
  let s := after_run world_ok in
  let run := run_pipeline world_down sample_path s in
  warm (snd run) /\ resolved (snd run) = resolved s.
Proof.
  intros s run.
  assert (Hw : warm s).
  { unfold warm. split; [ reflexivity | ].
    split; [ exists (Finite 0), (Finite (1 # 10)), "gemini-flash";
             repeat split; vm_compute; reflexivity | ].
    split; [ exists "prompt", "prompt"; split; vm_compute; reflexivity | ].
    exists 0%nat, (mkClient 0). split; vm_compute; reflexivity. }
  apply (warm_run world_down sample_path s (fst run) (snd run) Hw).
  vm_compute; reflexivity.
Defined.

Lemma extract_attempt_witness :
  let s := after_run world_ok in
  fst (extract_body world_blocked 0 sample_image "system" "user" s)
  = Raise (Exn APIError "Content blocked by safety filters: SAFETY").
Proof.
  intros s.
  now rewrite (extract_attempt world_blocked 0 sample_image "system" "user" s
                 (mkClient 0) (Finite 0) (Finite (1 # 10)) "gemini-flash"
                 eq_refl eq_refl eq_refl eq_refl eq_refl).
Defined.

Lemma float_setting_override_witness :
  fst (get_temperature world_override init_state) = Return (Finite (7 # 10))
  /\ _temperature (Settings (snd (get_temperature world_override init_state)))
     = Some (Finite (7 # 10)).
Proof.
  apply (proj1 (float_setting_override world_override init_state "0.7"
                  (Finite (7 # 10)) eq_refl)); reflexivity.
Defined.

Lemma GeminiOCRClient_init_errors_witness :
  fst (__init__ world_no_env 0 bare_instance)
  = Raise (Exn ConfigurationError
      "Failed to initialize Gemini client: GEMINI_API_KEY environment variable is not set")
  /\ fst (__init__ world_no_network 0 bare_instance)
  = Raise (Exn APIError "Failed to create Gemini client: network unreachable").
Proof.
  assert (Hnone : self_client bare_instance 0%nat = None) by reflexivity.
  split.
  - destruct (proj1 (GeminiOCRClient_init_errors world_no_env 0 bare_instance Hnone)
                (Exn ConfigurationError
                   "GEMINI_API_KEY environment variable is not set")
                (snd (get_api_key world_no_env bare_instance)))
      as [Hrun _]; [ vm_compute; reflexivity | reflexivity | ].
    now rewrite Hrun.
  - destruct (proj2 (GeminiOCRClient_init_errors world_no_network 0 bare_instance Hnone)
                "secret" (snd (get_api_key world_no_network bare_instance))
                (Exn OSError "network unreachable"))
      as [Hrun _];
      [ vm_compute; reflexivity | reflexivity | reflexivity | reflexivity | ].
    now rewrite Hrun.
Defined.
